(** * genericsync: reconciliation of a database table with a feature layer

    A shallow embedding of [src/genericsync.py] (class [DataSync]):
    [prepare_data] and [convert_geometry] (the normalizer), the outer join
    and column cleanup of [sync_data] (the differ) and the chunked upload of
    [add_to_ago] (the deliverer).

    A pandas [DataFrame] is an ordered list of labelled columns, a [Series]
    is the list of the values of one column.  The cells are Python values:
    integers, texts, [None], [nan] and the dict of a geometry; floats other
    than [nan] are not among them.  [prepare_data] works value by value
    and is modelled on columns that hold these values as they are (dtype
    [object]; a column of integers alone, dtype [int64], goes through the
    same way).  The join, [iterrows] and the construction of a frame
    depend on the dtype pandas gives a column: where it turns the integers
    of a column into floats (a column of integers with a gap when a frame
    is built, a column of integers that takes [nan] in an outer join, a
    row that mixes integer and float columns under [iterrows]) the result
    lies outside these values, and the statements about the values of
    such frames are made under the conditions [plain_table], [plain_frame]
    and [plain_rows]: columns of integers and columns of texts and
    [None], which pandas hands on as they are.
    Python exceptions are the [Raise] side of [py].  The behaviour of the
    libraries the script calls is that of pandas 1.x/2.x, of Python's [str]
    and of [re], and is written out next to each definition.  The two
    fetches and the layer are collaborators: [sync_data] is given the frames
    they return, and the layer is known by the batches it receives and by
    its answers. *)

From Stdlib Require Import String Ascii List ZArith Bool Arith Lia Permutation.
From Stdlib Require Import Numbers.DecimalString.
Import ListNotations.
Open Scope string_scope.
Open Scope list_scope.

(** ** Python strings *)

Module PyStr.

(** [sub in s] *)
Fixpoint contains (sub s : string) : bool :=
  String.prefix sub s ||
  match s with
  | EmptyString => false
  | String _ rest => contains sub rest
  end.

(** [s.replace(old, new)] for a non-empty [old]: the occurrences of [old]
    are found from the left and do not overlap.  [skip] counts the
    characters of the occurrence being replaced that are still to be
    passed over. *)
Fixpoint replace_from (old new : string) (skip : nat) (s : string) : string :=
  match s with
  | EmptyString => EmptyString
  | String c rest =>
      match skip with
      | S k => replace_from old new k rest
      | O =>
          if String.prefix old s
          then new ++ replace_from old new (String.length old - 1) rest
          else String c (replace_from old new 0 rest)
      end
  end.

Definition replace (old new s : string) : string := replace_from old new 0 s.

Definition is_gt (c : ascii) : bool := Ascii.eqb c ">".
Definition is_lt (c : ascii) : bool := Ascii.eqb c "<".

Fixpoint has_gt (s : string) : bool :=
  match s with
  | EmptyString => false
  | String c rest => is_gt c || has_gt rest
  end.

(** [re.sub(r'<[^>]*>', '', s)]: scanning from the left, a ['<'] that is
    followed somewhere by a ['>'] opens a match that runs up to the first
    such ['>'] (the class [[^>]] takes every other character, line breaks
    included); the match is deleted and the scan goes on behind it.
    [inside] says that the scan is within a match. *)
Fixpoint sub_tags_from (inside : bool) (s : string) : string :=
  match s with
  | EmptyString => EmptyString
  | String c rest =>
      if inside then
        if is_gt c then sub_tags_from false rest else sub_tags_from true rest
      else if is_lt c && has_gt rest then sub_tags_from true rest
      else String c (sub_tags_from false rest)
  end.

Definition sub_tags (s : string) : string := sub_tags_from false s.




(** [str(n)] for an [int] *)
Definition of_Z (z : Z) : string := NilZero.string_of_int (Z.to_int z).
Definition of_nat (n : nat) : string := of_Z (Z.of_nat n).

End PyStr.

(** ** Values, exceptions *)

(** The [geometry] attribute of a feature is a dict such as
    [{'x': .., 'y': ..}]; coordinates are taken as integers. *)
Definition geometry := list (string * Z).

(** The scalars a cell may hold.  [VNone] is Python's [None], [VNaN] the
    float [nan]; both count as missing for pandas. *)
Inductive value : Type :=
| VNone
| VNaN
| VStr (s : string)
| VInt (z : Z)
| VGeom (g : geometry).

Definition geometry_eq_dec (g h : geometry) : {g = h} + {g <> h}.
Proof. repeat decide equality. Defined.

Definition value_eq_dec (v w : value) : {v = w} + {v <> w}.
Proof.
  decide equality;
    [apply string_dec | apply Z.eq_dec | apply geometry_eq_dec].
Defined.

Definition isnull (v : value) : bool :=
  match v with
  | VNone | VNaN => true
  | _ => false
  end.

Inductive error : Type :=
| KeyError | TypeError | ValueError | MergeError | UnboundLocalError
| OverflowError.

(** A computation that returns or raises. *)
Inductive py (A : Type) : Type :=
| Ok (a : A)
| Raise (e : error).
Arguments Ok {A} a.
Arguments Raise {A} e.

Definition bind {A B : Type} (c : py A) (k : A -> py B) : py B :=
  match c with
  | Ok a => k a
  | Raise e => Raise e
  end.

Notation "x <- c ;; k" := (bind c (fun x => k))
  (at level 61, c at next level, right associativity).

Fixpoint mapM {A B : Type} (f : A -> py B) (l : list A) : py (list B) :=
  match l with
  | [] => Ok []
  | a :: rest => b <- f a ;; bs <- mapM f rest ;; Ok (b :: bs)
  end.

(** ** Data frames *)

Abbreviation Series := (list value).
Abbreviation DataFrame := (list (string * Series)).

Definition columns (df : DataFrame) : list string := map fst df.

Definition mem (c : string) (l : list string) : bool := existsb (String.eqb c) l.

(** [c in df.columns] *)
Definition has_col (c : string) (df : DataFrame) : bool := mem c (columns df).

(** [df[c]] for a label that is there *)
Definition getcol (df : DataFrame) (c : string) : Series :=
  match find (fun p => String.eqb c (fst p)) df with
  | Some (_, s) => s
  | None => []
  end.

Definition nrows (df : DataFrame) : nat :=
  match df with
  | [] => 0
  | (_, s) :: _ => List.length s
  end.

Definition at_ (s : Series) (i : nat) : value := nth i s VNaN.

(** [df.empty]: one of the axes has length 0 *)
Definition empty (df : DataFrame) : bool :=
  match df with
  | [] => true
  | _ => Nat.eqb (nrows df) 0
  end.

(** The columns whose label satisfies [p] are replaced by their image
    under [f] ([df[col] = f(df[col])] for each such [col]). *)
Definition update_cols (p : string -> bool) (f : Series -> Series)
    (df : DataFrame) : DataFrame :=
  map (fun cs => if p (fst cs) then (fst cs, f (snd cs)) else cs) df.

(** ** The normalizer: [prepare_data], [convert_geometry] *)

Section Normalizer.

(** [str(g)] of a geometry dict and [wkb.dumps(Point(x, y), hex=True)]
    belong to Python and to shapely. *)
Variable repr_geometry : geometry -> string.
Variable wkb_dumps_hex : Z -> Z -> string.

(** [str(x)] *)
Definition str (v : value) : string :=
  match v with
  | VNone => "None"
  | VNaN => "nan"
  | VStr s => s
  | VInt z => PyStr.of_Z z
  | VGeom g => repr_geometry g
  end.

(** [s.astype(str)] on an object column: [str] of every element, the
    missing ones included *)
Definition astype_str (s : Series) : Series := map (fun v => VStr (str v)) s.

Definition is_date_col (col : string) : bool :=
  PyStr.contains "date" col || PyStr.contains "time" col.

Definition is_note_col (col : string) : bool := PyStr.contains "note" col.

(** [data.fillna('')] *)
Definition fillna_empty (df : DataFrame) : DataFrame :=
  map (fun cs => (fst cs, map (fun v => if isnull v then VStr "" else v) (snd cs))) df.

Definition strip_markup (x : value) : value := VStr (PyStr.sub_tags (str x)).

(** [geometry[key]] *)
Fixpoint getitem (g : geometry) (key : string) : py Z :=
  match g with
  | [] => Raise KeyError
  | (k, z) :: rest => if String.eqb k key then Ok z else getitem rest key
  end.

(** [Point(x, y)] takes its coordinates as floats: an [int] converts to a
    float as long as its magnitude is below [2**1024 - 2**970], beyond that
    the conversion is an [OverflowError]. *)
Definition float_limit : Z := 2 ^ 1024 - 2 ^ 970.

Definition fits_float (z : Z) : bool := Z.ltb (Z.abs z) float_limit.

(** [convert_geometry]: subscripting [None], a float or an [int] raises
    [TypeError], and so does subscripting a [str] with a [str]. *)
Definition convert_geometry (geometry : value) : py value :=
  match geometry with
  | VGeom g =>
      x <- getitem g "x" ;;
      y <- getitem g "y" ;;
      if fits_float x && fits_float y
      then Ok (VStr (wkb_dumps_hex x y))
      else Raise OverflowError
  | _ => Raise TypeError
  end.

(** [data['geometry'] = data['geometry'].apply(self.convert_geometry)] *)
Fixpoint apply_geometry (df : DataFrame) : py DataFrame :=
  match df with
  | [] => Ok []
  | (c, s) :: rest =>
      s' <- (if String.eqb c "geometry" then mapM convert_geometry s else Ok s) ;;
      rest' <- apply_geometry rest ;;
      Ok ((c, s') :: rest')
  end.

Definition prepare_data (data : DataFrame) (spatial : bool) : py DataFrame :=
  let data := update_cols is_date_col astype_str data in
  let data := fillna_empty data in
  let data := update_cols is_note_col (map strip_markup) data in
  if spatial && has_col "geometry" data
  then apply_geometry data
  else Ok data.

End Normalizer.

(** ** The differ: the outer join and the column cleanup of [sync_data] *)

(** One row of the join: the positions of the left and right rows it is
    made of. *)
Inductive indexer : Type :=
| Both (i j : nat)
| LeftOnly (i : nat)
| RightOnly (j : nat).

(** Join keys are compared as pandas does: missing matches missing, any
    other value matches its equals. *)
Definition key_eqb (a b : value) : bool :=
  (isnull a && isnull b) || (if value_eq_dec a b then true else false).

Fixpoint tuple_eqb (a b : list value) : bool :=
  match a, b with
  | [], [] => true
  | x :: a', y :: b' => key_eqb x y && tuple_eqb a' b'
  | _, _ => false
  end.

Definition key_tuple (df : DataFrame) (keys : list string) (i : nat) : list value :=
  map (fun k => at_ (getcol df k) i) keys.

(** [Index.duplicated() & ~orig.duplicated()]: a label of [renamed] that
    repeats an earlier one at a position where [orig] did not. *)
Fixpoint new_dups (orig renamed seen_o seen_r : list string) : bool :=
  match orig, renamed with
  | o :: orig', r :: renamed' =>
      (mem r seen_r && negb (mem o seen_o))
      || new_dups orig' renamed' (o :: seen_o) (r :: seen_r)
  | _, _ => false
  end.

(** [mask] applied to a column: [s[mask]] *)
Fixpoint select_mask (mask : list bool) (s : Series) : Series :=
  match mask, s with
  | b :: mask', v :: s' => if b then v :: select_mask mask' s' else select_mask mask' s'
  | _, _ => []
  end.

(** [df[labels]]: for each label the columns that carry it, [KeyError]
    when there is none *)
Fixpoint getitem_labels (df : DataFrame) (labels : list string) : py DataFrame :=
  match labels with
  | [] => Ok []
  | c :: rest =>
      match filter (fun p => String.eqb c (fst p)) df with
      | [] => Raise KeyError
      | cols => more <- getitem_labels df rest ;; Ok (cols ++ more)
      end
  end.

(** [merged[merged['_merge'] == 'left_only'].drop('_merge', axis=1)] *)
Definition left_only_records (merged : DataFrame) : DataFrame :=
  let mask := map (fun v => if value_eq_dec v (VStr "left_only") then true else false)
                  (getcol merged "_merge") in
  let records := map (fun cs => (fst cs, select_mask mask (snd cs))) merged in
  filter (fun cs => negb (String.eqb "_merge" (fst cs))) records.

(** [records[records.columns.drop(list(records.filter(regex='_y')))]]: the
    columns whose label has a match of [_y] are listed and their labels
    removed from the labels to keep. *)
Definition drop_y_columns (records : DataFrame) : py DataFrame :=
  let y_cols := filter (PyStr.contains "_y") (columns records) in
  let kept := filter (fun c => negb (mem c y_cols)) (columns records) in
  getitem_labels records kept.

(** [records.columns = records.columns.str.replace('_x', '')] *)
Definition strip_x_suffix (records : DataFrame) : DataFrame :=
  map (fun cs => (PyStr.replace "_x" "" (fst cs), snd cs)) records.

(** A cell of an [int64] column, and a cell of a column of texts. *)
Definition is_int64 (v : value) : bool :=
  match v with
  | VInt z => Z.leb (- 2 ^ 63) z && Z.ltb z (2 ^ 63)
  | _ => false
  end.

Definition is_text (v : value) : bool :=
  match v with
  | VStr _ | VNone => true
  | _ => false
  end.

(** The cells of the column labelled [k], one for each row of the frame. *)
Definition key_cells (df : DataFrame) (k : string) : Series :=
  map (at_ (getcol df k)) (seq 0 (nrows df)).

(** The check of the key columns that [pd.merge] makes before it joins:
    a key column of integers ([int64]) against one of texts and [None]
    ([object] without a number) is refused with "You are trying to merge on
    int64 and object columns"; the check is skipped when one of the frames
    has no row. *)
Definition keys_clash (left right : DataFrame) (k : string) : bool :=
  negb (Nat.eqb (nrows left) 0) && negb (Nat.eqb (nrows right) 0)
  && ((forallb is_int64 (key_cells left k) && forallb is_text (key_cells right k))
      || (forallb is_text (key_cells left k) && forallb is_int64 (key_cells right k))).

Section Differ.

(** The order in which an outer join lists its rows (pandas sorts them
    by key) is left to the library. *)
Variable join_order : list indexer -> list indexer.

Definition rows_match (left right : DataFrame) (keys : list string) (i j : nat) : bool :=
  tuple_eqb (key_tuple left keys i) (key_tuple right keys j).

Definition join_indexers (left right : DataFrame) (keys : list string) : list indexer :=
  let nl := nrows left in
  let nr := nrows right in
  join_order
    (flat_map (fun i =>
                 match filter (rows_match left right keys i) (seq 0 nr) with
                 | [] => [LeftOnly i]
                 | js => map (Both i) js
                 end) (seq 0 nl)
     ++ flat_map (fun j =>
                    if existsb (fun i => rows_match left right keys i j) (seq 0 nl)
                    then [] else [RightOnly j]) (seq 0 nr)).

(** A label both frames carry outside the key gets a suffix. *)
Definition overlaps (left right : DataFrame) (keys : list string) (c : string) : bool :=
  has_col c left && has_col c right && negb (mem c keys).

Definition take_left (right : DataFrame) (keys : list string) (c : string)
    (s : Series) (ix : indexer) : value :=
  match ix with
  | Both i _ | LeftOnly i => at_ s i
  | RightOnly j => if mem c keys then at_ (getcol right c) j else VNaN
  end.

Definition take_right (s : Series) (ix : indexer) : value :=
  match ix with
  | Both _ j | RightOnly j => at_ s j
  | LeftOnly _ => VNaN
  end.

Definition indicator (ix : indexer) : value :=
  VStr (match ix with
        | Both _ _ => "both"
        | LeftOnly _ => "left_only"
        | RightOnly _ => "right_only"
        end).

Definition reserved (c : string) : bool :=
  String.eqb c "_merge" || String.eqb c "_left_indicator"
  || String.eqb c "_right_indicator".

(** [pd.merge(left, right, how='outer', on=keys, indicator=True)] for a
    list of keys that is not empty: a key that one of the frames lacks is
    a [KeyError], key columns of integers on one side and of texts on the
    other a [ValueError], a column named like the indicator or its helpers
    a [ValueError], labels that the suffixes make collide a [MergeError].
    The cells of the result are those of the two frames and [nan]; the
    floats that pandas makes of the integers of a column that takes a
    [nan] are outside the values of this development. *)
Definition merge_outer (left right : DataFrame) (keys : list string) : py DataFrame :=
  if negb (forallb (fun k => has_col k left && has_col k right) keys)
  then Raise KeyError
  else if existsb (keys_clash left right) keys
  then Raise ValueError
  else if existsb reserved (columns left ++ columns right)
  then Raise ValueError
  else
    let ixs := join_indexers left right keys in
    let right' := filter (fun cs => negb (mem (fst cs) keys)) right in
    let lcols :=
      map (fun cs =>
             (if overlaps left right keys (fst cs) then (fst cs ++ "_x")%string else fst cs,
              map (take_left right keys (fst cs) (snd cs)) ixs)) left in
    let rcols :=
      map (fun cs =>
             (if overlaps left right keys (fst cs) then (fst cs ++ "_y")%string else fst cs,
              map (take_right (snd cs)) ixs)) right' in
    if new_dups (columns left) (columns lcols) [] []
       || new_dups (columns right') (columns rcols) [] []
    then Raise MergeError
    else Ok (lcols ++ rcols ++ [("_merge", map indicator ixs)]).

(** Lines 68 to 75 of [sync_data]: the frame handed to [add_to_ago]. *)
Definition records_to_add (db_data ago_data : DataFrame) (key_columns : list string)
    : py DataFrame :=
  merged <- merge_outer db_data ago_data key_columns ;;
  let records := left_only_records merged in
  records <- drop_y_columns records ;;
  let records := strip_x_suffix records in
  (* records[db_data.columns] *)
  getitem_labels records (columns db_data).

End Differ.

(** ** The deliverer: [add_to_ago] *)

Abbreviation Feature := (list (string * value)).

(** [d[k] = v] on a dict *)
Fixpoint dict_set (d : Feature) (k : string) (v : value) : Feature :=
  match d with
  | [] => [(k, v)]
  | (k', v') :: rest =>
      if String.eqb k' k then (k', v) :: rest else (k', v') :: dict_set rest k v
  end.

(** [row.drop(['geometry'], errors='ignore').to_dict()] *)
Definition row_attributes (row : list (string * value)) : Feature :=
  fold_left (fun d kv => dict_set d (fst kv) (snd kv))
            (filter (fun kv => negb (String.eqb (fst kv) "geometry")) row) [].

(** Row [i] of a frame, labelled *)
Definition row_of (data : DataFrame) (i : nat) : list (string * value) :=
  map (fun cs => (fst cs, at_ (snd cs) i)) data.

(** [data.iterrows()], for a frame whose rows pandas yields as they are
    (no row that mixes integer and float columns) *)
Definition iterrows (data : DataFrame) : list (list (string * value)) :=
  map (row_of data) (seq 0 (nrows data)).

(** [range(start, stop, step)] for a positive step, as the loop runs it:
    the counter advances by [step] while it is below [stop]. *)
Fixpoint range_from (fuel i stop step : nat) : list nat :=
  match fuel with
  | O => []
  | S fuel' => if Nat.ltb i stop then i :: range_from fuel' (i + step) stop step else []
  end.

Definition range (start stop step : nat) : list nat :=
  range_from (stop - start) start stop step.

(** [l[i:j]] *)
Definition slice {A : Type} (l : list A) (i j : nat) : list A :=
  firstn (j - i) (skipn i l).

Definition chunk_size : nat := 100.

(** What the run leaves outside the process: the batches sent to
    [layer.edit_features(adds=..)], in order, and the lines printed. *)
Record portal : Type := Portal {
  calls : list (list Feature);
  stdout : list string
}.

Section Deliverer.

(** The answer of [layer.edit_features(adds=chunk)], which may depend on
    what the layer received before. *)
Variable R : Type.
Variable edit_features : list (list Feature) -> list Feature -> R.

(** The local variables of the loop of [add_to_ago]. *)
Record locals : Type := Locals {
  loc_portal : portal;
  loc_results : list R;
  loc_added : nat;
  loc_result : option R
}.

Definition loop_body (features_to_add : list Feature) (size : nat)
    (st : locals) (i : nat) : locals :=
  let chunk := slice features_to_add i (i + size) in
  let result := edit_features (calls (loc_portal st)) chunk in
  {| loc_portal := {| calls := calls (loc_portal st) ++ [chunk];
                      stdout := stdout (loc_portal st) |};
     loc_results := loc_results st ++ [result];
     loc_added := loc_added st + List.length chunk;
     loc_result := Some result |}.

Definition upload_loop (size : nat) (w : portal) (features_to_add : list Feature)
    : locals :=
  fold_left (loop_body features_to_add size)
            (range 0 (List.length features_to_add) size)
            {| loc_portal := w; loc_results := []; loc_added := 0;
               loc_result := None |}.

(** [add_to_ago], for the layer that [fetch_ago_data] found under the
    same name: the state after the call and what it returns; with no row
    the name [result] is unbound at the [return]. *)
Definition add_to_ago (w : portal) (data : DataFrame) : portal * py R :=
  let features_to_add := map row_attributes (iterrows data) in
  let st := upload_loop chunk_size w features_to_add in
  let w' := {| calls := calls (loc_portal st);
               stdout := stdout (loc_portal st)
                         ++ [("Added " ++ PyStr.of_nat (List.length features_to_add)
                              ++ " records to AGO.")%string] |} in
  (w', match loc_result st with
       | Some r => Ok r
       | None => Raise UnboundLocalError
       end).

(** The local list [results] when [add_to_ago] reaches its [return]. *)
Definition add_to_ago_results (w : portal) (data : DataFrame) : list R :=
  loc_results (upload_loop chunk_size w (map row_attributes (iterrows data))).

Variable join_order : list indexer -> list indexer.

(** [sync_data] on the two fetched frames; it returns [None]. *)
Definition sync_data (w : portal) (ago_data db_data : DataFrame)
    (key_columns : list string) : py portal :=
  records <- records_to_add join_order db_data ago_data key_columns ;;
  if negb (empty records)
  then Ok (fst (add_to_ago w records))
  else Ok {| calls := calls w; stdout := stdout w ++ ["No new records to sync."] |}.

End Deliverer.

Arguments loc_portal {R} _.
Arguments loc_results {R} _.
Arguments loc_added {R} _.
Arguments loc_result {R} _.
Arguments loop_body {R} edit_features features_to_add size st i.
Arguments upload_loop {R} edit_features size w features_to_add.
Arguments add_to_ago {R} edit_features w data.
Arguments add_to_ago_results {R} edit_features w data.
Arguments sync_data {R} edit_features join_order w ago_data db_data key_columns.

(** ** Vocabulary of the statements *)

(** What one cell of a column labelled [col] becomes in [prepare_data]
    before the geometry step. *)
Definition prepare_cell (repr_geometry : geometry -> string) (col : string)
    (v : value) : value :=
  let v := if is_date_col col then VStr (str repr_geometry v) else v in
  let v := if isnull v then VStr "" else v in
  if is_note_col col then strip_markup repr_geometry v else v.

(** The three column passes of [prepare_data], cell by cell. *)
Definition prepared (repr_geometry : geometry -> string) (data : DataFrame)
    : DataFrame :=
  map (fun cs => (fst cs, map (prepare_cell repr_geometry (fst cs)) (snd cs))) data.

(** The pipeline in the words of the specification: both fetched
    collections go through the normalizer before they are joined. *)
Definition normalized_records_to_add (repr_geometry : geometry -> string)
    (wkb_dumps_hex : Z -> Z -> string) (join_order : list indexer -> list indexer)
    (db_data ago_data : DataFrame) (spatial : bool) (key_columns : list string)
    : py DataFrame :=
  db <- prepare_data repr_geometry wkb_dumps_hex db_data false ;;
  ago <- prepare_data repr_geometry wkb_dumps_hex ago_data spatial ;;
  records_to_add join_order db ago key_columns.

Fixpoint distinct (l : list string) : bool :=
  match l with
  | [] => true
  | c :: rest => negb (mem c rest) && distinct rest
  end.

(** Two frames the join accepts: labels distinct within each frame, at
    least one key, the key columns in both, none of the labels the
    indicator reserves. *)
Definition joinable (left right : DataFrame) (keys : list string) : bool :=
  distinct (columns left) && distinct (columns right)
  && negb (Nat.eqb (List.length keys) 0)
  && forallb (fun k => has_col k left && has_col k right) keys
  && negb (existsb reserved (columns left ++ columns right)).

Definition clean_name (c : string) : bool :=
  negb (PyStr.contains "_x" c) && negb (PyStr.contains "_y" c).

(** The labels the join gives to a left and to a right column. *)
Definition left_label (left right : DataFrame) (keys : list string) (c : string) : string :=
  if overlaps left right keys c then (c ++ "_x")%string else c.
Definition right_label (left right : DataFrame) (keys : list string) (c : string) : string :=
  if overlaps left right keys c then (c ++ "_y")%string else c.

Definition is_left_only (ix : indexer) : bool :=
  match ix with
  | LeftOnly _ => true
  | _ => false
  end.

(** The left rows of a join that found no partner, in the order of the
    join. *)
Definition left_only_rows (ixs : list indexer) : list nat :=
  flat_map (fun ix => match ix with LeftOnly i => [i] | _ => [] end) ixs.

(** The rows of the left frame without a partner, under the labels of the
    left frame. *)
Definition left_only_frame (join_order : list indexer -> list indexer)
    (left right : DataFrame) (keys : list string) : DataFrame :=
  map (fun cs : string * Series =>
         (fst cs,
          map (at_ (snd cs)) (left_only_rows (join_indexers join_order left right keys))))
      left.

(** Row [i] of [left] has no row of [right] with its key. *)
Definition unmatched (left right : DataFrame) (keys : list string) (i : nat) : bool :=
  negb (existsb (rows_match left right keys i) (seq 0 (nrows right))).

(** The chunks the loop of [add_to_ago] cuts a list into. *)
Definition chunks_of {A : Type} (size : nat) (l : list A) : list (list A) :=
  map (fun i => slice l i (i + size)) (range 0 (List.length l) size).

(** The answers of the layer to a sequence of batches sent after [history]. *)
Fixpoint responses {R : Type} (edit_features : list (list Feature) -> list Feature -> R)
    (history : list (list Feature)) (batches : list (list Feature)) : list R :=
  match batches with
  | [] => []
  | chunk :: rest =>
      edit_features history chunk :: responses edit_features (history ++ [chunk]) rest
  end.

(** The features a frame is turned into for [edit_features]. *)
Definition features_of (data : DataFrame) : list Feature :=
  map row_attributes (iterrows data).

(** *** Frames whose values pandas holds as they are *)

Definition is_str (v : value) : bool :=
  match v with
  | VStr _ => true
  | _ => false
  end.

(** A column of integers (dtype [int64]), or of texts and [None] (dtype
    [object]). *)
Definition plain_column (s : Series) : bool :=
  forallb is_int64 s || forallb is_text s.

(** A frame of such columns: no row of it mixes integers and floats, so
    that [iterrows] yields every row as it is. *)
Definition plain_frame (df : DataFrame) : bool :=
  forallb (fun cs => plain_column (snd cs)) df.

(** The key columns of the two frames are of one kind: integers in both
    frames, or strings in both. *)
Definition same_kind_keys (left right : DataFrame) (keys : list string) : bool :=
  forallb (fun k =>
             (forallb is_int64 (getcol left k) && forallb is_int64 (getcol right k))
             || (forallb is_str (getcol left k) && forallb is_str (getcol right k)))
          keys.

(** A table whose columns outside the key hold texts and [None]: the
    [nan] that an outer join puts into them for the rows of the other
    frame turns none of its values into a float. *)
Definition plain_table (df : DataFrame) (keys : list string) : bool :=
  forallb (fun cs => mem (fst cs) keys || forallb is_text (snd cs)) df.

(** ** The adapters: [fetch_ago_data], [execute_query], [fetch_db_data] *)

(** A feature of a layer: [f.attributes] and [f.geometry]. *)
Record feature : Type := {
  attributes : Feature;
  geometry_of : value
}.

(** A layer or table of a feature service: [l.properties.name],
    [l.properties.type] and the features that
    [l.query(where="1=1", out_fields="*", return_geometry=True)] returns. *)
Record layer : Type := {
  layer_name : string;
  layer_type : string;
  layer_features : list feature
}.

(** The item that [gis.content.get(fs_id)] finds. *)
Record feature_service : Type := {
  layers : list layer;
  tables : list layer
}.

(** [next((l for l in feature_service.layers + feature_service.tables
           if l.properties.name == layer_name), None)], the lookup of
    [fetch_ago_data] and of [add_to_ago] *)
Definition find_layer (fs : feature_service) (name : string) : option layer :=
  find (fun l => String.eqb (layer_name l) name) (layers fs ++ tables fs).

(** [d.get(k)] *)
Fixpoint dict_get (d : Feature) (k : string) : option value :=
  match d with
  | [] => None
  | (k', v) :: rest => if String.eqb k' k then Some v else dict_get rest k
  end.

(** The labels of [pd.DataFrame(dicts)]: the keys of the dicts in the
    order in which they first appear. *)
Definition add_labels (seen : list string) (d : Feature) : list string :=
  fold_left (fun acc kv => if mem (fst kv) acc then acc else acc ++ [fst kv]) d seen.

Definition dict_labels (ds : list Feature) : list string :=
  fold_left add_labels ds [].

(** [pd.DataFrame(dicts)]: one row for each dict, [NaN] where a dict has
    no value for a label.  The values are kept as the dicts have them (a
    column in which pandas finds numbers and gaps only is not converted to
    floats here). *)
Definition frame_of_dicts (ds : list Feature) : DataFrame :=
  map (fun c => (c, map (fun d => match dict_get d c with
                                  | Some v => v
                                  | None => VNaN
                                  end) ds))
      (dict_labels ds).

(** [data[c] = values] for a list of values: the column labelled [c] is
    replaced where it stands, or a new column is put last; a list whose
    length is not the number of rows is a [ValueError]. *)
Definition setitem (data : DataFrame) (c : string) (s : Series) : py DataFrame :=
  match data with
  | [] => Ok [(c, s)]
  | _ =>
      if negb (Nat.eqb (List.length s) (nrows data)) then Raise ValueError
      else if has_col c data
      then Ok (map (fun cs => if String.eqb (fst cs) c then (c, s) else cs) data)
      else Ok (data ++ [(c, s)])
  end.

(** [fetch_ago_data] on the item that [gis.content.get(fs_id)] found. *)
Definition fetch_ago_data (fs : feature_service) (name : string) : py DataFrame :=
  match find_layer fs name with
  | None => Raise ValueError
  | Some layer =>
      let features := layer_features layer in
      let data := frame_of_dicts (map attributes features) in
      if negb (String.eqb (layer_type layer) "Table")
      then setitem data "geometry" (map geometry_of features)
      else Ok data
  end.

(** [pd.DataFrame(rows, columns=keys)] for a list of tuples: no row gives
    the columns without a row; otherwise the tuples are laid out as wide
    as the longest of them, [None] where a tuple is shorter, and that
    width has to be the number of labels.  The values are kept as the
    tuples have them (a column in which pandas finds numbers and gaps only
    is not converted to floats here). *)
Definition frame_of_rows (rows : list (list value)) (keys : list string) : py DataFrame :=
  match rows with
  | [] => Ok (map (fun c => (c, [])) keys)
  | _ =>
      let width := fold_right (fun r m => Nat.max (List.length r) m) 0 rows in
      if negb (Nat.eqb width (List.length keys)) then Raise ValueError
      else Ok (map (fun jc => (snd jc, map (fun r => nth (fst jc) r VNone) rows))
                   (combine (seq 0 (List.length keys)) keys))
  end.

Section Database.

(** [connection.execute(text(query))] on the engine of the [Database], for
    a query the database accepts: [result.keys()] and
    [result.fetchall()]. *)
Variable execute : string -> list string * list (list value).

Definition execute_query (query : string) : py DataFrame :=
  let result := execute query in
  frame_of_rows (snd result) (fst result).

Definition fetch_db_data (table_name : string) : py DataFrame :=
  let query := ("SELECT * FROM " ++ table_name)%string in
  execute_query query.

End Database.

(** [sync_data] with its two fetches, lines 64 to 80. *)
Definition sync_data_fetching {R : Type}
    (edit_features : list (list Feature) -> list Feature -> R)
    (join_order : list indexer -> list indexer)
    (execute : string -> list string * list (list value))
    (w : portal) (fs : feature_service) (ago_layer db_table : string)
    (key_columns : list string) : py portal :=
  ago_data <- fetch_ago_data fs ago_layer ;;
  db_data <- fetch_db_data execute db_table ;;
  sync_data edit_features join_order w ago_data db_data key_columns.

(** ** Vocabulary of the further statements *)

(** A ['<'] with a ['>'] somewhere behind it: what [re.sub] would match. *)
Fixpoint has_tag (s : string) : bool :=
  match s with
  | EmptyString => false
  | String c rest => (PyStr.is_lt c && PyStr.has_gt rest) || has_tag rest
  end.

(** A geometry that [convert_geometry] accepts. *)
Definition point_of (v : value) : option (Z * Z) :=
  match v with
  | VGeom g =>
      match getitem g "x", getitem g "y" with
      | Ok x, Ok y => Some (x, y)
      | _, _ => None
      end
  | _ => None
  end.

(** What the geometry step of [prepare_data] does to a column. *)
Definition geometry_step (wkb_dumps_hex : Z -> Z -> string)
    (cs cs' : string * Series) : Prop :=
  fst cs' = fst cs /\
  if String.eqb (fst cs) "geometry"
  then Forall2 (fun v v' => convert_geometry wkb_dumps_hex v = Ok v') (snd cs) (snd cs')
  else snd cs' = snd cs.

(** Every cell of every column labelled [geometry] is a dict with the
    keys [x] and [y], whose values are integers that convert to floats. *)
Definition geometries_ok (data : DataFrame) : bool :=
  forallb (fun cs => negb (String.eqb (fst cs) "geometry")
                     || forallb (fun v => match point_of v with
                                          | Some (x, y) => fits_float x && fits_float y
                                          | None => false
                                          end) (snd cs)) data.

(** The rows of a query laid out under [keys] give columns of integers
    and columns of texts and [None]. *)
Definition plain_rows (rows : list (list value)) (keys : list string) : bool :=
  forallb (fun j => plain_column (map (fun r => nth j r VNone) rows))
          (seq 0 (List.length keys)).

(** The row of a frame without its [geometry]. *)
Definition plain_row (data : DataFrame) (i : nat) : Feature :=
  filter (fun kv => negb (String.eqb (fst kv) "geometry")) (row_of data i).

(** ** Sample collaborators and frames *)

Module Sample.

(** [str] of a dict with plain keys and integer values *)
Definition repr_dict (g : geometry) : string :=
  ("{" ++ String.concat ", "
            (map (fun kz => "'" ++ fst kz ++ "': " ++ PyStr.of_Z (snd kz)) g)
       ++ "}")%string.

(** A stand-in for the hex dump of a point. *)
Definition hex_point (x y : Z) : string :=
  ("0101000000/" ++ PyStr.of_Z x ++ "/" ++ PyStr.of_Z y)%string.

(** Rows of the join in the order they are found. *)
Definition found_order (l : list indexer) : list indexer := l.

(** A layer that answers with the number of features it was sent. *)
Definition count_added (_ : list (list Feature)) (chunk : list Feature) : nat :=
  List.length chunk.

Definition fresh : portal := {| calls := []; stdout := [] |}.

Definition ints (l : list Z) : Series := map VInt l.

(** Scenario A of the specification, seen from the code: the table has
    the keys 1, 2, 3 and the layer the keys 1, 2. *)
Definition table_123 : DataFrame :=
  [("unique_id", ints [1; 2; 3]%Z);
   ("name", [VStr "a"; VStr "b"; VStr "c"])].
Definition layer_12 : DataFrame :=
  [("unique_id", ints [1; 2]%Z);
   ("name", [VStr "a"; VStr "b"]);
   ("geometry", [VGeom [("x", 1%Z); ("y", 2%Z)]; VNone])].

(** A table with its geometries as texts. *)
Definition table_wkb : DataFrame :=
  [("unique_id", ints [1; 2]%Z);
   ("name", [VStr "a"; VNone]);
   ("geometry", [VStr "0101000000/1/2"; VNone])].


(** Keys 1 on the left and 2 on the right. *)
Definition table_1 : DataFrame := [("unique_id", ints [1]%Z)].
Definition layer_2 : DataFrame := [("unique_id", ints [2]%Z)].

(** Two rows of the table with one key. *)
Definition table_dup : DataFrame :=
  [("unique_id", ints [7; 7]%Z); ("name", [VStr "a"; VStr "b"])].

(** A note with markup in a key column. *)
Definition table_note : DataFrame := [("site_note", [VStr "<b>A</b>"])].
Definition layer_note : DataFrame := [("site_note", [VStr "A"])].

(** Column names that the suffix cleanup takes for its own. *)
Definition table_tax : DataFrame :=
  [("unique_id", ints [1]%Z); ("tax_year", ints [2020]%Z)].
Definition layer_tax : DataFrame :=
  [("unique_id", ints [2]%Z); ("tax__xyear", ints [1999]%Z)].

(** The same table with the year as a text. *)
Definition table_fiscal : DataFrame :=
  [("unique_id", ints [1]%Z); ("tax_year", [VStr "2020"])].

(** A column whose name ends in [_x] and that the layer does not have. *)
Definition table_max : DataFrame :=
  [("unique_id", ints [1]%Z); ("max_x", [VStr "5"])].

(** A table with a column named like the indicator of the join. *)
Definition table_merge : DataFrame :=
  [("unique_id", ints [1]%Z); ("_merge", [VStr "kept"])].

Definition table_dates : DataFrame :=
  [("objectid", ints [1; 2]%Z);
   ("visit_date", [VNone; VStr "2024-05-01"]);
   ("Date", [VInt 5; VNone]);
   ("Notes", [VStr "<b>x</b>"; VNaN]);
   ("field_notes", [VStr "<b>Hello</b> world"; VNone])].

Definition spatial_null : DataFrame :=
  [("objectid", ints [1]%Z); ("geometry", [VNone])].

Definition numbered (n : nat) : DataFrame :=
  [("unique_id", map (fun i => VInt (Z.of_nat i)) (seq 0 n))].

End Sample.

Module SampleSources.

Definition site (id : Z) (label : string) (g : value) : feature :=
  {| attributes := [("unique_id", VInt id); ("name", VStr label)];
     geometry_of := g |}.

(** A service with the point layer [sites] and the table [visits]; the
    second feature of [sites] has an attribute of its own. *)
Definition sites : layer :=
  {| layer_name := "sites";
     layer_type := "Feature Layer";
     layer_features :=
       [site 1 "a" (VGeom [("x", 1%Z); ("y", 2%Z)]);
        {| attributes := [("unique_id", VInt 2); ("name", VStr "b");
                          ("remark", VStr "r")];
           geometry_of := VNone |}] |}.

Definition visits : layer :=
  {| layer_name := "visits";
     layer_type := "Table";
     layer_features := [site 7 "v" VNone] |}.

Definition service : feature_service :=
  {| layers := [sites]; tables := [visits] |}.

(** A database with the table [public.sites] of three rows. *)
Definition database (query : string) : list string * list (list value) :=
  if String.eqb query "SELECT * FROM public.sites"
  then (["unique_id"; "name"],
        [[VInt 1; VStr "a"]; [VInt 2; VStr "b"]; [VInt 3; VStr "c"]])
  else ([], []).

(** A frame with a malformed geometry in its second row. *)
Definition spatial_no_y : DataFrame :=
  [("objectid", [VInt 1; VInt 2]);
   ("geometry", [VGeom [("x", 3%Z); ("y", 4%Z)]; VGeom [("x", 5%Z)]])].

Definition spatial_ok : DataFrame :=
  [("objectid", [VInt 1; VInt 2]);
   ("geometry", [VGeom [("x", 3%Z); ("y", 4%Z)]; VGeom [("y", 6%Z); ("x", 5%Z)]])].

End SampleSources.

(** * Properties *)

(** ** Python strings *)

Module PyStrFacts.
Import PyStr.

Lemma has_gt_sub_tags_from (s : string) : forall inside,
  has_gt (sub_tags_from inside s) = true -> has_gt s = true.
Proof.
  induction s as [|c rest IH]; intros inside H; simpl in *.
  - discriminate.
  - destruct inside.
    + destruct (is_gt c); [reflexivity|].
      simpl. eapply IH; eassumption.
    + destruct (is_lt c && has_gt rest) eqn:E.
      * apply andb_true_iff in E. destruct E as [_ E].
        rewrite E. apply orb_true_r.
      * simpl in H. apply orb_true_iff in H. destruct H as [H|H].
        -- rewrite H. reflexivity.
        -- rewrite (IH _ H). apply orb_true_r.
Qed.

(** What [re.sub] leaves has no tag left in it. *)
Lemma sub_tags_from_fixed (s : string) : forall inside,
  sub_tags_from false (sub_tags_from inside s) = sub_tags_from inside s.
Proof.
  induction s as [|c rest IH]; intros inside; simpl.
  - reflexivity.
  - destruct inside.
    + destruct (is_gt c); apply IH.
    + destruct (is_lt c && has_gt rest) eqn:E.
      * apply IH.
      * simpl.
        assert (E' : is_lt c && has_gt (sub_tags_from false rest) = false).
        { destruct (is_lt c); [|reflexivity]. simpl in *.
          destruct (has_gt (sub_tags_from false rest)) eqn:G; [|reflexivity].
          apply has_gt_sub_tags_from in G. congruence. }
        rewrite E'. f_equal. apply IH.
Qed.

Lemma sub_tags_idempotent (s : string) : sub_tags (sub_tags s) = sub_tags s.
Proof. apply sub_tags_from_fixed. Qed.

End PyStrFacts.

(** ** The normalizer *)

Section NormalizerFacts.

Variable repr_geometry : geometry -> string.
Variable wkb_dumps_hex : Z -> Z -> string.

Lemma passes_prepared (data : DataFrame) :
  update_cols is_note_col (map (strip_markup repr_geometry))
    (fillna_empty (update_cols is_date_col (astype_str repr_geometry) data))
  = prepared repr_geometry data.
Proof.
  unfold update_cols, fillna_empty, prepared.
  rewrite !map_map. apply map_ext. intros [c s]. simpl.
  unfold prepare_cell.
  destruct (is_date_col c); simpl; destruct (is_note_col c); simpl;
    unfold astype_str; rewrite ?map_map; reflexivity.
Qed.

Lemma columns_prepared (data : DataFrame) :
  columns (prepared repr_geometry data) = columns data.
Proof. unfold columns, prepared. rewrite map_map. reflexivity. Qed.

Lemma prepare_data_plain (data : DataFrame) :
  prepare_data repr_geometry wkb_dumps_hex data false
  = Ok (prepared repr_geometry data).
Proof. unfold prepare_data. rewrite passes_prepared. reflexivity. Qed.

Lemma prepare_cell_fixed (col : string) (v : value) :
  prepare_cell repr_geometry col (prepare_cell repr_geometry col v)
  = prepare_cell repr_geometry col v.
Proof.
  unfold prepare_cell, strip_markup.
  destruct (is_date_col col); destruct (is_note_col col); simpl;
    try rewrite PyStrFacts.sub_tags_idempotent; try reflexivity;
    destruct (isnull v) eqn:N; simpl; rewrite ?N;
    try rewrite PyStrFacts.sub_tags_idempotent; reflexivity.
Qed.

Lemma prepared_fixed (data : DataFrame) :
  prepared repr_geometry (prepared repr_geometry data)
  = prepared repr_geometry data.
Proof.
  unfold prepared. rewrite map_map. apply map_ext. intros [c s]. simpl.
  rewrite map_map. f_equal. apply map_ext. intros v. apply prepare_cell_fixed.
Qed.

Lemma prepare_cell_not_null (col : string) (v : value) :
  isnull (prepare_cell repr_geometry col v) = false.
Proof.
  unfold prepare_cell, strip_markup.
  destruct (is_date_col col); destruct (is_note_col col); simpl;
    try reflexivity; destruct v; reflexivity.
Qed.

(** Outside the date and time columns a missing value ends as ['']. *)
Lemma missing_emptied (col : string) (v : value) :
  is_date_col col = false -> isnull v = true ->
  prepare_cell repr_geometry col v = VStr "".
Proof.
  intros D N. unfold prepare_cell, strip_markup. rewrite D, N.
  destruct (is_note_col col); reflexivity.
Qed.

(** In a date or time column a missing value ends as the text [str]
    gives it, which is not ['']. *)
Lemma missing_date_not_emptied (col : string) (v : value) :
  is_date_col col = true -> isnull v = true ->
  prepare_cell repr_geometry col v = VStr (str repr_geometry v)
  /\ prepare_cell repr_geometry col v <> VStr "".
Proof.
  intros D N. unfold prepare_cell, strip_markup. rewrite D.
  destruct v; try discriminate N; simpl;
    destruct (is_note_col col); simpl; split;
    solve [reflexivity | discriminate].
Qed.

Lemma mapM_raises {A B : Type} (f : A -> py B) (l : list A) (a : A) (e : error) :
  In a l -> f a = Raise e -> exists e', mapM f l = Raise e'.
Proof.
  induction l as [|x rest IH]; intros I F; [contradiction|].
  simpl. destruct (f x) as [b|e0] eqn:Fx; simpl.
  - destruct I as [->|I]; [congruence|].
    destruct (IH I F) as [e' ->]. simpl. eauto.
  - eauto.
Qed.

Lemma apply_geometry_raises (df : DataFrame) (s : Series) (e : error) :
  In ("geometry", s) df ->
  mapM (convert_geometry wkb_dumps_hex) s = Raise e ->
  exists e', apply_geometry wkb_dumps_hex df = Raise e'.
Proof.
  induction df as [|[c t] rest IH]; intros I M; [contradiction|].
  simpl. destruct I as [E|I].
  - inversion E; subst. simpl. rewrite M. simpl. eauto.
  - destruct (if String.eqb c "geometry"
              then mapM (convert_geometry wkb_dumps_hex) t else Ok t); simpl; eauto.
    destruct (IH I M) as [e' ->]. simpl. eauto.
Qed.

Lemma apply_geometry_other (df : DataFrame) : forall out j c s,
  apply_geometry wkb_dumps_hex df = Ok out ->
  nth_error df j = Some (c, s) -> String.eqb c "geometry" = false ->
  nth_error out j = Some (c, s).
Proof.
  induction df as [|[c0 s0] rest IH]; intros out j c s A N G.
  - destruct j; discriminate.
  - simpl in A.
    destruct (if String.eqb c0 "geometry"
              then mapM (convert_geometry wkb_dumps_hex) s0 else Ok s0)
      as [s0'|] eqn:E0; simpl in A; [|discriminate].
    destruct (apply_geometry wkb_dumps_hex rest) as [rest'|] eqn:ER;
      simpl in A; [|discriminate].
    injection A as <-. destruct j; simpl in *.
    + injection N as Ec Es. subst c0 s0. rewrite G in E0.
      injection E0 as <-. reflexivity.
    + eapply IH; eauto.
Qed.

Lemma nth_error_prepared (data : DataFrame) (j : nat) (c : string) (s : Series) :
  nth_error data j = Some (c, s) ->
  nth_error (prepared repr_geometry data) j
  = Some (c, map (prepare_cell repr_geometry c) s).
Proof.
  intros N. unfold prepared. rewrite nth_error_map, N. reflexivity.
Qed.

Lemma marked_not_geometry (c : string) :
  is_date_col c = true \/ is_note_col c = true -> String.eqb c "geometry" = false.
Proof.
  intros H. destruct (String.eqb c "geometry") eqn:E; [|reflexivity].
  apply String.eqb_eq in E. subst c. destruct H as [H|H]; discriminate H.
Qed.

(** C3. A missing value in a column named after a date or a time is not
    replaced by the empty string: [astype(str)] has made it the text
    ['None'] or ['nan'] before [fillna('')] runs, and that text is what
    [prepare_data] returns in its place. *)
Theorem missing_date_becomes_text
    (data out : DataFrame) (spatial : bool) (j i : nat) (col : string)
    (s : Series) (v : value)
    (Hrun : prepare_data repr_geometry wkb_dumps_hex data spatial = Ok out)
    (Hcol : nth_error data j = Some (col, s))
    (Hdate : is_date_col col = true)
    (Hcell : nth_error s i = Some v)
    (Hnull : isnull v = true) :
  exists s',
    nth_error out j = Some (col, s') /\
    nth_error s' i = Some (VStr (str repr_geometry v)) /\
    VStr (str repr_geometry v) <> VStr "".
Proof.
  exists (map (prepare_cell repr_geometry col) s).
  destruct (missing_date_not_emptied col v Hdate Hnull) as [E N].
  split; [|split].
  - unfold prepare_data in Hrun. rewrite passes_prepared in Hrun.
    pose proof (nth_error_prepared _ _ _ _ Hcol) as P.
    destruct (spatial && has_col "geometry" (prepared repr_geometry data)).
    + eapply apply_geometry_other; eauto using marked_not_geometry.
    + injection Hrun as <-. exact P.
  - rewrite nth_error_map, Hcell. simpl. now rewrite E.
  - rewrite <- E. exact N.
Qed.

(** C4. Normalizing a spatial collection in which a record has no
    geometry raises: the missing value has become [''] when
    [convert_geometry] subscripts it. *)
Theorem null_geometry_raises (data : DataFrame) (s : Series) (v : value)
    (Hcol : In ("geometry", s) data)
    (Hcell : In v s)
    (Hnull : isnull v = true) :
  exists e, prepare_data repr_geometry wkb_dumps_hex data true = Raise e.
Proof.
  unfold prepare_data. rewrite passes_prepared.
  assert (H : has_col "geometry" (prepared repr_geometry data) = true).
  { unfold has_col. rewrite columns_prepared. unfold mem, columns.
    apply existsb_exists. exists "geometry". split; [|reflexivity].
    apply (in_map fst) in Hcol. exact Hcol. }
  rewrite H. simpl.
  assert (exists e, mapM (convert_geometry wkb_dumps_hex)
                      (map (prepare_cell repr_geometry "geometry") s) = Raise e)
    as [e M].
  { eapply mapM_raises with (a := prepare_cell repr_geometry "geometry" v) (e := TypeError).
    - apply in_map. exact Hcell.
    - rewrite missing_emptied by (reflexivity || assumption). reflexivity. }
  eapply apply_geometry_raises; [|exact M].
  unfold prepared.
  apply (in_map (fun cs => (fst cs, map (prepare_cell repr_geometry (fst cs)) (snd cs))))
    in Hcol.
  exact Hcol.
Qed.


(** C9. Without the geometry step [prepare_data] always returns, and
    applying it to its own result changes nothing. *)
Theorem prepare_data_idempotent (data : DataFrame) :
  exists out,
    prepare_data repr_geometry wkb_dumps_hex data false = Ok out /\
    prepare_data repr_geometry wkb_dumps_hex out false = Ok out.
Proof.
  exists (prepared repr_geometry data).
  rewrite !prepare_data_plain, prepared_fixed. split; reflexivity.
Qed.

End NormalizerFacts.

(** ** The deliverer *)

Section ChunkFacts.

Context {A : Type}.
Variable size : nat.
Hypothesis size_pos : 0 < size.
Variable l : list A.

Lemma slice_chunk (i : nat) : slice l i (i + size) = firstn size (skipn i l).
Proof. unfold slice. replace (i + size - i) with size by lia. reflexivity. Qed.

Lemma ceil_step (n : nat) : 0 < n -> (n + size - 1) / size = S ((n - size + size - 1) / size).
Proof.
  intros Hn. destruct (le_lt_dec n size) as [Hle|Hgt].
  - replace (n - size) with 0 by lia. simpl.
    rewrite (Nat.div_small (size - 1) size) by lia.
    replace (n + size - 1) with ((n - 1) + 1 * size) by lia.
    rewrite Nat.div_add by lia. rewrite Nat.div_small by lia. reflexivity.
  - replace (n + size - 1) with ((n - size + size - 1) + 1 * size) by lia.
    rewrite Nat.div_add by lia. lia.
Qed.

(** The counter started at [i] with enough fuel cuts the rest of the
    list from [i] on. *)
Lemma range_from_chunks (fuel : nat) : forall i,
  List.length l - i <= fuel ->
  let cs := map (fun j => slice l j (j + size))
                (range_from fuel i (List.length l) size) in
  concat cs = skipn i l /\
  List.length cs = (List.length l - i + size - 1) / size /\
  forall k, i + k < List.length l ->
    nth_error (nth (k / size) cs []) (k mod size) = nth_error l (i + k).
Proof.
  induction fuel as [|fuel IH]; intros i Hfuel; simpl.
  - repeat split.
    + symmetry. apply skipn_all2. lia.
    + replace (List.length l - i) with 0 by lia. simpl.
      symmetry. apply Nat.div_small. lia.
    + intros k Hk. lia.
  - destruct (Nat.ltb i (List.length l)) eqn:Hlt.
    + apply Nat.ltb_lt in Hlt.
      destruct (IH (i + size)) as (Hc & Hn & Hk); [lia|].
      simpl. repeat split.
      * rewrite Hc, slice_chunk.
        rewrite <- (firstn_skipn size (skipn i l)) at 2.
        rewrite skipn_skipn. f_equal. f_equal. lia.
      * rewrite (length_map (fun j : nat => slice l j (j + size))) in Hn |- *.
        rewrite Hn, (ceil_step (List.length l - i)) by lia.
        do 3 f_equal. lia.
      * intros k Hki. destruct (le_lt_dec size k) as [Hge|Hsmall].
        -- replace k with ((k - size) + 1 * size) at 1 2 by lia.
           rewrite Nat.div_add, Nat.Div0.mod_add by lia.
           replace ((k - size) / size + 1) with (S ((k - size) / size)) by lia.
           simpl. rewrite Hk by lia. f_equal. lia.
        -- rewrite Nat.div_small, Nat.mod_small by lia. simpl.
           rewrite slice_chunk, nth_error_firstn, nth_error_skipn.
           apply Nat.ltb_lt in Hsmall. rewrite Hsmall. reflexivity.
    + apply Nat.ltb_ge in Hlt. simpl. repeat split.
      * symmetry. apply skipn_all2. lia.
      * replace (List.length l - i) with 0 by lia. simpl.
        symmetry. apply Nat.div_small. lia.
      * intros k Hk. lia.
Qed.

Lemma chunks_of_spec :
  concat (chunks_of size l) = l /\
  List.length (chunks_of size l) = (List.length l + size - 1) / size /\
  forall i, i < List.length l ->
    nth_error (nth (i / size) (chunks_of size l) []) (i mod size) = nth_error l i.
Proof.
  destruct (range_from_chunks (List.length l - 0) 0) as (Hc & Hn & Hk); [lia|].
  unfold chunks_of, range. repeat split.
  - exact Hc.
  - rewrite Hn. do 3 f_equal. lia.
  - intros i Hi. apply Hk. exact Hi.
Qed.

End ChunkFacts.

Section DelivererFacts.

Variable R : Type.
Variable edit_features : list (list Feature) -> list Feature -> R.
Variable features : list Feature.
Variable size : nat.

Lemma loop_sends (starts : list nat) : forall st,
  let st' := fold_left (loop_body edit_features features size) starts st in
  let chunks := map (fun i => slice features i (i + size)) starts in
  calls (loc_portal st') = calls (loc_portal st) ++ chunks /\
  stdout (loc_portal st') = stdout (loc_portal st) /\
  loc_results st' = loc_results st
                    ++ responses edit_features (calls (loc_portal st)) chunks.
Proof.
  induction starts as [|i rest IH]; intros st; simpl.
  - rewrite !app_nil_r. auto.
  - destruct (IH (loop_body edit_features features size st i)) as (Hc & Ho & Hr).
    rewrite Hc, Ho, Hr. simpl. rewrite <- !app_assoc. auto.
Qed.

Lemma loop_last (starts : list nat) (st : locals R) :
  starts <> [] ->
  let st' := fold_left (loop_body edit_features features size) starts st in
  exists pre r, loc_results st' = pre ++ [r] /\ loc_result st' = Some r.
Proof.
  induction starts as [|i rest _] using rev_ind; intros Hne; [congruence|].
  simpl. rewrite fold_left_app. simpl. eauto.
Qed.

Lemma upload_loop_sends (w : portal) :
  calls (loc_portal (upload_loop edit_features size w features))
  = calls w ++ chunks_of size features /\
  stdout (loc_portal (upload_loop edit_features size w features)) = stdout w /\
  loc_results (upload_loop edit_features size w features)
  = responses edit_features (calls w) (chunks_of size features).
Proof.
  unfold upload_loop, chunks_of.
  destruct (loop_sends (range 0 (List.length features) size)
              {| loc_portal := w; loc_results := []; loc_added := 0;
                 loc_result := None |}) as (Hc & Ho & Hr).
  simpl in *. auto.
Qed.

Lemma length_responses (history batches : list (list Feature)) :
  List.length (responses edit_features history batches) = List.length batches.
Proof.
  revert history. induction batches as [|c rest IH]; intros history; simpl;
    [reflexivity | now rewrite IH].
Qed.

(** For a positive chunk size the loop sends [ceil(N / size)] batches;
    put end to end they are the list it was given; entry [i] of the list
    is entry [i mod size] of batch [i / size]. *)
Lemma upload_loop_chunking (w : portal) (Hsize : 0 < size) :
  exists chunks,
    calls (loc_portal (upload_loop edit_features size w features))
    = calls w ++ chunks /\
    List.length chunks = (List.length features + size - 1) / size /\
    concat chunks = features /\
    forall i, i < List.length features ->
      nth_error (nth (i / size) chunks []) (i mod size) = nth_error features i.
Proof.
  exists (chunks_of size features).
  destruct (chunks_of_spec size Hsize features) as (Hc & Hn & Hk).
  destruct (upload_loop_sends w) as (Hs & _).
  auto.
Qed.

End DelivererFacts.

Section AddToAgoFacts.

Variable R : Type.
Variable edit_features : list (list Feature) -> list Feature -> R.

Lemma chunk_size_pos : 0 < chunk_size.
Proof. unfold chunk_size. lia. Qed.

(** The batches [add_to_ago] sends and the list [results] it builds:
    one answer for each batch. *)
Lemma add_to_ago_sends (w : portal) (data : DataFrame) :
  calls (fst (add_to_ago edit_features w data))
  = calls w ++ chunks_of chunk_size (features_of data) /\
  add_to_ago_results edit_features w data
  = responses edit_features (calls w) (chunks_of chunk_size (features_of data)) /\
  List.length (add_to_ago_results edit_features w data)
  = (List.length (features_of data) + chunk_size - 1) / chunk_size.
Proof.
  unfold add_to_ago, add_to_ago_results. fold (features_of data). simpl.
  destruct (upload_loop_sends R edit_features (features_of data) chunk_size w)
    as (Hc & _ & Hr).
  rewrite Hc, Hr, length_responses.
  destruct (chunks_of_spec chunk_size chunk_size_pos (features_of data))
    as (_ & Hn & _).
  auto.
Qed.

(** What [add_to_ago] returns is the last element of [results]. *)
Lemma add_to_ago_returns_last (w : portal) (data : DataFrame) :
  features_of data <> [] ->
  exists pre r,
    add_to_ago_results edit_features w data = pre ++ [r] /\
    snd (add_to_ago edit_features w data) = Ok r.
Proof.
  intros Hne. unfold add_to_ago, add_to_ago_results. fold (features_of data).
  simpl. unfold upload_loop.
  destruct (loop_last R edit_features (features_of data) chunk_size
              (range 0 (List.length (features_of data)) chunk_size)
              {| loc_portal := w; loc_results := []; loc_added := 0;
                 loc_result := None |}) as (pre & r & Hr & Hl).
  - destruct (chunks_of_spec chunk_size chunk_size_pos (features_of data))
      as (_ & Hn & _).
    unfold chunks_of in Hn. rewrite length_map in Hn.
    intros E. rewrite E in Hn.
    change (List.length (@nil nat)) with 0 in Hn.
    assert (Hpos : 0 < List.length (features_of data)).
    { destruct (features_of data); [congruence | simpl; lia]. }
    symmetry in Hn. apply Nat.div_small_iff in Hn; unfold chunk_size in *; lia.
  - exists pre, r. rewrite Hr, Hl. auto.
Qed.

Lemma length_features_of (data : DataFrame) :
  List.length (features_of data) = nrows data.
Proof. unfold features_of, iterrows. now rewrite !length_map, length_seq. Qed.

(** C6. [add_to_ago] sends the features of its frame in chunks of 100, one
    call of [edit_features] for each: for a frame of [N] rows it submits
    [ceil(N / 100)] chunks; put end to end the chunks are the features of
    the frame in their order, so every record is in exactly one chunk;
    record [i] (0-based) is entry [i mod 100] of chunk [i / 100]. *)
Theorem add_to_ago_chunks_of_100 (w : portal) (data : DataFrame) :
  exists chunks,
    calls (fst (add_to_ago edit_features w data)) = calls w ++ chunks /\
    List.length chunks = (nrows data + 99) / 100 /\
    concat chunks = features_of data /\
    forall i, i < nrows data ->
      nth_error (nth (i / 100) chunks []) (i mod 100)
      = nth_error (features_of data) i.
Proof.
  exists (chunks_of chunk_size (features_of data)).
  destruct (add_to_ago_sends w data) as (Hc & _).
  destruct (chunks_of_spec chunk_size chunk_size_pos (features_of data))
    as (Hcat & Hn & Hk).
  rewrite length_features_of in Hn, Hk. unfold chunk_size in Hn, Hk at 1 3.
  replace (nrows data + 100 - 1) with (nrows data + 99) in Hn by lia.
  auto.
Qed.

(** C5. [add_to_ago] sends every chunk, whatever the layer answered to
    the ones before, and its list [results] holds one answer for each
    chunk, in order; what it returns is not that list but [result], the
    answer to the last chunk alone. *)
Theorem add_to_ago_returns_last_result (w : portal) (data : DataFrame)
    (Hrows : 0 < nrows data) :
  calls (fst (add_to_ago edit_features w data))
  = calls w ++ chunks_of chunk_size (features_of data) /\
  add_to_ago_results edit_features w data
  = responses edit_features (calls w) (chunks_of chunk_size (features_of data)) /\
  List.length (add_to_ago_results edit_features w data)
  = List.length (chunks_of chunk_size (features_of data)) /\
  exists earlier r,
    add_to_ago_results edit_features w data = earlier ++ [r] /\
    snd (add_to_ago edit_features w data) = Ok r.
Proof.
  destruct (add_to_ago_sends w data) as (Hc & Hr & _).
  split; [exact Hc|]. split; [exact Hr|]. split.
  - rewrite Hr. apply length_responses.
  - apply add_to_ago_returns_last.
    intros E. apply (f_equal (@List.length _)) in E.
    rewrite length_features_of in E. simpl in E. lia.
Qed.

End AddToAgoFacts.

(** ** Column labels under the suffix cleanup *)

Module LabelFacts.
Import PyStr.

Lemma prefix_refl (s : string) : String.prefix s s = true.
Proof.
  induction s as [|a s IH]; simpl; [reflexivity|].
  destruct (ascii_dec a a); [exact IH | congruence].
Qed.

Lemma contains_suffix (sub c : string) : contains sub (c ++ sub) = true.
Proof.
  induction c as [|a c IH].
  - simpl. destruct sub; simpl.
    + reflexivity.
    + destruct (ascii_dec a a); [|congruence].
      rewrite prefix_refl. reflexivity.
  - change (contains sub (String a (c ++ sub)) = true).
    cbn [contains]. rewrite IH. apply orb_true_r.
Qed.

Lemma length_append (a b : string) :
  String.length (a ++ b) = String.length a + String.length b.
Proof. induction a as [|x a IH]; simpl; [reflexivity | now rewrite IH]. Qed.

Lemma append_inj_l (s : string) : forall a b, (a ++ s)%string = (b ++ s)%string -> a = b.
Proof.
  induction a as [|x a IH]; intros [|y b] H; simpl in H.
  - reflexivity.
  - apply (f_equal String.length) in H. simpl in H. rewrite length_append in H. lia.
  - apply (f_equal String.length) in H. simpl in H. rewrite length_append in H. lia.
  - injection H as -> H. f_equal. apply IH. exact H.
Qed.

Lemma prefix_empty (s : string) : String.prefix "" s = true.
Proof. destruct s; reflexivity. Qed.

Lemma prefix_cons (a b : ascii) (s t : string) :
  String.prefix (String a s) (String b t)
  = if ascii_dec a b then String.prefix s t else false.
Proof. reflexivity. Qed.

Lemma prefix_nil_r (a : ascii) (s : string) : String.prefix (String a s) "" = false.
Proof. reflexivity. Qed.

(** The first character of a suffix [_x] or [_y] does not complete a
    two-character pattern that starts with [_]. *)
Lemma prefix_two_suffix (p q : ascii) (a : ascii) (c : string) :
  p <> "_"%char ->
  String.prefix (String "_" (String p "")) (String a (c ++ String "_" (String q "")))
  = String.prefix (String "_" (String p "")) (String a c).
Proof.
  intros Hp. rewrite !prefix_cons. destruct (ascii_dec "_" a); [|reflexivity].
  destruct c as [|b c].
  - cbn [append]. rewrite prefix_cons, prefix_nil_r.
    destruct (ascii_dec p "_"); [congruence | reflexivity].
  - cbn [append]. rewrite !prefix_cons.
    destruct (ascii_dec p b); [|reflexivity]. now rewrite !prefix_empty.
Qed.

(** A name without [_y] does not get one from the suffix [_x]. *)
Lemma no_y_suffix_x (c : string) :
  contains "_y" c = false -> contains "_y" (c ++ "_x") = false.
Proof.
  induction c as [|a c IH]; intros H; [reflexivity|].
  change (contains "_y" (String a (c ++ "_x")) = false).
  cbn [contains] in H |- *. apply orb_false_iff in H. destruct H as [P C].
  rewrite (IH C), orb_false_r.
  rewrite prefix_two_suffix by discriminate. exact P.
Qed.

Lemma replace_x_suffix (c : string) : forall k,
  k <= String.length c -> k <= 1 ->
  replace_from "_x" "" k (c ++ "_x") = replace_from "_x" "" k c.
Proof.
  induction c as [|a c IH]; intros k Hk H1.
  - simpl in Hk. replace k with 0 by lia. reflexivity.
  - change (replace_from "_x" "" k (String a (c ++ "_x"))
            = replace_from "_x" "" k (String a c)).
    destruct k as [|k]; cbn [replace_from].
    + rewrite prefix_two_suffix by discriminate.
      destruct (String.prefix "_x" (String a c)) eqn:E.
      * f_equal. apply IH; [|simpl; lia].
        rewrite prefix_cons in E. destruct (ascii_dec "_" a); [|discriminate].
        destruct c; [discriminate | simpl; lia].
      * f_equal. apply IH; lia.
    + apply IH; simpl in Hk; lia.
Qed.

Lemma replace_x_clean (c : string) :
  contains "_x" c = false -> replace "_x" "" c = c.
Proof.
  unfold replace. induction c as [|a c IH]; intros H; [reflexivity|].
  cbn [contains] in H. apply orb_false_iff in H. destruct H as [P C].
  cbn [replace_from]. rewrite P, (IH C). reflexivity.
Qed.

(** The suffix [_x] put on a name without [_x] comes off again. *)
Lemma replace_x_restores (c : string) :
  contains "_x" c = false -> replace "_x" "" (c ++ "_x") = c.
Proof.
  intros H. unfold replace. rewrite replace_x_suffix by lia.
  apply replace_x_clean. exact H.
Qed.

Lemma replace_x_length (s : string) : forall k,
  String.length (replace_from "_x" "" k s) <= String.length s - k.
Proof.
  induction s as [|a s IH]; intros k; [simpl; lia|].
  destruct k as [|k]; cbn [replace_from].
  - destruct (String.prefix "_x" (String a s)).
    + specialize (IH 1). cbn [String.length append Nat.sub] in *. lia.
    + specialize (IH 0). cbn [String.length] in *. lia.
  - cbn [String.length Nat.sub]. apply IH.
Qed.

(** Removing [_x] from a name that has one changes the name. *)
Lemma replace_x_changes (c : string) :
  contains "_x" c = true -> String.length (replace "_x" "" c) < String.length c.
Proof.
  unfold replace. induction c as [|a c IH]; intros H; [discriminate|].
  cbn [contains] in H. cbn [replace_from].
  destruct (String.prefix "_x" (String a c)) eqn:P.
  - pose proof (replace_x_length c 1) as L.
    cbn [String.length append Nat.sub] in *. lia.
  - cbn [orb] in H. specialize (IH H).
    cbn [String.length] in *. lia.
Qed.

End LabelFacts.

(** ** Frames *)

Section FrameFacts.

Lemma mem_In (c : string) (l : list string) : mem c l = true <-> In c l.
Proof.
  unfold mem. rewrite existsb_exists. split.
  - intros (x & I & E). apply String.eqb_eq in E. now subst.
  - intros I. exists c. split; [exact I | apply String.eqb_refl].
Qed.

Lemma mem_false (c : string) (l : list string) : mem c l = false <-> ~ In c l.
Proof.
  rewrite <- mem_In. destruct (mem c l); split; congruence.
Qed.

Lemma distinct_NoDup (l : list string) : distinct l = true -> NoDup l.
Proof.
  induction l as [|c l IH]; simpl; intros H; constructor;
    apply andb_true_iff in H; destruct H as [M D].
  - apply mem_false. now apply negb_true_iff.
  - auto.
Qed.

Lemma select_mask_map {A : Type} (p : A -> bool) (f : A -> value) (l : list A) :
  select_mask (map p l) (map f l) = map f (filter p l).
Proof.
  induction l as [|a l IH]; simpl; [reflexivity|].
  destruct (p a); simpl; now rewrite IH.
Qed.

Lemma filter_left_only (ixs : list indexer) :
  filter is_left_only ixs = map LeftOnly (left_only_rows ixs).
Proof.
  induction ixs as [|[i j|i|j] ixs IH]; simpl; rewrite ?IH; reflexivity.
Qed.

Lemma getcol_skip (c : string) (pre post : DataFrame) :
  (forall cs, In cs pre -> fst cs <> c) ->
  getcol (pre ++ post) c = getcol post c.
Proof.
  unfold getcol. induction pre as [|[d s] pre IH]; intros H; [reflexivity|].
  simpl. destruct (String.eqb c d) eqn:E.
  - apply String.eqb_eq in E. exfalso. apply (H (d, s)); [now left | now subst].
  - apply IH. intros cs I. apply H. now right.
Qed.

Lemma filter_none {A : Type} (p : A -> bool) (l : list A) :
  (forall a, In a l -> p a = false) -> filter p l = [].
Proof.
  induction l as [|a l IH]; intros H; [reflexivity|].
  simpl. rewrite (H a) by now left. apply IH. intros b I. apply H. now right.
Qed.

Lemma filter_label_unique (df : DataFrame) (cs : string * Series) :
  NoDup (columns df) -> In cs df ->
  filter (fun p => String.eqb (fst cs) (fst p)) df = [cs].
Proof.
  induction df as [|d df IH]; intros N I; [contradiction|].
  simpl in N. inversion N as [|? ? Hnot Hrest]; subst.
  simpl. destruct I as [->|I].
  - rewrite String.eqb_refl. f_equal.
    apply filter_none. intros b Ib.
    destruct (String.eqb (fst cs) (fst b)) eqn:E; [|reflexivity].
    apply String.eqb_eq in E. exfalso. apply Hnot. rewrite E.
    apply (in_map fst) in Ib. exact Ib.
  - destruct (String.eqb (fst cs) (fst d)) eqn:E.
    + apply String.eqb_eq in E. exfalso. apply Hnot. rewrite <- E.
      apply (in_map fst) in I. exact I.
    + apply IH; assumption.
Qed.

(** Selecting by labels from a frame with distinct labels gives the
    columns that carry them. *)
Lemma getitem_labels_sub (df l : DataFrame) :
  NoDup (columns df) -> (forall cs, In cs l -> In cs df) ->
  getitem_labels df (map fst l) = Ok l.
Proof.
  intros N. induction l as [|cs l IH]; intros H; [reflexivity|].
  simpl. rewrite (filter_label_unique df cs N) by (apply H; now left).
  rewrite IH by (intros b I; apply H; now right). reflexivity.
Qed.

Lemma getitem_labels_error (df : DataFrame) (labels : list string) (e : error) :
  getitem_labels df labels = Raise e -> e = KeyError.
Proof.
  revert e. induction labels as [|c rest IH]; intros e H; simpl in H; [discriminate|].
  destruct (filter (fun p => String.eqb c (fst p)) df); [congruence|].
  destruct (getitem_labels df rest) eqn:G; simpl in H; [discriminate|].
  injection H as <-. now apply IH.
Qed.

(** A label no column carries makes the selection raise [KeyError]. *)
Lemma getitem_labels_missing (df : DataFrame) (labels : list string) (c : string) :
  In c labels -> ~ In c (columns df) ->
  getitem_labels df labels = Raise KeyError.
Proof.
  intros I Hnot.
  destruct (getitem_labels df labels) as [out|e] eqn:G.
  - exfalso. revert out G. induction labels as [|d rest IH]; intros out G;
      [contradiction|].
    simpl in G.
    destruct (filter (fun p => String.eqb d (fst p)) df) as [|x xs] eqn:F.
    + discriminate.
    + destruct I as [->|I].
      * assert (Ix : In x (filter (fun p => String.eqb c (fst p)) df))
          by (rewrite F; now left).
        apply filter_In in Ix. destruct Ix as [Ix E].
        apply String.eqb_eq in E. apply Hnot. rewrite E.
        apply (in_map fst) in Ix. exact Ix.
      * destruct (getitem_labels df rest) eqn:G'; simpl in G; [|discriminate].
        eapply IH; eauto.
  - f_equal. eapply getitem_labels_error; eauto.
Qed.

Lemma getitem_labels_from (df : DataFrame) (labels : list string) : forall out,
  getitem_labels df labels = Ok out -> forall cs, In cs out -> In cs df.
Proof.
  induction labels as [|c rest IH]; intros out G cs I; simpl in G.
  - injection G as <-. contradiction.
  - destruct (filter (fun p => String.eqb c (fst p)) df) as [|x xs] eqn:F;
      [discriminate|].
    destruct (getitem_labels df rest) as [more|] eqn:G'; simpl in G; [|discriminate].
    injection G as <-. rewrite app_comm_cons in I.
    apply in_app_or in I. destruct I as [I|I].
    + rewrite <- F in I. apply filter_In in I. tauto.
    + eapply IH; eauto.
Qed.

(** The join raises no [MergeError] when the renaming of the labels is
    one to one. *)
Lemma new_dups_injective (f : string -> string) (l : list string) : forall seen,
  (forall a b, In a (l ++ seen) -> In b (l ++ seen) -> f a = f b -> a = b) ->
  new_dups l (map f l) seen (map f seen) = false.
Proof.
  induction l as [|o l IH]; intros seen Inj; [reflexivity|].
  simpl. apply orb_false_iff. split.
  - destruct (mem (f o) (map f seen)) eqn:M; [|reflexivity].
    apply mem_In in M. apply in_map_iff in M. destruct M as (b & E & Ib).
    assert (b = o) as ->.
    { apply Inj; [right; apply in_or_app; now right | now left | exact E]. }
    simpl. apply negb_false_iff. apply mem_In. exact Ib.
  - apply (IH (o :: seen)). intros a b Ia Ib.
    apply Inj; apply in_app_or in Ia, Ib; simpl in *;
      rewrite in_app_iff; tauto.
Qed.

End FrameFacts.

(** ** The check of the key columns *)

Lemma key_cells_head (df : DataFrame) (k : string) :
  Nat.eqb (nrows df) 0 = false ->
  In (at_ (getcol df k) 0) (key_cells df k).
Proof.
  intros N. apply Nat.eqb_neq in N. unfold key_cells.
  apply in_map. apply in_seq. lia.
Qed.

Lemma at_cases (s : Series) (i : nat) : at_ s i = VNaN \/ In (at_ s i) s.
Proof. unfold at_. destruct (nth_in_or_default i s VNaN); auto. Qed.

Lemma int64_not_text (v : value) : is_int64 v = true -> is_text v = false.
Proof. destruct v; simpl; congruence. Qed.

Lemma str_is_text (v : value) : is_str v = true -> is_text v = true.
Proof. destruct v; simpl; congruence. Qed.

(** Key columns of one kind pass the check. *)
Lemma same_kind_no_clash (left right : DataFrame) (keys : list string) :
  same_kind_keys left right keys = true ->
  existsb (keys_clash left right) keys = false.
Proof.
  intros S. destruct (existsb (keys_clash left right) keys) eqn:C; [|reflexivity].
  exfalso. apply existsb_exists in C. destruct C as (k & Ik & C).
  unfold same_kind_keys in S. rewrite forallb_forall in S. specialize (S k Ik).
  unfold keys_clash in C. rewrite !andb_true_iff in C.
  destruct C as [[Nl Nr] C]. apply negb_true_iff in Nl, Nr.
  pose proof (key_cells_head left k Nl) as Il.
  pose proof (key_cells_head right k Nr) as Ir.
  assert (Z : forall df, In (at_ (getcol df k) 0) (key_cells df k) ->
                forallb is_int64 (getcol df k) = true ->
                forallb is_text (key_cells df k) = true -> False).
  { intros df I F G. rewrite forallb_forall in F, G. specialize (G _ I).
    destruct (at_cases (getcol df k) 0) as [E|J].
    - rewrite E in G. discriminate.
    - apply F, int64_not_text in J. congruence. }
  assert (Y : forall df, In (at_ (getcol df k) 0) (key_cells df k) ->
                forallb is_str (getcol df k) = true ->
                forallb is_int64 (key_cells df k) = true -> False).
  { intros df I F G. rewrite forallb_forall in F, G. specialize (G _ I).
    destruct (at_cases (getcol df k) 0) as [E|J].
    - rewrite E in G. discriminate.
    - apply F, str_is_text in J. apply int64_not_text in G. congruence. }
  rewrite orb_true_iff, !andb_true_iff in S, C.
  destruct S as [[Sl Sr]|[Sl Sr]], C as [[Cl Cr]|[Cl Cr]].
  - exact (Z _ Ir Sr Cr).
  - exact (Z _ Il Sl Cl).
  - exact (Y _ Il Sl Cl).
  - exact (Y _ Ir Sr Cr).
Qed.




(** ** The differ *)

Section DifferFacts.

Variable join_order : list indexer -> list indexer.
Variables left right : DataFrame.
Variable keys : list string.

Hypothesis Hjoin : joinable left right keys = true.
Hypothesis Hclean : forallb clean_name (columns left ++ columns right) = true.
Hypothesis Hkinds : existsb (keys_clash left right) keys = false.

Let ixs := join_indexers join_order left right keys.
Let lo := left_only_rows ixs.
Let right' := filter (fun cs : string * Series => negb (mem (fst cs) keys)) right.
Let llabel := left_label left right keys.
Let rlabel := right_label left right keys.

Lemma joinable_parts :
  NoDup (columns left) /\ NoDup (columns right) /\
  forallb (fun k => has_col k left && has_col k right) keys = true /\
  existsb reserved (columns left ++ columns right) = false.
Proof.
  unfold joinable in Hjoin. rewrite !andb_true_iff in Hjoin.
  destruct Hjoin as [[[[D1 D2] _] K] Rv].
  repeat split; auto using distinct_NoDup. now apply negb_true_iff.
Qed.

Lemma clean_label (c : string) :
  In c (columns left ++ columns right) ->
  PyStr.contains "_x" c = false /\ PyStr.contains "_y" c = false.
Proof.
  intros I. rewrite forallb_forall in Hclean. specialize (Hclean c I).
  unfold clean_name in Hclean. apply andb_true_iff in Hclean.
  destruct Hclean as [X Y]. split; now apply negb_true_iff.
Qed.

Lemma not_reserved (c : string) :
  In c (columns left ++ columns right) -> c <> "_merge".
Proof.
  intros I E. destruct joinable_parts as (_ & _ & _ & Rv).
  assert (existsb reserved (columns left ++ columns right) = true); [|congruence].
  apply existsb_exists. exists c. split; [exact I|]. subst c. reflexivity.
Qed.

Lemma suffixed_not_clean (c d suffix : string) :
  PyStr.contains suffix d = false -> (c ++ suffix)%string <> d.
Proof.
  intros H E. rewrite <- E, LabelFacts.contains_suffix in H. discriminate.
Qed.

Lemma llabel_inj (a b : string) :
  In a (columns left ++ columns right) -> In b (columns left ++ columns right) ->
  llabel a = llabel b -> a = b.
Proof.
  intros Ia Ib. destruct (clean_label a Ia) as [Xa _].
  destruct (clean_label b Ib) as [Xb _].
  unfold llabel, left_label.
  destruct (overlaps left right keys a), (overlaps left right keys b); intros E.
  - eapply LabelFacts.append_inj_l; eauto.
  - exfalso. exact (suffixed_not_clean a b "_x" Xb E).
  - exfalso. exact (suffixed_not_clean b a "_x" Xa (eq_sym E)).
  - exact E.
Qed.

Lemma rlabel_inj (a b : string) :
  In a (columns left ++ columns right) -> In b (columns left ++ columns right) ->
  rlabel a = rlabel b -> a = b.
Proof.
  intros Ia Ib. destruct (clean_label a Ia) as [_ Ya].
  destruct (clean_label b Ib) as [_ Yb].
  unfold rlabel, right_label.
  destruct (overlaps left right keys a), (overlaps left right keys b); intros E.
  - eapply LabelFacts.append_inj_l; eauto.
  - exfalso. exact (suffixed_not_clean a b "_y" Yb E).
  - exfalso. exact (suffixed_not_clean b a "_y" Ya (eq_sym E)).
  - exact E.
Qed.

Lemma llabel_no_y (c : string) :
  In c (columns left ++ columns right) -> PyStr.contains "_y" (llabel c) = false.
Proof.
  intros I. destruct (clean_label c I) as [_ Y]. unfold llabel, left_label.
  destruct (overlaps left right keys c); [|exact Y].
  now apply LabelFacts.no_y_suffix_x.
Qed.

Lemma llabel_not_merge (c : string) :
  In c (columns left ++ columns right) -> llabel c <> "_merge".
Proof.
  intros I. unfold llabel, left_label.
  destruct (overlaps left right keys c); [|now apply not_reserved].
  apply suffixed_not_clean. reflexivity.
Qed.

Lemma rlabel_not_merge (c : string) :
  In c (columns left ++ columns right) -> rlabel c <> "_merge".
Proof.
  intros I. unfold rlabel, right_label.
  destruct (overlaps left right keys c); [|now apply not_reserved].
  apply suffixed_not_clean. reflexivity.
Qed.

Lemma llabel_renamed (c : string) :
  In c (columns left ++ columns right) -> PyStr.replace "_x" "" (llabel c) = c.
Proof.
  intros I. destruct (clean_label c I) as [X _]. unfold llabel, left_label.
  destruct (overlaps left right keys c).
  - now apply LabelFacts.replace_x_restores.
  - now apply LabelFacts.replace_x_clean.
Qed.

Lemma in_right' (cs : string * Series) :
  In cs right' -> In (fst cs) (columns right) /\ mem (fst cs) keys = false.
Proof.
  unfold right'. rewrite filter_In. intros [I K]. split.
  - apply (in_map fst) in I. exact I.
  - now apply negb_true_iff.
Qed.

Lemma labels_apart (a : string) (cs : string * Series) :
  In a (columns left) -> In cs right' -> llabel a <> rlabel (fst cs).
Proof.
  intros Ia Ics. destruct (in_right' cs Ics) as [Ib Kb].
  set (b := fst cs) in *.
  assert (Ia' : In a (columns left ++ columns right)) by (apply in_or_app; now left).
  assert (Ib' : In b (columns left ++ columns right)) by (apply in_or_app; now right).
  destruct (clean_label a Ia') as [Xa Ya]. destruct (clean_label b Ib') as [Xb Yb].
  unfold llabel, rlabel, left_label, right_label.
  destruct (overlaps left right keys a) eqn:Oa, (overlaps left right keys b) eqn:Ob;
    intros E.
  - pose proof (LabelFacts.no_y_suffix_x a Ya) as N.
    rewrite E, LabelFacts.contains_suffix in N. discriminate.
  - exact (suffixed_not_clean a b "_x" Xb E).
  - exact (suffixed_not_clean b a "_y" Ya (eq_sym E)).
  - unfold overlaps, has_col in Ob. rewrite <- E in Ob, Ib, Kb.
    apply mem_In in Ia, Ib. rewrite Ia, Ib, Kb in Ob. discriminate.
Qed.

Let lcols := map (fun cs : string * Series =>
                    (llabel (fst cs), map (take_left right keys (fst cs) (snd cs)) ixs))
                 left.
Let rcols := map (fun cs : string * Series =>
                    (rlabel (fst cs), map (take_right (snd cs)) ixs)) right'.

Lemma in_left_all (cs : string * Series) :
  In cs left -> In (fst cs) (columns left ++ columns right).
Proof. intros I. apply in_or_app. left. apply (in_map fst) in I. exact I. Qed.

Lemma in_right_all (cs : string * Series) :
  In cs right' -> In (fst cs) (columns left ++ columns right).
Proof. intros I. apply in_or_app. right. now apply in_right'. Qed.

(** The join of two such frames returns. *)
Lemma merge_outer_clean :
  merge_outer join_order left right keys
  = Ok (lcols ++ rcols ++ [("_merge", map indicator ixs)]).
Proof.
  destruct joinable_parts as (N1 & N2 & K & Rv).
  unfold merge_outer. rewrite K, Hkinds, Rv. cbn [negb].
  fold ixs. fold right'.
  change (map (fun cs : string * Series =>
                 (if overlaps left right keys (fst cs)
                  then (fst cs ++ "_x")%string else fst cs,
                  map (take_left right keys (fst cs) (snd cs)) ixs)) left)
    with lcols.
  change (map (fun cs : string * Series =>
                 (if overlaps left right keys (fst cs)
                  then (fst cs ++ "_y")%string else fst cs,
                  map (take_right (snd cs)) ixs)) right')
    with rcols.
  assert (L : columns lcols = map llabel (columns left)).
  { unfold columns, lcols. rewrite !map_map. reflexivity. }
  assert (Rr : columns rcols = map rlabel (columns right')).
  { unfold columns, rcols. rewrite !map_map. reflexivity. }
  rewrite L, Rr.
  assert (D1 : new_dups (columns left) (map llabel (columns left)) [] [] = false).
  { apply (new_dups_injective llabel (columns left) []).
    intros a b Ia Ib. rewrite app_nil_r in Ia, Ib.
    apply llabel_inj; apply in_or_app; now left. }
  assert (D2 : new_dups (columns right') (map rlabel (columns right')) [] [] = false).
  { apply (new_dups_injective rlabel (columns right') []).
    intros a b Ia Ib. rewrite app_nil_r in Ia, Ib.
    apply rlabel_inj.
    + apply in_map_iff in Ia. destruct Ia as (x & <- & Ix). now apply in_right_all.
    + apply in_map_iff in Ib. destruct Ib as (x & <- & Ix). now apply in_right_all. }
  rewrite D1, D2. reflexivity.
Qed.

Let lrecords := map (fun cs : string * Series =>
                       (llabel (fst cs), map (at_ (snd cs)) lo)) left.
Let rrecords := map (fun cs : string * Series =>
                       (rlabel (fst cs), map (fun _ : nat => VNaN) lo)) right'.
Let extras := map (fun cs : string * Series =>
                     (fst cs, map (fun _ : nat => VNaN) lo))
                  (filter (fun cs => negb (overlaps left right keys (fst cs))) right').

Lemma indicator_column :
  getcol (lcols ++ rcols ++ [("_merge", map indicator ixs)]) "_merge"
  = map indicator ixs.
Proof.
  rewrite getcol_skip.
  - rewrite getcol_skip; [reflexivity|].
    intros cs I. unfold rcols in I. apply in_map_iff in I.
    destruct I as (x & <- & Ix). simpl. apply rlabel_not_merge.
    now apply in_right_all.
  - intros cs I. unfold lcols in I. apply in_map_iff in I.
    destruct I as (x & <- & Ix). simpl. apply llabel_not_merge.
    now apply in_left_all.
Qed.

Lemma left_only_mask :
  map (fun v => if value_eq_dec v (VStr "left_only") then true else false)
      (map indicator ixs)
  = map is_left_only ixs.
Proof.
  rewrite map_map. apply map_ext. intros [i j|i|j]; reflexivity.
Qed.

Lemma masked_rows :
  map (fun cs : string * Series => (fst cs, select_mask (map is_left_only ixs) (snd cs)))
      (lcols ++ rcols ++ [("_merge", map indicator ixs)])
  = lrecords ++ rrecords ++ [("_merge", map indicator (filter is_left_only ixs))].
Proof.
  rewrite !map_app. f_equal; [|f_equal].
  - unfold lcols, lrecords. rewrite map_map. apply map_ext. intros [c s]. simpl.
    rewrite select_mask_map, filter_left_only, map_map. reflexivity.
  - unfold rcols, rrecords. rewrite map_map. apply map_ext. intros [c s]. simpl.
    rewrite select_mask_map, filter_left_only, map_map. reflexivity.
  - simpl. rewrite select_mask_map. reflexivity.
Qed.

Lemma merge_column_dropped :
  filter (fun cs : string * Series => negb (String.eqb "_merge" (fst cs)))
         (lrecords ++ rrecords ++ [("_merge", map indicator (filter is_left_only ixs))])
  = lrecords ++ rrecords.
Proof.
  rewrite !filter_app.
  assert (Last : filter (fun cs : string * Series => negb (String.eqb "_merge" (fst cs)))
                   [("_merge", map indicator (filter is_left_only ixs))] = []).
  { cbn [filter fst]. rewrite String.eqb_refl. reflexivity. }
  rewrite Last, app_nil_r. f_equal.
  - apply forallb_filter_id. apply forallb_forall. intros cs I.
    unfold lrecords in I. apply in_map_iff in I. destruct I as (x & <- & Ix).
    cbn [fst]. apply negb_true_iff. apply String.eqb_neq. intros E.
    symmetry in E. revert E. apply llabel_not_merge. now apply in_left_all.
  - apply forallb_filter_id. apply forallb_forall. intros cs I.
    unfold rrecords in I. apply in_map_iff in I. destruct I as (x & <- & Ix).
    cbn [fst]. apply negb_true_iff. apply String.eqb_neq. intros E.
    symmetry in E. revert E. apply rlabel_not_merge. now apply in_right_all.
Qed.

Lemma mem_filter (p : string -> bool) (c : string) (l : list string) :
  In c l -> mem c (filter p l) = p c.
Proof.
  intros I. destruct (p c) eqn:P.
  - apply mem_In. apply filter_In. auto.
  - apply mem_false. rewrite filter_In. intros [_ Q]. congruence.
Qed.

Lemma columns_right' :
  columns right' = filter (fun c => negb (mem c keys)) (columns right).
Proof. unfold columns, right'. symmetry. apply filter_map_swap. Qed.

Lemma columns_lrecords : columns lrecords = map llabel (columns left).
Proof. unfold columns, lrecords. rewrite !map_map. reflexivity. Qed.

Lemma columns_rrecords : columns rrecords = map rlabel (columns right').
Proof. unfold columns, rrecords. rewrite !map_map. reflexivity. Qed.

Lemma NoDup_columns_right' : NoDup (columns right').
Proof.
  rewrite columns_right'. apply NoDup_filter. apply joinable_parts.
Qed.

Lemma in_columns_right' (c : string) :
  In c (columns right') -> exists cs, In cs right' /\ fst cs = c.
Proof. intros I. apply in_map_iff in I. destruct I as (cs & E & I). eauto. Qed.

Lemma NoDup_records : NoDup (columns (lrecords ++ rrecords)).
Proof.
  unfold columns. rewrite map_app. fold (columns lrecords) (columns rrecords).
  rewrite columns_lrecords, columns_rrecords.
  destruct joinable_parts as (N1 & N2 & _).
  apply NoDup_app.
  - apply NoDup_map_NoDup_ForallPairs; [|exact N1].
    intros a b Ia Ib. apply llabel_inj; apply in_or_app; now left.
  - apply NoDup_map_NoDup_ForallPairs; [|exact NoDup_columns_right'].
    intros a b Ia Ib.
    apply in_columns_right' in Ia, Ib.
    destruct Ia as (x & Ix & <-), Ib as (y & Iy & <-).
    apply rlabel_inj; now apply in_right_all.
  - intros c Il Ir. apply in_map_iff in Il, Ir.
    destruct Il as (a & <- & Ia), Ir as (b & E & Ib).
    apply in_columns_right' in Ib. destruct Ib as (y & Iy & <-).
    symmetry in E. revert E. now apply labels_apart.
Qed.

(** The columns whose label has no [_y] are the left columns and the
    right columns that met no left column of their name. *)
Lemma y_columns_dropped :
  filter (fun cs : string * Series => negb (PyStr.contains "_y" (fst cs)))
         (lrecords ++ rrecords)
  = lrecords ++ extras.
Proof.
  rewrite filter_app. f_equal.
  - apply forallb_filter_id. apply forallb_forall. intros cs I.
    unfold lrecords in I. apply in_map_iff in I. destruct I as (x & <- & Ix).
    cbn [fst]. apply negb_true_iff. apply llabel_no_y. now apply in_left_all.
  - unfold rrecords, extras. rewrite filter_map_swap. cbn [fst].
    rewrite (filter_ext_in
               (fun a : string * Series => negb (PyStr.contains "_y" (rlabel (fst a))))
               (fun cs : string * Series => negb (overlaps left right keys (fst cs)))).
    + apply map_ext_in. intros cs I. apply filter_In in I. destruct I as [_ O].
      unfold rlabel, right_label. apply negb_true_iff in O. rewrite O. reflexivity.
    + intros cs I. unfold rlabel, right_label.
      destruct (overlaps left right keys (fst cs)); cbn [negb].
      * rewrite LabelFacts.contains_suffix. reflexivity.
      * destruct (clean_label (fst cs) (in_right_all cs I)) as [_ Y].
        rewrite Y. reflexivity.
Qed.

Lemma in_extras (cs : string * Series) :
  In cs extras ->
  In (fst cs) (columns right') /\ overlaps left right keys (fst cs) = false.
Proof.
  unfold extras. rewrite in_map_iff. intros (x & <- & I).
  apply filter_In in I. destruct I as [I O]. cbn [fst]. split.
  - apply (in_map fst) in I. exact I.
  - now apply negb_true_iff.
Qed.

Lemma columns_renamed :
  map (fun cs : string * Series => (PyStr.replace "_x" "" (fst cs), snd cs))
      (lrecords ++ extras)
  = left_only_frame join_order left right keys ++ extras.
Proof.
  rewrite map_app. f_equal.
  - unfold lrecords, left_only_frame. rewrite map_map. apply map_ext_in.
    intros cs I. cbn [fst snd]. f_equal. apply llabel_renamed. now apply in_left_all.
  - rewrite <- (map_id extras) at 2. apply map_ext_in. intros [c s] I.
    cbn [fst snd]. f_equal. apply LabelFacts.replace_x_clean.
    apply in_extras in I. destruct I as [I _]. cbn [fst] in I.
    apply in_columns_right' in I. destruct I as (y & Iy & <-).
    apply clean_label. now apply in_right_all.
Qed.

Lemma columns_left_only_frame :
  columns (left_only_frame join_order left right keys) = columns left.
Proof. unfold columns, left_only_frame. rewrite map_map. reflexivity. Qed.

Lemma NoDup_renamed :
  NoDup (columns (left_only_frame join_order left right keys ++ extras)).
Proof.
  unfold columns. rewrite map_app.
  fold (columns (left_only_frame join_order left right keys)) (columns extras).
  rewrite columns_left_only_frame.
  destruct joinable_parts as (N1 & _).
  apply NoDup_app.
  - exact N1.
  - assert (E : columns extras
                = filter (fun c => negb (overlaps left right keys c)) (columns right')).
    { unfold extras, columns. rewrite map_map, filter_map_swap. reflexivity. }
    rewrite E. apply NoDup_filter. exact NoDup_columns_right'.
  - intros c Il Ir. apply in_map_iff in Ir. destruct Ir as (cs & <- & Ics).
    apply in_extras in Ics. destruct Ics as [Ic O].
    apply in_columns_right' in Ic. destruct Ic as (y & Iy & E).
    apply in_right' in Iy. destruct Iy as [Iy K]. rewrite E in Iy, K.
    unfold overlaps, has_col in O. apply mem_In in Il, Iy.
    rewrite Il, Iy, K in O. discriminate.
Qed.

Lemma left_only_records_clean :
  left_only_records (lcols ++ rcols ++ [("_merge", map indicator ixs)])
  = lrecords ++ rrecords.
Proof.
  unfold left_only_records.
  rewrite indicator_column, left_only_mask, masked_rows, merge_column_dropped.
  reflexivity.
Qed.

Lemma drop_y_columns_clean :
  drop_y_columns (lrecords ++ rrecords) = Ok (lrecords ++ extras).
Proof.
  unfold drop_y_columns.
  set (records := lrecords ++ rrecords).
  assert (Kept : filter (fun c => negb (mem c (filter (PyStr.contains "_y") (columns records))))
                        (columns records)
                 = map fst (filter (fun cs : string * Series =>
                                      negb (PyStr.contains "_y" (fst cs))) records)).
  { unfold columns at 2.
    rewrite (filter_ext_in
               (fun c => negb (mem c (filter (PyStr.contains "_y") (columns records))))
               (fun c => negb (PyStr.contains "_y" c))).
    - apply filter_map_swap.
    - intros c I. f_equal. now apply mem_filter. }
  rewrite Kept. unfold records. rewrite <- y_columns_dropped.
  apply getitem_labels_sub.
  - exact NoDup_records.
  - intros cs I. apply filter_In in I. tauto.
Qed.

Lemma projection_clean :
  getitem_labels (left_only_frame join_order left right keys ++ extras) (columns left)
  = Ok (left_only_frame join_order left right keys).
Proof.
  rewrite <- columns_left_only_frame.
  apply getitem_labels_sub.
  - exact NoDup_renamed.
  - intros cs I. apply in_or_app. now left.
Qed.

(** The frame handed to [add_to_ago] when the labels of the two frames
    carry neither [_x] nor [_y], stage by stage: the join gives the
    suffixes, the columns with [_y] are dropped, the suffix [_x] comes
    off and the projection finds every label of the left frame. *)
Lemma cleanup_stages :
  exists merged kept,
    merge_outer join_order left right keys = Ok merged /\
    columns (left_only_records merged)
    = map (left_label left right keys) (columns left)
      ++ map (right_label left right keys)
             (filter (fun c => negb (mem c keys)) (columns right)) /\
    drop_y_columns (left_only_records merged) = Ok kept /\
    columns kept
    = map (left_label left right keys) (columns left)
      ++ filter (fun c => negb (overlaps left right keys c))
                (filter (fun c => negb (mem c keys)) (columns right)) /\
    columns (strip_x_suffix kept)
    = columns left
      ++ filter (fun c => negb (overlaps left right keys c))
                (filter (fun c => negb (mem c keys)) (columns right)) /\
    getitem_labels (strip_x_suffix kept) (columns left)
    = Ok (left_only_frame join_order left right keys) /\
    records_to_add join_order left right keys
    = Ok (left_only_frame join_order left right keys).
Proof.
  assert (E : columns extras
              = filter (fun c => negb (overlaps left right keys c)) (columns right')).
  { unfold extras, columns. rewrite map_map, filter_map_swap. reflexivity. }
  exists (lcols ++ rcols ++ [("_merge", map indicator ixs)]), (lrecords ++ extras).
  rewrite <- columns_right'.
  split; [exact merge_outer_clean|].
  rewrite left_only_records_clean.
  split; [|split; [exact drop_y_columns_clean|split; [|split; [|split]]]].
  - unfold columns at 1. rewrite map_app.
    fold (columns lrecords) (columns rrecords).
    now rewrite columns_lrecords, columns_rrecords.
  - unfold columns at 1. rewrite map_app.
    fold (columns lrecords) (columns extras).
    now rewrite columns_lrecords, E.
  - unfold strip_x_suffix. rewrite columns_renamed.
    unfold columns at 1. rewrite map_app.
    fold (columns (left_only_frame join_order left right keys)) (columns extras).
    now rewrite columns_left_only_frame, E.
  - unfold strip_x_suffix. rewrite columns_renamed. exact projection_clean.
  - unfold records_to_add. rewrite merge_outer_clean. cbn [bind].
    rewrite left_only_records_clean, drop_y_columns_clean. cbn [bind].
    unfold strip_x_suffix. rewrite columns_renamed. exact projection_clean.
Qed.

Lemma records_to_add_clean :
  records_to_add join_order left right keys
  = Ok (left_only_frame join_order left right keys).
Proof. destruct cleanup_stages as (? & ? & ? & ? & ? & ? & ? & ? & H). exact H. Qed.

End DifferFacts.

Section JoinRows.

Variable join_order : list indexer -> list indexer.
Hypothesis join_order_perm : forall l, Permutation (join_order l) l.
Variables left right : DataFrame.
Variable keys : list string.

Lemma filter_nil_existsb {A : Type} (p : A -> bool) (l : list A) :
  filter p l = [] <-> existsb p l = false.
Proof.
  induction l as [|a l IH]; simpl; [tauto|].
  destruct (p a); simpl; [split; discriminate | exact IH].
Qed.

Lemma left_only_rows_both (i : nat) (js : list nat) :
  left_only_rows (map (Both i) js) = [].
Proof. induction js; simpl; auto. Qed.

Lemma left_only_rows_app (a b : list indexer) :
  left_only_rows (a ++ b) = left_only_rows a ++ left_only_rows b.
Proof. apply flat_map_app. Qed.

Lemma left_only_rows_left (i : nat) :
  left_only_rows
    match filter (rows_match left right keys i) (seq 0 (nrows right)) with
    | [] => [LeftOnly i]
    | js => map (Both i) js
    end
  = if unmatched left right keys i then [i] else [].
Proof.
  unfold unmatched.
  destruct (filter (rows_match left right keys i) (seq 0 (nrows right)))
    as [|j js] eqn:F.
  - apply filter_nil_existsb in F. rewrite F. reflexivity.
  - rewrite left_only_rows_both.
    destruct (existsb (rows_match left right keys i) (seq 0 (nrows right))) eqn:E;
      [reflexivity|].
    apply filter_nil_existsb in E. congruence.
Qed.

Lemma left_only_rows_right (l : list nat) :
  left_only_rows
    (flat_map (fun j =>
                 if existsb (fun i => rows_match left right keys i j)
                            (seq 0 (nrows left))
                 then [] else [RightOnly j]) l) = [].
Proof.
  induction l as [|j l IH]; [reflexivity|].
  cbn [flat_map]. rewrite left_only_rows_app, IH.
  destruct (existsb (fun i => rows_match left right keys i j) (seq 0 (nrows left)));
    reflexivity.
Qed.

Lemma left_only_rows_found :
  left_only_rows
    (flat_map (fun i =>
                 match filter (rows_match left right keys i) (seq 0 (nrows right)) with
                 | [] => [LeftOnly i]
                 | js => map (Both i) js
                 end) (seq 0 (nrows left))
     ++ flat_map (fun j =>
                    if existsb (fun i => rows_match left right keys i j)
                               (seq 0 (nrows left))
                    then [] else [RightOnly j]) (seq 0 (nrows right)))
  = filter (unmatched left right keys) (seq 0 (nrows left)).
Proof.
  rewrite left_only_rows_app, left_only_rows_right, app_nil_r.
  induction (seq 0 (nrows left)) as [|i l IH]; [reflexivity|].
  cbn [flat_map filter]. rewrite left_only_rows_app, IH, left_only_rows_left.
  destruct (unmatched left right keys i); reflexivity.
Qed.

(** The rows the differ selects are the left rows without a partner,
    each one once. *)
Lemma left_only_rows_unmatched :
  Permutation (left_only_rows (join_indexers join_order left right keys))
              (filter (unmatched left right keys) (seq 0 (nrows left))).
Proof.
  rewrite <- left_only_rows_found. unfold join_indexers, left_only_rows.
  apply Permutation_flat_map. apply join_order_perm.
Qed.

Lemma in_left_only_rows (i : nat) :
  In i (left_only_rows (join_indexers join_order left right keys))
  <-> i < nrows left /\ unmatched left right keys i = true.
Proof.
  split.
  - intros I. apply (Permutation_in _ left_only_rows_unmatched) in I.
    apply filter_In in I. destruct I as [I U]. apply in_seq in I. split; [lia | exact U].
  - intros [L U]. apply (Permutation_in _ (Permutation_sym left_only_rows_unmatched)).
    apply filter_In. split; [apply in_seq; lia | exact U].
Qed.

Lemma map_nth_seq {A : Type} (d : A) (l : list A) :
  map (fun k => nth k l d) (seq 0 (List.length l)) = l.
Proof.
  apply nth_error_ext. intros n.
  rewrite nth_error_map, nth_error_seq.
  destruct (Nat.ltb n (List.length l)) eqn:E.
  - apply Nat.ltb_lt in E. simpl. symmetry. now apply nth_error_nth'.
  - apply Nat.ltb_ge in E. simpl. symmetry. now apply nth_error_None.
Qed.

Lemma iterrows_take (df : DataFrame) (lo : list nat) :
  (df = [] -> lo = []) ->
  iterrows (map (fun cs : string * Series => (fst cs, map (at_ (snd cs)) lo)) df)
  = map (row_of df) lo.
Proof.
  intros Hnil. destruct df as [|[c s] rest].
  - rewrite Hnil by reflexivity. reflexivity.
  - remember ((c, s) :: rest) as df eqn:E.
    unfold iterrows.
    assert (N : nrows (map (fun cs : string * Series =>
                              (fst cs, map (at_ (snd cs)) lo)) df) = List.length lo).
    { rewrite E. cbn [map nrows fst snd]. apply length_map. }
    rewrite N.
    transitivity (map (row_of df) (map (fun k => nth k lo 0) (seq 0 (List.length lo))));
      [|now rewrite map_nth_seq].
    rewrite map_map.
    apply map_ext_in. intros k Ik. apply in_seq in Ik.
    unfold row_of. rewrite map_map. apply map_ext. intros [c' s'].
    cbn [fst snd]. f_equal. unfold at_ at 1.
    rewrite (nth_indep _ VNaN (at_ s' 0)) by (rewrite length_map; lia).
    apply (map_nth (at_ s')).
Qed.

(** The rows of the frame handed on are rows of the left frame. *)
Lemma iterrows_left_only_frame :
  iterrows (left_only_frame join_order left right keys)
  = map (row_of left) (left_only_rows (join_indexers join_order left right keys)).
Proof.
  apply iterrows_take. intros E.
  pose proof left_only_rows_unmatched as P.
  assert (F : filter (unmatched left right keys) (seq 0 (nrows left)) = [])
    by (rewrite E; reflexivity).
  rewrite F in P. apply Permutation_sym in P.
  now apply Permutation_nil in P.
Qed.

End JoinRows.

Section Projection.

Variable join_order : list indexer -> list indexer.
Variables left right : DataFrame.
Variable keys : list string.

Lemma prefix_app (c : string) : forall sub t,
  String.prefix sub c = true -> String.prefix sub (c ++ t) = true.
Proof.
  induction c as [|b c IH]; intros [|a sub] t H.
  - apply LabelFacts.prefix_empty.
  - discriminate.
  - apply LabelFacts.prefix_empty.
  - cbn [append]. rewrite LabelFacts.prefix_cons in *.
    destruct (ascii_dec a b); [now apply IH | discriminate].
Qed.

Lemma contains_app_l (sub c t : string) :
  PyStr.contains sub c = true -> PyStr.contains sub (c ++ t) = true.
Proof.
  induction c as [|b c IH]; intros H.
  - cbn [PyStr.contains] in H. rewrite orb_false_r in H.
    destruct sub; [|discriminate].
    destruct t; reflexivity.
  - cbn [append PyStr.contains] in *. apply orb_true_iff in H.
    destruct H as [H|H].
    + change (String b (c ++ t)) with (String b c ++ t)%string.
      rewrite (prefix_app _ _ t H). reflexivity.
    + rewrite (IH H). apply orb_true_r.
Qed.

Lemma getitem_labels_label (df : DataFrame) (labels : list string) : forall out,
  getitem_labels df labels = Ok out -> forall cs, In cs out -> In (fst cs) labels.
Proof.
  induction labels as [|c rest IH]; intros out G cs I; simpl in G.
  - injection G as <-. contradiction.
  - destruct (filter (fun p => String.eqb c (fst p)) df) as [|x xs] eqn:F;
      [discriminate|].
    destruct (getitem_labels df rest) as [more|] eqn:G'; simpl in G; [|discriminate].
    injection G as <-. rewrite app_comm_cons in I.
    apply in_app_or in I. destruct I as [I|I].
    + rewrite <- F in I. apply filter_In in I. destruct I as [_ E].
      apply String.eqb_eq in E. left. exact E.
    + right. eapply IH; eauto.
Qed.

(** Every label of the join is a label of one of the frames, bare or
    with one of the two suffixes, or the indicator. *)
Lemma merged_labels (merged : DataFrame) (l : string) :
  merge_outer join_order left right keys = Ok merged ->
  In l (columns merged) ->
  l = "_merge" \/
  exists d, In d (columns left ++ columns right) /\
            (l = d \/ l = (d ++ "_x")%string \/ l = (d ++ "_y")%string).
Proof.
  unfold merge_outer.
  destruct (negb (forallb (fun k => has_col k left && has_col k right) keys));
    [discriminate|].
  destruct (existsb (keys_clash left right) keys); [discriminate|].
  destruct (existsb reserved (columns left ++ columns right)); [discriminate|].
  match goal with |- context [if ?b then Raise MergeError else _] => destruct b end;
    [discriminate|].
  intros H. injection H as <-. unfold columns at 1. rewrite !map_app, !map_map.
  cbn [fst map]. rewrite !in_app_iff. intros [I|[I|[I|[]]]].
  - right. apply in_map_iff in I. destruct I as (cs & <- & I).
    exists (fst cs). split.
    + apply in_or_app. left. apply (in_map fst) in I. exact I.
    + destruct (overlaps left right keys (fst cs)); auto.
  - right. apply in_map_iff in I. destruct I as (cs & <- & I).
    apply filter_In in I. destruct I as [I _].
    exists (fst cs). split.
    + apply in_or_app. right. apply (in_map fst) in I. exact I.
    + destruct (overlaps left right keys (fst cs)); auto.
  - left. now symmetry.
Qed.

(** The projection onto the left frame's labels raises [KeyError] when
    one of them is the name of no column that survives the cleanup. *)
Lemma projection_fails (merged : DataFrame) (c : string) :
  merge_outer join_order left right keys = Ok merged ->
  In c (columns left) ->
  (forall l, In l (columns merged) -> l <> "_merge" ->
             PyStr.contains "_y" l = false ->
             PyStr.replace "_x" "" l <> c) ->
  records_to_add join_order left right keys = Raise KeyError.
Proof.
  intros Hm Hc Hsurv.
  unfold records_to_add, left_only_records, drop_y_columns, strip_x_suffix.
  rewrite Hm. cbn [bind].
  set (mask := map (fun v => if value_eq_dec v (VStr "left_only") then true else false)
                   (getcol merged "_merge")).
  set (rec0 := map (fun cs : string * Series => (fst cs, select_mask mask (snd cs)))
                   merged).
  set (rec1 := filter (fun cs : string * Series => negb (String.eqb "_merge" (fst cs)))
                      rec0).
  set (kept := filter (fun c0 => negb (mem c0 (filter (PyStr.contains "_y") (columns rec1))))
                      (columns rec1)).
  destruct (getitem_labels rec1 kept) as [rec2|e] eqn:G; cbn [bind].
  - apply getitem_labels_missing with (c := c); [exact Hc|].
    intros I. unfold columns in I. rewrite map_map in I. cbn [fst] in I.
    apply in_map_iff in I. destruct I as (cs & E & Ics).
    pose proof (getitem_labels_from _ _ _ G cs Ics) as I1.
    pose proof (getitem_labels_label _ _ _ G cs Ics) as I2.
    apply filter_In in I2. destruct I2 as [Icol Hy].
    rewrite mem_filter in Hy by exact Icol. apply negb_true_iff in Hy.
    apply filter_In in I1. destruct I1 as [I0 Hnm].
    apply negb_true_iff, String.eqb_neq in Hnm.
    apply in_map_iff in I0. destruct I0 as (x & Ex & Ix).
    apply (Hsurv (fst cs)); auto.
    rewrite <- Ex. cbn [fst]. apply (in_map fst) in Ix. exact Ix.
  - f_equal. eapply getitem_labels_error; eauto.
Qed.

(** A left column whose own name carries [_x] or [_y] does not come
    back under that name; when every other label is free of both, no
    other column takes the name and the projection fails. *)
Lemma offending_label_fails (merged : DataFrame) (c : string) :
  merge_outer join_order left right keys = Ok merged ->
  In c (columns left) ->
  PyStr.contains "_x" c = true \/ PyStr.contains "_y" c = true ->
  (forall d, In d (columns left ++ columns right) -> d <> c -> clean_name d = true) ->
  records_to_add join_order left right keys = Raise KeyError.
Proof.
  intros Hm Hc Hoff Hothers. apply (projection_fails merged c Hm Hc).
  intros l Il Hnm Hy E.
  destruct (merged_labels merged l Hm Il) as [?|(d & Id & Hl)]; [contradiction|].
  destruct (string_dec d c) as [-> | Hd].
  - (* the column itself *)
    destruct Hl as [-> | [-> | ->]].
    + destruct Hoff as [Hx|Hy']; [|congruence].
      pose proof (LabelFacts.replace_x_changes c Hx) as L. rewrite E in L. lia.
    + destruct Hoff as [Hx|Hy'].
      * pose proof (LabelFacts.replace_x_changes c Hx) as L.
        unfold PyStr.replace in E, L.
        rewrite LabelFacts.replace_x_suffix in E by lia.
        rewrite E in L. lia.
      * rewrite (contains_app_l "_y" c "_x" Hy') in Hy. discriminate.
    + rewrite LabelFacts.contains_suffix in Hy. discriminate.
  - (* another column *)
    specialize (Hothers d Id Hd). unfold clean_name in Hothers.
    apply andb_true_iff in Hothers. destruct Hothers as [Hx Hy'].
    apply negb_true_iff in Hx, Hy'.
    destruct Hl as [-> | [-> | ->]].
    + rewrite LabelFacts.replace_x_clean in E by exact Hx. contradiction.
    + rewrite LabelFacts.replace_x_restores in E by exact Hx. contradiction.
    + rewrite LabelFacts.contains_suffix in Hy. discriminate.
Qed.

End Projection.

(** ** The run of [sync_data] *)

Section SyncFacts.

Variable R : Type.
Variable edit_features : list (list Feature) -> list Feature -> R.
Variable join_order : list indexer -> list indexer.
Hypothesis join_order_perm : forall l, Permutation (join_order l) l.

Lemma empty_features (records : DataFrame) :
  empty records = true -> features_of records = [].
Proof.
  unfold empty, features_of, iterrows. destruct records as [|cs rest]; [reflexivity|].
  intros E. apply Nat.eqb_eq in E. rewrite E. reflexivity.
Qed.

(** [sync_data] sends what [records_to_add] gives, cut into chunks, and
    sends nothing when that frame is empty. *)
Lemma sync_data_sends (w : portal) (ago_data db_data records : DataFrame)
    (key_columns : list string) :
  records_to_add join_order db_data ago_data key_columns = Ok records ->
  exists w',
    sync_data edit_features join_order w ago_data db_data key_columns = Ok w' /\
    calls w' = calls w ++ chunks_of chunk_size (features_of records).
Proof.
  intros H. unfold sync_data. rewrite H. cbn [bind].
  destruct (empty records) eqn:E; cbn [negb].
  - eexists. split; [reflexivity|]. cbn [calls].
    rewrite (empty_features records E). cbn. now rewrite app_nil_r.
  - eexists. split; [reflexivity|]. apply add_to_ago_sends.
Qed.

(** C1, as the code has it. [sync_data] hands the two frames to the join
    as they were fetched; [prepare_data] is not applied.  For frames the
    join accepts (distinct labels, a key, the key columns in both frames
    and of one kind, integers or strings, no reserved label), with labels
    free of [_x] and [_y] and a table whose columns outside the key hold
    texts and [None], the run returns and what is sent is the chunked
    features of a frame with the labels of [db_data] whose rows are rows
    of [db_data] as fetched, cell for cell. *)
Theorem sync_data_joins_fetched_frames
    (w : portal) (ago_data db_data : DataFrame) (key_columns : list string)
    (Hjoin : joinable db_data ago_data key_columns = true)
    (Hclean : forallb clean_name (columns db_data ++ columns ago_data) = true)
    (Hkinds : same_kind_keys db_data ago_data key_columns = true)
    (Hplain : plain_table db_data key_columns = true) :
  exists records w',
    records_to_add join_order db_data ago_data key_columns = Ok records /\
    sync_data edit_features join_order w ago_data db_data key_columns = Ok w' /\
    calls w' = calls w ++ chunks_of chunk_size (features_of records) /\
    columns records = columns db_data /\
    forall row, In row (iterrows records) -> In row (iterrows db_data).
Proof.
  pose proof (records_to_add_clean join_order db_data ago_data key_columns
                Hjoin Hclean (same_kind_no_clash _ _ _ Hkinds)) as Hr.
  destruct (sync_data_sends w ago_data db_data _ key_columns Hr) as (w' & Hs & Hc).
  exists (left_only_frame join_order db_data ago_data key_columns), w'.
  repeat split; auto.
  - apply columns_left_only_frame.
  - intros row I. rewrite iterrows_left_only_frame in I by exact join_order_perm.
    apply in_map_iff in I. destruct I as (i & <- & I).
    apply in_left_only_rows in I; [|exact join_order_perm].
    unfold iterrows. apply in_map. apply in_seq. lia.
Qed.

(** C2, as the code has it. The rows selected are those marked
    [left_only].  For frames the join accepts (distinct labels, a key, the
    key columns in both frames and of one kind, integers or strings, no
    reserved label), with labels free of [_x] and [_y] and a table whose
    columns outside the key hold texts and [None]: a row is sent exactly
    when it is a row of the left-hand frame [db_data] whose key has no
    partner in the right-hand frame [ago_data], so that its right-hand
    values are absent after the join.  Rows that only the right-hand
    frame has are never sent. *)
Theorem sync_data_sends_left_only_rows
    (w : portal) (ago_data db_data : DataFrame) (key_columns : list string)
    (Hjoin : joinable db_data ago_data key_columns = true)
    (Hclean : forallb clean_name (columns db_data ++ columns ago_data) = true)
    (Hkinds : same_kind_keys db_data ago_data key_columns = true)
    (Hplain : plain_table db_data key_columns = true) :
  exists records w' chunks,
    records_to_add join_order db_data ago_data key_columns = Ok records /\
    sync_data edit_features join_order w ago_data db_data key_columns = Ok w' /\
    calls w' = calls w ++ chunks /\
    concat chunks = features_of records /\
    forall row,
      In row (iterrows records) <->
      exists i, i < nrows db_data /\
                unmatched db_data ago_data key_columns i = true /\
                row = row_of db_data i.
Proof.
  pose proof (records_to_add_clean join_order db_data ago_data key_columns
                Hjoin Hclean (same_kind_no_clash _ _ _ Hkinds)) as Hr.
  destruct (sync_data_sends w ago_data db_data _ key_columns Hr) as (w' & Hs & Hc).
  exists (left_only_frame join_order db_data ago_data key_columns), w',
         (chunks_of chunk_size
            (features_of (left_only_frame join_order db_data ago_data key_columns))).
  repeat split; auto.
  - apply chunks_of_spec. apply chunk_size_pos.
  - intros I. rewrite iterrows_left_only_frame in I by exact join_order_perm.
    apply in_map_iff in I. destruct I as (i & <- & I).
    apply in_left_only_rows in I; [|exact join_order_perm].
    exists i. tauto.
  - intros (i & Hi & Hu & ->).
    rewrite iterrows_left_only_frame by exact join_order_perm.
    apply in_map. apply in_left_only_rows; auto.
Qed.

(** C8, as the code has it. [sync_data] has no check for duplicate keys:
    the join is carried out on the frames as they are.  For frames the
    join accepts (distinct labels, a key, the key columns in both frames
    and of one kind, integers or strings, no reserved label), with labels
    free of [_x] and [_y] and a table whose columns outside the key hold
    texts and [None]: when two rows of [db_data] share a key tuple that
    [ago_data] does not have, the run does not raise and both rows are in
    the frame that is sent, which holds each row without a partner
    once. *)
Theorem duplicate_keys_are_joined
    (w : portal) (ago_data db_data : DataFrame) (key_columns : list string)
    (i1 i2 : nat)
    (Hjoin : joinable db_data ago_data key_columns = true)
    (Hclean : forallb clean_name (columns db_data ++ columns ago_data) = true)
    (Hkinds : same_kind_keys db_data ago_data key_columns = true)
    (Hplain : plain_table db_data key_columns = true)
    (Hrows : i1 < i2 /\ i2 < nrows db_data)
    (Hdup : tuple_eqb (key_tuple db_data key_columns i1)
                      (key_tuple db_data key_columns i2) = true)
    (Hun1 : unmatched db_data ago_data key_columns i1 = true)
    (Hun2 : unmatched db_data ago_data key_columns i2 = true) :
  exists records w' rows,
    records_to_add join_order db_data ago_data key_columns = Ok records /\
    sync_data edit_features join_order w ago_data db_data key_columns = Ok w' /\
    calls w' = calls w ++ chunks_of chunk_size (features_of records) /\
    iterrows records = map (row_of db_data) rows /\
    Permutation rows (filter (unmatched db_data ago_data key_columns)
                             (seq 0 (nrows db_data))) /\
    In i1 rows /\ In i2 rows.
Proof.
  pose proof (records_to_add_clean join_order db_data ago_data key_columns
                Hjoin Hclean (same_kind_no_clash _ _ _ Hkinds)) as Hr.
  destruct (sync_data_sends w ago_data db_data _ key_columns Hr) as (w' & Hs & Hc).
  exists (left_only_frame join_order db_data ago_data key_columns), w',
         (left_only_rows (join_indexers join_order db_data ago_data key_columns)).
  repeat split; auto.
  - apply iterrows_left_only_frame. exact join_order_perm.
  - apply left_only_rows_unmatched. exact join_order_perm.
  - apply in_left_only_rows; [exact join_order_perm|]. split; [lia | exact Hun1].
  - apply in_left_only_rows; [exact join_order_perm|]. split; [lia | exact Hun2].
Qed.

(** C10, as the code has it. For frames the join accepts (distinct
    labels, a key, the key columns in both frames and of one kind,
    integers or strings, no reserved label) whose labels carry neither
    [_x] nor [_y], the table holding texts and [None] outside its key, the
    join returns, the cleanup drops exactly the right-hand columns that
    got the suffix [_y], gives the left-hand columns their bare names
    back, and the projection onto the labels of [db_data] returns.  A
    column of [db_data] whose own name carries [_y] is dropped, one whose
    name carries [_x] is renamed, and the projection then raises
    [KeyError], provided the key columns are of one kind, the join
    returned and every other label of the two frames is free of [_x] and
    [_y]. *)
Theorem suffix_cleanup (ago_data db_data : DataFrame) (key_columns : list string) :
  (joinable db_data ago_data key_columns = true ->
   forallb clean_name (columns db_data ++ columns ago_data) = true ->
   same_kind_keys db_data ago_data key_columns = true ->
   plain_table db_data key_columns = true ->
   exists merged kept,
     merge_outer join_order db_data ago_data key_columns = Ok merged /\
     columns (left_only_records merged)
     = map (left_label db_data ago_data key_columns) (columns db_data)
       ++ map (right_label db_data ago_data key_columns)
              (filter (fun c => negb (mem c key_columns)) (columns ago_data)) /\
     drop_y_columns (left_only_records merged) = Ok kept /\
     columns kept
     = map (left_label db_data ago_data key_columns) (columns db_data)
       ++ filter (fun c => negb (overlaps db_data ago_data key_columns c))
                 (filter (fun c => negb (mem c key_columns)) (columns ago_data)) /\
     columns (strip_x_suffix kept)
     = columns db_data
       ++ filter (fun c => negb (overlaps db_data ago_data key_columns c))
                 (filter (fun c => negb (mem c key_columns)) (columns ago_data)) /\
     getitem_labels (strip_x_suffix kept) (columns db_data)
     = Ok (left_only_frame join_order db_data ago_data key_columns) /\
     records_to_add join_order db_data ago_data key_columns
     = Ok (left_only_frame join_order db_data ago_data key_columns))
  /\
  (forall merged c,
     same_kind_keys db_data ago_data key_columns = true ->
     merge_outer join_order db_data ago_data key_columns = Ok merged ->
     In c (columns db_data) ->
     PyStr.contains "_x" c = true \/ PyStr.contains "_y" c = true ->
     (forall d, In d (columns db_data ++ columns ago_data) -> d <> c ->
                clean_name d = true) ->
     records_to_add join_order db_data ago_data key_columns = Raise KeyError).
Proof.
  split.
  - intros Hjoin Hclean Hkinds _.
    apply cleanup_stages; auto using same_kind_no_clash.
  - intros merged c _. apply offending_label_fails.
Qed.

End SyncFacts.

(** * Runs on the sample frames *)

Import Sample.

Lemma found_order_perm : forall l, Permutation (found_order l) l.
Proof. intros l. apply Permutation_refl. Defined.

(** Scenario A: the table has the keys 1, 2, 3, the layer 1 and 2; the
    record with key 3 is sent with the table's columns. *)
Example scenario_A :
  sync_data count_added found_order fresh layer_12 table_123 ["unique_id"]
  = Ok {| calls := [[[("unique_id", VInt 3); ("name", VStr "c")]]];
          stdout := ["Added 1 records to AGO."] |}.
Proof. vm_compute. reflexivity. Qed.

(** Scenario B: the markup of a note is stripped by [prepare_data]. *)
Example scenario_B :
  prepare_data repr_dict hex_point [("field_notes", [VStr "<b>Hello</b> world"])] false
  = Ok [("field_notes", [VStr "Hello world"])].
Proof. reflexivity. Qed.

(** Scenario D: 250 records go out in chunks of 100, 100 and 50. *)
Example scenario_D :
  map (@List.length _) (calls (fst (add_to_ago count_added fresh (numbered 250))))
  = [100; 100; 50].
Proof. vm_compute. reflexivity. Qed.

Example geometry_encoded :
  prepare_data repr_dict hex_point
    [("geometry", [VGeom [("x", 3%Z); ("y", 4%Z)]])] true
  = Ok [("geometry", [VStr "0101000000/3/4"])].
Proof. reflexivity. Qed.

(** The geometry step does not take its own result: the encoded geometry
    is a [str]. *)
Example geometry_encoded_twice :
  prepare_data repr_dict hex_point
    [("geometry", [VStr "0101000000/3/4"])] true
  = Raise TypeError.
Proof. reflexivity. Qed.

(** A column named [_merge] makes the join raise. *)
Example indicator_name_taken :
  records_to_add found_order table_merge layer_2 ["unique_id"] = Raise ValueError.
Proof. reflexivity. Qed.

(** A column [max_x] of the table is renamed to [max] and the projection
    does not find it. *)
Example renamed_column_missing :
  drop_y_columns (left_only_records
                    [("unique_id", [VInt 1; VInt 2]); ("max_x", [VStr "5"; VNaN]);
                     ("_merge", [VStr "left_only"; VStr "right_only"])])
  = Ok [("unique_id", [VInt 1]); ("max_x", [VStr "5"])]
  /\ strip_x_suffix [("unique_id", [VInt 1]); ("max_x", [VStr "5"])]
     = [("unique_id", [VInt 1]); ("max", [VStr "5"])]
  /\ records_to_add found_order table_max layer_2 ["unique_id"] = Raise KeyError.
Proof. repeat split; vm_compute; reflexivity. Qed.

(** C1. The join does not work on normalized frames: the table's note
    [<b>A</b>] and the layer's note [A] are the same key once normalized,
    and nothing would be sent; [sync_data] compares them as fetched and
    sends the record, markup included. *)
Lemma sync_data_skips_prepare_data :
  normalized_records_to_add repr_dict hex_point found_order
    table_note layer_note false ["site_note"]
  = Ok [("site_note", [])]
  /\ records_to_add found_order table_note layer_note ["site_note"]
     = Ok [("site_note", [VStr "<b>A</b>"])]
  /\ sync_data count_added found_order fresh layer_note table_note ["site_note"]
     = Ok {| calls := [[[("site_note", VStr "<b>A</b>")]]];
             stdout := ["Added 1 records to AGO."] |}.
Proof. repeat split; vm_compute; reflexivity. Qed.

Lemma sync_data_joins_fetched_frames_witness :
  joinable table_123 layer_12 ["unique_id"] = true /\
  forallb clean_name (columns table_123 ++ columns layer_12) = true /\
  same_kind_keys table_123 layer_12 ["unique_id"] = true /\
  plain_table table_123 ["unique_id"] = true /\
  exists records w',
    records_to_add found_order table_123 layer_12 ["unique_id"] = Ok records /\
    sync_data count_added found_order fresh layer_12 table_123 ["unique_id"] = Ok w' /\
    calls w' = calls fresh ++ chunks_of chunk_size (features_of records) /\
    columns records = columns table_123 /\
    forall row, In row (iterrows records) -> In row (iterrows table_123).
Proof.
  repeat (split; [reflexivity|]).
  apply (sync_data_joins_fetched_frames nat count_added found_order found_order_perm
           fresh layer_12 table_123 ["unique_id"]); reflexivity.
Defined.

(** C2. With key 1 in the left-hand frame and key 2 in the right-hand
    frame, the row sent is the one marked [left_only], whose left-hand
    values are present; the row whose left-hand values are absent, marked
    [right_only], is not sent. *)
Lemma left_only_row_is_sent :
  merge_outer found_order table_1 layer_2 ["unique_id"]
  = Ok [("unique_id", [VInt 1; VInt 2]);
        ("_merge", [VStr "left_only"; VStr "right_only"])]
  /\ sync_data count_added found_order fresh layer_2 table_1 ["unique_id"]
     = Ok {| calls := [[[("unique_id", VInt 1)]]];
             stdout := ["Added 1 records to AGO."] |}.
Proof. split; vm_compute; reflexivity. Qed.

Lemma sync_data_sends_left_only_rows_witness :
  joinable table_123 layer_12 ["unique_id"] = true /\
  forallb clean_name (columns table_123 ++ columns layer_12) = true /\
  same_kind_keys table_123 layer_12 ["unique_id"] = true /\
  plain_table table_123 ["unique_id"] = true /\
  exists records w' chunks,
    records_to_add found_order table_123 layer_12 ["unique_id"] = Ok records /\
    sync_data count_added found_order fresh layer_12 table_123 ["unique_id"] = Ok w' /\
    calls w' = calls fresh ++ chunks /\
    concat chunks = features_of records /\
    forall row,
      In row (iterrows records) <->
      exists i, i < nrows table_123 /\
                unmatched table_123 layer_12 ["unique_id"] i = true /\
                row = row_of table_123 i.
Proof.
  repeat (split; [reflexivity|]).
  apply (sync_data_sends_left_only_rows nat count_added found_order found_order_perm
           fresh layer_12 table_123 ["unique_id"]); reflexivity.
Defined.

(** With 250 records the list [results] holds the three answers, one for
    each chunk, and [add_to_ago] returns the last of them alone. *)
Example results_of_250_records :
  add_to_ago_results count_added fresh (numbered 250) = [100; 100; 50]
  /\ snd (add_to_ago count_added fresh (numbered 250)) = Ok 50.
Proof. split; vm_compute; reflexivity. Qed.

Lemma add_to_ago_returns_last_result_witness :
  0 < nrows (numbered 250) /\
  (calls (fst (add_to_ago count_added fresh (numbered 250)))
   = calls fresh ++ chunks_of chunk_size (features_of (numbered 250)) /\
   add_to_ago_results count_added fresh (numbered 250)
   = responses count_added (calls fresh)
               (chunks_of chunk_size (features_of (numbered 250))) /\
   List.length (add_to_ago_results count_added fresh (numbered 250))
   = List.length (chunks_of chunk_size (features_of (numbered 250))) /\
   exists earlier r,
     add_to_ago_results count_added fresh (numbered 250) = earlier ++ [r] /\
     snd (add_to_ago count_added fresh (numbered 250)) = Ok r).
Proof.
  split; [vm_compute; lia|].
  apply (add_to_ago_returns_last_result nat count_added fresh (numbered 250)).
  vm_compute. lia.
Defined.

(** A missing date becomes the text ['None'] or ['nan'], a missing name
    the empty string. *)
Example visit_date_missing :
  prepare_data repr_dict hex_point
    [("visit_date", [VNone; VNaN; VStr "2024-05-01"]);
     ("name", [VNone; VNaN; VStr "a"])] false
  = Ok [("visit_date", [VStr "None"; VStr "nan"; VStr "2024-05-01"]);
        ("name", [VStr ""; VStr ""; VStr "a"])].
Proof. reflexivity. Qed.

Lemma missing_date_becomes_text_witness :
  prepare_data repr_dict hex_point table_dates false
  = Ok (prepared repr_dict table_dates) /\
  nth_error table_dates 1 = Some ("visit_date", [VNone; VStr "2024-05-01"]) /\
  is_date_col "visit_date" = true /\
  nth_error [VNone; VStr "2024-05-01"] 0 = Some VNone /\
  isnull VNone = true /\
  exists s',
    nth_error (prepared repr_dict table_dates) 1 = Some ("visit_date", s') /\
    nth_error s' 0 = Some (VStr (str repr_dict VNone)) /\
    VStr (str repr_dict VNone) <> VStr "".
Proof.
  repeat (split; [reflexivity|]).
  apply (missing_date_becomes_text repr_dict hex_point table_dates
           (prepared repr_dict table_dates) false 1 0 "visit_date"
           [VNone; VStr "2024-05-01"] VNone); reflexivity.
Defined.

(** The second record has no geometry: subscripting [''] is a
    [TypeError]. *)
Example geometry_missing :
  prepare_data repr_dict hex_point
    [("objectid", [VInt 1; VInt 2]);
     ("geometry", [VGeom [("x", 3%Z); ("y", 4%Z)]; VNone])] true
  = Raise TypeError.
Proof. reflexivity. Qed.

Lemma null_geometry_raises_witness :
  In ("geometry", [VNone]) spatial_null /\
  In VNone [VNone] /\
  isnull VNone = true /\
  exists e, prepare_data repr_dict hex_point spatial_null true = Raise e.
Proof.
  split; [simpl; auto|]. split; [simpl; auto|]. split; [reflexivity|].
  apply (null_geometry_raises repr_dict hex_point spatial_null [VNone] VNone).
  - simpl. auto.
  - simpl. auto.
  - reflexivity.
Defined.



(** C8. Two rows of the table share the key 7, which the layer does not
    have; the frame is in normal form already.  The run raises nothing,
    prints no report of the duplicate and sends both rows. *)
Lemma duplicate_keys_reach_the_join :
  prepare_data repr_dict hex_point table_dup false = Ok table_dup
  /\ tuple_eqb (key_tuple table_dup ["unique_id"] 0)
               (key_tuple table_dup ["unique_id"] 1) = true
  /\ sync_data count_added found_order fresh layer_2 table_dup ["unique_id"]
     = Ok {| calls := [[[("unique_id", VInt 7); ("name", VStr "a")];
                        [("unique_id", VInt 7); ("name", VStr "b")]]];
             stdout := ["Added 2 records to AGO."] |}.
Proof. repeat split; vm_compute; reflexivity. Qed.

Lemma duplicate_keys_are_joined_witness :
  joinable table_dup layer_2 ["unique_id"] = true /\
  forallb clean_name (columns table_dup ++ columns layer_2) = true /\
  same_kind_keys table_dup layer_2 ["unique_id"] = true /\
  plain_table table_dup ["unique_id"] = true /\
  (0 < 1 /\ 1 < nrows table_dup) /\
  tuple_eqb (key_tuple table_dup ["unique_id"] 0)
            (key_tuple table_dup ["unique_id"] 1) = true /\
  unmatched table_dup layer_2 ["unique_id"] 0 = true /\
  unmatched table_dup layer_2 ["unique_id"] 1 = true /\
  exists records w' rows,
    records_to_add found_order table_dup layer_2 ["unique_id"] = Ok records /\
    sync_data count_added found_order fresh layer_2 table_dup ["unique_id"] = Ok w' /\
    calls w' = calls fresh ++ chunks_of chunk_size (features_of records) /\
    iterrows records = map (row_of table_dup) rows /\
    Permutation rows (filter (unmatched table_dup layer_2 ["unique_id"])
                             (seq 0 (nrows table_dup))) /\
    In 0 rows /\ In 1 rows.
Proof.
  split; [reflexivity|]. split; [reflexivity|].
  split; [reflexivity|]. split; [reflexivity|]. split; [simpl; lia|].
  split; [reflexivity|]. split; [reflexivity|]. split; [reflexivity|].
  apply (duplicate_keys_are_joined nat count_added found_order found_order_perm
           fresh layer_2 table_dup ["unique_id"] 0 1);
    try reflexivity.
  simpl. lia.
Defined.

(** C10. The table's column [tax_year] is not a key and its name carries
    [_y], yet the projection does not fail: the layer's column
    [tax__xyear] has no [_y], survives, and is renamed to [tax_year]; its
    missing values are what is handed on. *)
Lemma tax_year_taken_by_another_column :
  PyStr.contains "_y" "tax_year" = true
  /\ mem "tax_year" ["unique_id"] = false
  /\ In "tax_year" (columns table_tax)
  /\ records_to_add found_order table_tax layer_tax ["unique_id"]
     = Ok [("unique_id", [VInt 1]); ("tax_year", [VNaN])].
Proof. repeat split; try (vm_compute; reflexivity). simpl. auto. Qed.

Lemma suffix_cleanup_witness :
  (joinable table_123 layer_12 ["unique_id"] = true /\
   forallb clean_name (columns table_123 ++ columns layer_12) = true /\
   same_kind_keys table_123 layer_12 ["unique_id"] = true /\
   plain_table table_123 ["unique_id"] = true /\
   records_to_add found_order table_123 layer_12 ["unique_id"]
   = Ok (left_only_frame found_order table_123 layer_12 ["unique_id"]))
  /\
  (same_kind_keys table_fiscal layer_2 ["unique_id"] = true /\
   merge_outer found_order table_fiscal layer_2 ["unique_id"]
   = Ok [("unique_id", [VInt 1; VInt 2]); ("tax_year", [VStr "2020"; VNaN]);
         ("_merge", [VStr "left_only"; VStr "right_only"])] /\
   In "tax_year" (columns table_fiscal) /\
   PyStr.contains "_y" "tax_year" = true /\
   records_to_add found_order table_fiscal layer_2 ["unique_id"] = Raise KeyError).
Proof.
  split.
  - repeat (split; [reflexivity|]).
    destruct (proj1 (suffix_cleanup found_order layer_12 table_123 ["unique_id"])
                eq_refl eq_refl eq_refl eq_refl)
      as (merged & kept & _ & _ & _ & _ & _ & _ & H).
    exact H.
  - split; [reflexivity|]. split; [vm_compute; reflexivity|].
    split; [simpl; auto|]. split; [reflexivity|].
    apply (proj2 (suffix_cleanup found_order layer_2 table_fiscal ["unique_id"])
             [("unique_id", [VInt 1; VInt 2]); ("tax_year", [VStr "2020"; VNaN]);
              ("_merge", [VStr "left_only"; VStr "right_only"])]
             "tax_year").
    + reflexivity.
    + vm_compute. reflexivity.
    + simpl. auto.
    + right. reflexivity.
    + intros d [<-|[<-|[<-|[]]]] Hd; try reflexivity.
      exfalso. apply Hd. reflexivity.
Defined.


(** * Further properties *)

(** ** [prepare_data] and [convert_geometry] *)

Section NormalizerMore.

Variable repr_geometry : geometry -> string.
Variable wkb_dumps_hex : Z -> Z -> string.

Lemma mapM_Forall2 {A B : Type} (f : A -> py B) (l : list A) : forall l',
  mapM f l = Ok l' -> Forall2 (fun a b => f a = Ok b) l l'.
Proof.
  induction l as [|a l IH]; intros l' H; simpl in H.
  - injection H as <-. constructor.
  - destruct (f a) as [b|] eqn:Fa; simpl in H; [|discriminate].
    destruct (mapM f l) as [bs|] eqn:M; simpl in H; [|discriminate].
    injection H as <-. constructor; auto.
Qed.

Lemma Forall2_mapM {A B : Type} (f : A -> py B) (l : list A) (l' : list B) :
  Forall2 (fun a b => f a = Ok b) l l' -> mapM f l = Ok l'.
Proof.
  induction 1 as [|a b l l' Fa _ IH]; simpl; [reflexivity|].
  now rewrite Fa, IH.
Qed.

Lemma apply_geometry_columns (df : DataFrame) : forall out,
  apply_geometry wkb_dumps_hex df = Ok out <->
  Forall2 (geometry_step wkb_dumps_hex) df out.
Proof.
  induction df as [|[c s] rest IH]; intros out; simpl.
  - split; intros H.
    + injection H as <-. constructor.
    + inversion H. reflexivity.
  - split; intros H.
    + destruct (if String.eqb c "geometry"
                then mapM (convert_geometry wkb_dumps_hex) s else Ok s)
        as [s'|] eqn:E; simpl in H; [|discriminate].
      destruct (apply_geometry wkb_dumps_hex rest) as [rest'|] eqn:A;
        simpl in H; [|discriminate].
      injection H as <-. constructor; [|now apply IH].
      split; [reflexivity|]. simpl.
      destruct (String.eqb c "geometry").
      * now apply mapM_Forall2.
      * now injection E.
    + inversion H as [|x cs' l l' Hstep Hrest]; subst.
      destruct cs' as [c' s']. destruct Hstep as [Hc Hs].
      simpl in Hc, Hs. subst c'.
      apply IH in Hrest. rewrite Hrest.
      destruct (String.eqb c "geometry").
      * rewrite (Forall2_mapM _ _ _ Hs). reflexivity.
      * subst s'. reflexivity.
Qed.

Lemma convert_geometry_point (v v' : value) :
  convert_geometry wkb_dumps_hex v = Ok v' <->
  exists x y, point_of v = Some (x, y) /\
              fits_float x && fits_float y = true /\
              v' = VStr (wkb_dumps_hex x y).
Proof.
  unfold convert_geometry, point_of. destruct v; try (split; [discriminate|]);
    try (intros (x & y & H & _); discriminate).
  destruct (getitem g "x") as [x|]; simpl;
    [|split; [discriminate | intros (? & ? & H & _); discriminate]].
  destruct (getitem g "y") as [y|]; simpl;
    [|split; [discriminate | intros (? & ? & H & _); discriminate]].
  split.
  - intros H. destruct (fits_float x && fits_float y) eqn:F; [|discriminate].
    injection H as <-. eauto.
  - intros (x' & y' & H & F & ->). injection H as <- <-. now rewrite F.
Qed.

Lemma prepare_cell_geometry (v : value) :
  point_of (prepare_cell repr_geometry "geometry" v) = point_of v.
Proof. destruct v; reflexivity. Qed.

Lemma Forall2_in_r {A B : Type} (P : A -> B -> Prop) (l : list A) (l' : list B) (b : B) :
  Forall2 P l l' -> In b l' -> exists a, In a l /\ P a b.
Proof.
  induction 1 as [|x y l l' Hxy _ IH]; intros I; [contradiction|].
  destruct I as [<-|I].
  - exists x. split; [now left | exact Hxy].
  - destruct (IH I) as (a & Ia & Pa). exists a. split; [now right | exact Pa].
Qed.

Lemma Forall2_nth_error {A B : Type} (P : A -> B -> Prop) (l : list A) (l' : list B) :
  Forall2 P l l' -> forall n a, nth_error l n = Some a ->
  exists b, nth_error l' n = Some b /\ P a b.
Proof.
  induction 1 as [|x y l l' Hxy _ IH]; intros n a Hn.
  - destruct n; discriminate.
  - destruct n; simpl in *.
    + injection Hn as <-. eauto.
    + eauto.
Qed.

(** How a run that returns relates the frame it was given to its result,
    column by column. *)
Lemma prepare_data_columns (data out : DataFrame) (spatial : bool) :
  prepare_data repr_geometry wkb_dumps_hex data spatial = Ok out ->
  Forall2 (fun cs cs' =>
             fst cs' = fst cs /\
             if spatial && String.eqb (fst cs) "geometry"
             then Forall2 (fun v v' =>
                             convert_geometry wkb_dumps_hex
                               (prepare_cell repr_geometry (fst cs) v) = Ok v')
                          (snd cs) (snd cs')
             else snd cs' = map (prepare_cell repr_geometry (fst cs)) (snd cs))
          data out.
Proof.
  unfold prepare_data. rewrite passes_prepared.
  destruct spatial; cbn [andb].
  - destruct (has_col "geometry" (prepared repr_geometry data)) eqn:Hg.
    + intros H. apply apply_geometry_columns in H.
      unfold prepared in H. clear Hg. revert out H.
      induction data as [|[c s] rest IH]; intros out H;
        inversion H as [|x cs' l l' Hstep Hrest]; subst; [constructor|].
      constructor; [|now apply IH].
      destruct Hstep as [Hc Hstep].
      split; [exact Hc|]. cbn [fst snd] in *.
      destruct (String.eqb c "geometry"); [|exact Hstep].
      clear - Hstep. remember (map (prepare_cell repr_geometry c) s) as ps eqn:E.
      revert s E. induction Hstep as [|v0 v' l0 l1 Hv _ IHs];
        intros [|v s0] E; try discriminate; constructor.
      * simpl in E. injection E as -> _. assumption.
      * simpl in E. injection E as _ E'. now apply IHs.
    + intros H. injection H as <-.
      assert (Hno : forall cs, In cs data -> String.eqb (fst cs) "geometry" = false).
      { intros cs I. destruct (String.eqb (fst cs) "geometry") eqn:E; [|reflexivity].
        apply String.eqb_eq in E. unfold has_col in Hg.
        rewrite columns_prepared in Hg. apply mem_false in Hg.
        exfalso. apply Hg. rewrite <- E. apply (in_map fst) in I. exact I. }
      unfold prepared. clear Hg. induction data as [|cs rest IH]; constructor.
      * split; [reflexivity|]. rewrite (Hno cs) by now left. reflexivity.
      * apply IH. intros x I. apply Hno. now right.
  - intros H. injection H as <-. unfold prepared.
    induction data as [|cs rest IH]; constructor; auto.
Qed.

(** X1. The result has the labels of the frame it was made of, in their
    order, and every column keeps its number of rows. *)
Theorem prepare_data_keeps_shape (data out : DataFrame) (spatial : bool)
    (Hrun : prepare_data repr_geometry wkb_dumps_hex data spatial = Ok out) :
  columns out = columns data /\
  map (fun cs => List.length (snd cs)) out = map (fun cs => List.length (snd cs)) data.
Proof.
  apply prepare_data_columns in Hrun.
  induction Hrun as [|cs cs' l l' [Hc Hs] _ [IH1 IH2]]; [split; reflexivity|].
  unfold columns in *. cbn [map]. rewrite Hc, IH1, IH2. split; [reflexivity|].
  f_equal. destruct (spatial && String.eqb (fst cs) "geometry").
  - symmetry. eapply Forall2_length; eauto.
  - rewrite Hs. apply length_map.
Qed.

(** X2. No cell of the result is missing. *)
Theorem prepare_data_leaves_no_missing (data out : DataFrame) (spatial : bool)
    (col : string) (s : Series) (v : value)
    (Hrun : prepare_data repr_geometry wkb_dumps_hex data spatial = Ok out)
    (Hcol : In (col, s) out) (Hcell : In v s) :
  isnull v = false.
Proof.
  apply prepare_data_columns in Hrun.
  destruct (Forall2_in_r _ _ _ _ Hrun Hcol) as (cs & _ & Hc & Hs).
  cbn [fst snd] in *.
  destruct (spatial && String.eqb (fst cs) "geometry").
  - destruct (Forall2_in_r _ _ _ _ Hs Hcell) as (v0 & _ & Hv).
    apply convert_geometry_point in Hv. destruct Hv as (x & y & _ & _ & ->).
    reflexivity.
  - subst s. apply in_map_iff in Hcell. destruct Hcell as (v0 & <- & _).
    apply prepare_cell_not_null.
Qed.

Lemma has_tag_sub_tags_from (s : string) : forall inside,
  has_tag (PyStr.sub_tags_from inside s) = false.
Proof.
  induction s as [|c rest IH]; intros inside; simpl; [reflexivity|].
  destruct inside.
  - destruct (PyStr.is_gt c); apply IH.
  - destruct (PyStr.is_lt c && PyStr.has_gt rest) eqn:E; [apply IH|].
    simpl. rewrite IH, orb_false_r.
    destruct (PyStr.is_lt c); [|reflexivity]. simpl in *.
    destruct (PyStr.has_gt (PyStr.sub_tags_from false rest)) eqn:G; [|reflexivity].
    apply PyStrFacts.has_gt_sub_tags_from in G. congruence.
Qed.

Lemma sub_tags_plain (s : string) : has_tag s = false -> PyStr.sub_tags s = s.
Proof.
  unfold PyStr.sub_tags. induction s as [|c rest IH]; intros H; [reflexivity|].
  simpl in H. apply orb_false_iff in H. destruct H as [H1 H2].
  simpl. rewrite H1, (IH H2). reflexivity.
Qed.

(** X3. In a column whose label contains [note] every cell of the result is
    a text in which no ['<'] has a ['>'] behind it. *)
Theorem note_columns_have_no_tag (data out : DataFrame) (spatial : bool)
    (col : string) (s : Series) (v : value)
    (Hrun : prepare_data repr_geometry wkb_dumps_hex data spatial = Ok out)
    (Hcol : In (col, s) out) (Hnote : is_note_col col = true) (Hcell : In v s) :
  exists t, v = VStr t /\ has_tag t = false.
Proof.
  apply prepare_data_columns in Hrun.
  destruct (Forall2_in_r _ _ _ _ Hrun Hcol) as (cs & _ & Hc & Hs).
  cbn [fst snd] in *. subst col.
  rewrite (marked_not_geometry (fst cs) (or_intror Hnote)), andb_false_r in Hs.
  subst s. apply in_map_iff in Hcell. destruct Hcell as (v0 & <- & _).
  unfold prepare_cell. rewrite Hnote. unfold strip_markup.
  eexists. split; [reflexivity|]. apply has_tag_sub_tags_from.
Qed.

(** X4. A text is changed by nothing but the removal of tags: outside the
    note columns, and in them when it has no tag, it comes back as it
    was. *)
Theorem prepare_data_keeps_plain_text (data out : DataFrame) (spatial : bool)
    (j i : nat) (col : string) (s : Series) (t : string)
    (Hrun : prepare_data repr_geometry wkb_dumps_hex data spatial = Ok out)
    (Hcol : nth_error data j = Some (col, s))
    (Hcell : nth_error s i = Some (VStr t))
    (Hplain : is_note_col col = false \/ has_tag t = false) :
  exists s', nth_error out j = Some (col, s') /\ nth_error s' i = Some (VStr t).
Proof.
  apply prepare_data_columns in Hrun.
  destruct (Forall2_nth_error _ _ _ Hrun j _ Hcol) as ([c' s'] & Hj & Hc & Hs).
  cbn [fst snd] in *. subst c'. exists s'. split; [exact Hj|].
  destruct (spatial && String.eqb col "geometry") eqn:G.
  - destruct (Forall2_nth_error _ _ _ Hs i _ Hcell) as (v' & _ & Hv).
    apply andb_true_iff in G. destruct G as [_ G]. apply String.eqb_eq in G. subst col.
    apply convert_geometry_point in Hv. destruct Hv as (x & y & Hp & _).
    discriminate Hp.
  - subst s'. rewrite nth_error_map, Hcell. simpl. f_equal.
    unfold prepare_cell, strip_markup.
    destruct (is_date_col col); simpl; destruct (is_note_col col) eqn:N;
      try reflexivity; destruct Hplain as [?|Hp]; try discriminate;
      now rewrite (sub_tags_plain t Hp).
Qed.

(** X5. The spatial run returns exactly when every geometry is a dict with
    [x] and [y] holding integers that convert to floats: one record
    without a geometry, with a geometry that lacks a coordinate, or with
    a coordinate beyond the floats, makes the whole normalization raise. *)
Theorem prepare_data_spatial_returns_iff (data : DataFrame) :
  (exists out, prepare_data repr_geometry wkb_dumps_hex data true = Ok out)
  <-> geometries_ok data = true.
Proof.
  unfold geometries_ok. rewrite forallb_forall. split.
  - intros [out Hrun] cs Ics. apply prepare_data_columns in Hrun.
    destruct (String.eqb (fst cs) "geometry") eqn:G; [|reflexivity].
    cbn [negb orb]. apply forallb_forall. intros v Iv.
    apply In_nth_error in Ics. destruct Ics as [j Hj].
    destruct (Forall2_nth_error _ _ _ Hrun j _ Hj) as (cs' & _ & _ & Hs).
    cbn [andb] in Hs. rewrite G in Hs.
    apply In_nth_error in Iv. destruct Iv as [i Hi].
    destruct (Forall2_nth_error _ _ _ Hs i _ Hi) as (v' & _ & Hv).
    apply convert_geometry_point in Hv. destruct Hv as (x & y & Hp & Hf & _).
    apply String.eqb_eq in G. rewrite G, prepare_cell_geometry in Hp.
    now rewrite Hp.
  - intros Hok. unfold prepare_data. rewrite passes_prepared.
    destruct (has_col "geometry" (prepared repr_geometry data)); cbn [andb]; [|eauto].
    unfold prepared. induction data as [|[c s] rest IH]; [simpl; eauto|].
    destruct IH as [out' Hout]; [intros x I; apply Hok; now right|].
    specialize (Hok (c, s) (or_introl eq_refl)). cbn [fst snd] in Hok.
    cbn [map apply_geometry fst snd]. rewrite Hout.
    destruct (String.eqb c "geometry") eqn:G; [|simpl; eauto].
    cbn [negb orb] in Hok. rewrite forallb_forall in Hok.
    apply String.eqb_eq in G. subst c.
    assert (exists s', mapM (convert_geometry wkb_dumps_hex)
                         (map (prepare_cell repr_geometry "geometry") s) = Ok s')
      as [s' ->]; [|simpl; eauto].
    clear - Hok. induction s as [|v s IHs]; [simpl; eauto|].
    destruct IHs as [s' Hs']; [intros x I; apply Hok; now right|].
    specialize (Hok v (or_introl eq_refl)).
    destruct (point_of v) as [[x y]|] eqn:P; [|discriminate].
    cbn [map mapM].
    assert (C : convert_geometry wkb_dumps_hex (prepare_cell repr_geometry "geometry" v)
                = Ok (VStr (wkb_dumps_hex x y))).
    { apply convert_geometry_point. exists x, y.
      rewrite prepare_cell_geometry. auto. }
    rewrite C, Hs'. simpl. eauto.
Qed.

(** X6. When the spatial run returns, every geometry has been replaced by the
    hex dump of the point of its [x] and [y]. *)
Theorem prepare_data_encodes_geometry (data out : DataFrame) (j i : nat)
    (s : Series) (v : value)
    (Hrun : prepare_data repr_geometry wkb_dumps_hex data true = Ok out)
    (Hcol : nth_error data j = Some ("geometry", s))
    (Hcell : nth_error s i = Some v) :
  exists x y s',
    point_of v = Some (x, y) /\
    nth_error out j = Some ("geometry", s') /\
    nth_error s' i = Some (VStr (wkb_dumps_hex x y)).
Proof.
  apply prepare_data_columns in Hrun.
  destruct (Forall2_nth_error _ _ _ Hrun j _ Hcol) as ([c' s'] & Hj & Hc & Hs).
  cbn [fst snd andb] in *. subst c'.
  change (String.eqb "geometry" "geometry") with true in Hs. cbn iota in Hs.
  destruct (Forall2_nth_error _ _ _ Hs i _ Hcell) as (v' & Hi & Hv).
  apply convert_geometry_point in Hv. destruct Hv as (x & y & Hp & _ & ->).
  rewrite prepare_cell_geometry in Hp. exists x, y, s'. auto.
Qed.

(** X7. Without a column labelled [geometry] the flag [spatial] changes
    nothing. *)
Theorem spatial_flag_needs_geometry (data : DataFrame)
    (Hnone : has_col "geometry" data = false) :
  prepare_data repr_geometry wkb_dumps_hex data true
  = prepare_data repr_geometry wkb_dumps_hex data false.
Proof.
  unfold prepare_data. rewrite passes_prepared.
  unfold has_col in *. rewrite columns_prepared, Hnone. reflexivity.
Qed.

End NormalizerMore.

(** ** [add_to_ago] *)

Section ChunkBounds.

Context {A : Type}.
Variable size : nat.
Hypothesis size_pos : 0 < size.
Variable l : list A.

Lemma length_chunk (i : nat) :
  List.length (slice l i (i + size)) = Nat.min size (List.length l - i).
Proof.
  rewrite slice_chunk by exact size_pos.
  now rewrite length_firstn, length_skipn.
Qed.

Lemma range_from_nonempty (fuel i : nat) :
  range_from fuel i (List.length l) size <> [] -> i < List.length l.
Proof.
  destruct fuel; simpl; [congruence|].
  destruct (Nat.ltb i (List.length l)) eqn:E; [|congruence].
  intros _. now apply Nat.ltb_lt.
Qed.

Lemma range_from_bounds (fuel : nat) : forall i,
  let cs := map (fun j => slice l j (j + size))
                (range_from fuel i (List.length l) size) in
  (forall c, In c cs -> 0 < List.length c <= size) /\
  (forall k, S k < List.length cs -> List.length (nth k cs []) = size).
Proof.
  induction fuel as [|fuel IH]; intros i; simpl.
  - split; [intros c []|intros k Hk; simpl in Hk; lia].
  - destruct (Nat.ltb i (List.length l)) eqn:Hlt.
    + apply Nat.ltb_lt in Hlt. destruct (IH (i + size)) as [Hall Hfull].
      simpl. split.
      * intros c [<-|Ic]; [rewrite length_chunk; lia | now apply Hall].
      * intros [|k] Hk.
        -- rewrite length_chunk.
           assert (i + size < List.length l); [|lia].
           apply (range_from_nonempty fuel).
           intros E. rewrite E in Hk. simpl in Hk. lia.
        -- apply Hfull. lia.
    + split; [intros c []|intros k Hk; simpl in Hk; lia].
Qed.

Lemma chunks_of_bounds :
  (forall c, In c (chunks_of size l) -> 0 < List.length c <= size) /\
  (forall k, S k < List.length (chunks_of size l) ->
             List.length (nth k (chunks_of size l) []) = size).
Proof. apply range_from_bounds. Qed.

End ChunkBounds.

Section RowFacts.

Lemma dict_set_keys (d : Feature) (k : string) (v : value) :
  map fst (dict_set d k v)
  = if mem k (map fst d) then map fst d else map fst d ++ [k].
Proof.
  induction d as [|[k' v'] d IH]; [reflexivity|].
  cbn [dict_set map fst]. unfold mem in *. cbn [existsb].
  rewrite (String.eqb_sym k k'). destruct (String.eqb k' k) eqn:E; [reflexivity|].
  cbn [orb map fst]. rewrite IH.
  destruct (existsb (String.eqb k) (map fst d)); reflexivity.
Qed.

Lemma dict_set_fresh (d : Feature) (k : string) (v : value) :
  ~ In k (map fst d) -> dict_set d k v = d ++ [(k, v)].
Proof.
  induction d as [|[k' v'] d IH]; intros H; [reflexivity|].
  cbn [dict_set]. destruct (String.eqb k' k) eqn:E.
  - apply String.eqb_eq in E. exfalso. apply H. now left.
  - cbn [app]. f_equal. apply IH. intros I. apply H. now right.
Qed.

Lemma dict_set_NoDup (d : Feature) (k : string) (v : value) :
  NoDup (map fst d) -> NoDup (map fst (dict_set d k v)).
Proof.
  intros N. rewrite dict_set_keys. destruct (mem k (map fst d)) eqn:M; [exact N|].
  apply mem_false in M. apply NoDup_app; auto.
  - repeat constructor. intros [].
  - intros a Ia [<-|[]]. contradiction.
Qed.

Lemma to_dict_keys (row acc : Feature) :
  NoDup (map fst acc) ->
  NoDup (map fst (fold_left (fun d kv => dict_set d (fst kv) (snd kv)) row acc)) /\
  forall k, In k (map fst (fold_left (fun d kv => dict_set d (fst kv) (snd kv)) row acc))
            -> In k (map fst acc) \/ In k (map fst row).
Proof.
  revert acc. induction row as [|[k v] row IH]; intros acc N; cbn [fold_left].
  - split; [exact N | tauto].
  - destruct (IH (dict_set acc k v) (dict_set_NoDup acc k v N)) as [N' S].
    split; [exact N'|]. intros k' I. destruct (S k' I) as [J|J].
    + rewrite dict_set_keys in J. cbn [fst map].
      destruct (mem k (map fst acc)); [tauto|].
      apply in_app_or in J. destruct J as [J|[<-|[]]]; simpl; tauto.
    + simpl. tauto.
Qed.

Lemma to_dict_distinct (row acc : Feature) :
  NoDup (map fst (acc ++ row)) ->
  fold_left (fun d kv => dict_set d (fst kv) (snd kv)) row acc = acc ++ row.
Proof.
  revert acc. induction row as [|[k v] row IH]; intros acc N; cbn [fold_left].
  - now rewrite app_nil_r.
  - cbn [fst snd]. rewrite dict_set_fresh.
    + rewrite IH; rewrite <- app_assoc; [reflexivity | exact N].
    + rewrite map_app in N. apply NoDup_remove_2 in N.
      intros I. apply N. apply in_or_app. now left.
Qed.

(** The attributes of a feature have distinct names and none of them is
    [geometry]. *)
Lemma row_attributes_keys (row : Feature) :
  NoDup (map fst (row_attributes row)) /\ ~ In "geometry" (map fst (row_attributes row)).
Proof.
  unfold row_attributes.
  destruct (to_dict_keys
              (filter (fun kv => negb (String.eqb (fst kv) "geometry")) row) [])
    as [N S]; [constructor|].
  split; [exact N|]. intros I. destruct (S _ I) as [[]|J].
  apply in_map_iff in J. destruct J as ([k v] & E & J). simpl in E. subst k.
  apply filter_In in J. destruct J as [_ J]. simpl in J. discriminate.
Qed.

Lemma row_attributes_distinct (row : Feature) :
  NoDup (map fst row) ->
  row_attributes row = filter (fun kv => negb (String.eqb (fst kv) "geometry")) row.
Proof.
  intros N. unfold row_attributes. rewrite to_dict_distinct; [reflexivity|].
  cbn [app]. clear - N. induction row as [|[k v] row IH]; [constructor|].
  inversion N as [|? ? Hk Hr]; subst. cbn [filter fst].
  destruct (negb (String.eqb k "geometry")); [|auto].
  cbn [map fst]. constructor; [|auto].
  intros I. apply Hk. apply in_map_iff in I. destruct I as (x & E & I).
  apply filter_In in I. apply in_map_iff. exists x. tauto.
Qed.

Lemma features_of_distinct (data : DataFrame) :
  distinct (columns data) = true ->
  features_of data = map (plain_row data) (seq 0 (nrows data)).
Proof.
  intros D. apply distinct_NoDup in D. unfold features_of, iterrows.
  rewrite map_map. apply map_ext. intros i. unfold plain_row.
  apply row_attributes_distinct. unfold row_of. rewrite map_map. exact D.
Qed.

End RowFacts.

Section AddToAgoMore.

Variable R : Type.
Variable edit_features : list (list Feature) -> list Feature -> R.

(** X8. No feature sent has an attribute named [geometry], and no feature
    has two attributes of one name. *)
Theorem add_to_ago_sends_no_geometry (w : portal) (data : DataFrame) :
  exists chunks,
    calls (fst (add_to_ago edit_features w data)) = calls w ++ chunks /\
    forall chunk f, In chunk chunks -> In f chunk ->
      ~ In "geometry" (map fst f) /\ NoDup (map fst f).
Proof.
  exists (chunks_of chunk_size (features_of data)).
  split; [apply add_to_ago_sends|].
  intros chunk f Ic If.
  assert (I : In f (features_of data)).
  { destruct (chunks_of_spec chunk_size chunk_size_pos (features_of data)) as (E & _).
    rewrite <- E. apply in_concat. eauto. }
  unfold features_of in I. apply in_map_iff in I. destruct I as (row & <- & _).
  destruct (row_attributes_keys row). auto.
Qed.

(** X9. Every batch sent holds at least one feature and at most 100, and
    every batch but the last holds exactly 100. *)
Theorem add_to_ago_batch_sizes (w : portal) (data : DataFrame) :
  exists chunks,
    calls (fst (add_to_ago edit_features w data)) = calls w ++ chunks /\
    (forall chunk, In chunk chunks -> 0 < List.length chunk <= 100) /\
    (forall k, S k < List.length chunks -> List.length (nth k chunks []) = 100).
Proof.
  exists (chunks_of chunk_size (features_of data)).
  split; [apply add_to_ago_sends|].
  apply (chunks_of_bounds chunk_size chunk_size_pos).
Qed.

(** X10. On a frame without rows [add_to_ago] sends nothing, prints that 0
    records were added and raises [UnboundLocalError] at its [return]. *)
Theorem add_to_ago_without_rows (w : portal) (data : DataFrame)
    (Hrows : nrows data = 0) :
  add_to_ago edit_features w data
  = ({| calls := calls w; stdout := stdout w ++ ["Added 0 records to AGO."] |},
     Raise UnboundLocalError).
Proof.
  unfold add_to_ago, iterrows. rewrite Hrows. reflexivity.
Qed.

(** X11. For a frame with a distinct label on every column, whose columns
    hold integers or hold texts and [None], the features sent, put end to
    end, are the rows of the frame in their order, each with the values
    of its row under the labels of the columns, [geometry] left out. *)
Theorem add_to_ago_sends_rows (w : portal) (data : DataFrame)
    (Hlabels : distinct (columns data) = true)
    (Hplain : plain_frame data = true) :
  exists chunks,
    calls (fst (add_to_ago edit_features w data)) = calls w ++ chunks /\
    concat chunks = map (plain_row data) (seq 0 (nrows data)).
Proof.
  exists (chunks_of chunk_size (features_of data)).
  split; [apply add_to_ago_sends|].
  destruct (chunks_of_spec chunk_size chunk_size_pos (features_of data)) as (E & _).
  rewrite E. now apply features_of_distinct.
Qed.

(** X12. [sync_data] calls [add_to_ago] only on a frame with rows, and there
    [add_to_ago] reaches its [return] with [result] bound. *)
Theorem sync_data_calls_add_to_ago_with_rows
    (join_order : list indexer -> list indexer) (w : portal)
    (ago_data db_data records : DataFrame) (key_columns : list string)
    (Hrecords : records_to_add join_order db_data ago_data key_columns = Ok records)
    (Hsome : empty records = false) :
  exists w' r,
    add_to_ago edit_features w records = (w', Ok r) /\
    sync_data edit_features join_order w ago_data db_data key_columns = Ok w'.
Proof.
  assert (Hne : features_of records <> []).
  { intros E. apply (f_equal (@List.length _)) in E.
    rewrite length_features_of in E. simpl in E.
    unfold empty in Hsome. destruct records; [discriminate|].
    apply Nat.eqb_neq in Hsome. contradiction. }
  destruct (add_to_ago_returns_last R edit_features w records Hne) as (pre & r & _ & Hr).
  exists (fst (add_to_ago edit_features w records)), r. split.
  - destruct (add_to_ago edit_features w records) as [w' res]. simpl in *. now subst.
  - unfold sync_data. rewrite Hrecords. cbn [bind]. rewrite Hsome. reflexivity.
Qed.

End AddToAgoMore.

(** X13. What [add_to_ago] sends and prints does not depend on what the layer
    answers: no answer stops the loop, is retried or is reported, and the
    line printed counts the rows of the frame. *)
Theorem add_to_ago_ignores_answers (R1 R2 : Type)
    (answers1 : list (list Feature) -> list Feature -> R1)
    (answers2 : list (list Feature) -> list Feature -> R2)
    (w : portal) (data : DataFrame) :
  fst (add_to_ago answers1 w data) = fst (add_to_ago answers2 w data) /\
  stdout (fst (add_to_ago answers1 w data))
  = stdout w ++ [("Added " ++ PyStr.of_nat (nrows data) ++ " records to AGO.")%string].
Proof.
  unfold add_to_ago. cbn [fst stdout]. fold (features_of data).
  destruct (upload_loop_sends R1 answers1 (features_of data) chunk_size w) as (C1 & O1 & _).
  destruct (upload_loop_sends R2 answers2 (features_of data) chunk_size w) as (C2 & O2 & _).
  rewrite C1, C2, O1, O2, length_features_of. split; reflexivity.
Qed.

(** ** [sync_data] *)

Section SyncMore.

Variable R : Type.
Variable edit_features : list (list Feature) -> list Feature -> R.
Variable join_order : list indexer -> list indexer.
Hypothesis join_order_perm : forall l, Permutation (join_order l) l.

Lemma features_of_left_only_frame (left right : DataFrame) (keys : list string) :
  distinct (columns left) = true ->
  features_of (left_only_frame join_order left right keys)
  = map (plain_row left) (left_only_rows (join_indexers join_order left right keys)).
Proof.
  intros D. apply distinct_NoDup in D. unfold features_of.
  rewrite iterrows_left_only_frame by exact join_order_perm.
  rewrite map_map. apply map_ext. intros i. unfold plain_row.
  apply row_attributes_distinct. unfold row_of. rewrite map_map. exact D.
Qed.

Lemma empty_left_only_frame (left right : DataFrame) (keys : list string) :
  empty (left_only_frame join_order left right keys)
  = Nat.eqb (List.length
               (left_only_rows (join_indexers join_order left right keys))) 0.
Proof.
  pose proof (iterrows_left_only_frame join_order join_order_perm left right keys) as I.
  apply (f_equal (@List.length _)) in I.
  unfold iterrows in I. rewrite !length_map, length_seq in I.
  unfold empty. rewrite <- I.
  destruct (left_only_frame join_order left right keys); reflexivity.
Qed.

Lemma joinable_distinct (left right : DataFrame) (keys : list string) :
  joinable left right keys = true -> distinct (columns left) = true.
Proof.
  unfold joinable. rewrite !andb_true_iff. tauto.
Qed.


(** X15. For frames the join accepts, with key columns of one kind (integers
    or strings), labels free of [_x] and [_y] and a table that holds texts
    and [None] outside its key: what is sent are the rows of the table
    that have no partner in the layer, each once, with the table's labels
    and values and without [geometry]; when there is such a row, the run
    prints their number. *)
Theorem sync_data_sends_table_rows
    (w : portal) (ago_data db_data : DataFrame) (key_columns : list string)
    (Hjoin : joinable db_data ago_data key_columns = true)
    (Hclean : forallb clean_name (columns db_data ++ columns ago_data) = true)
    (Hkinds : same_kind_keys db_data ago_data key_columns = true)
    (Hplain : plain_table db_data key_columns = true) :
  exists w' sent,
    sync_data edit_features join_order w ago_data db_data key_columns = Ok w' /\
    calls w' = calls w ++ chunks_of chunk_size sent /\
    Permutation sent
      (map (plain_row db_data)
           (filter (unmatched db_data ago_data key_columns) (seq 0 (nrows db_data)))) /\
    (sent <> [] ->
     stdout w' = stdout w ++ [("Added " ++ PyStr.of_nat (List.length sent)
                               ++ " records to AGO.")%string]).
Proof.
  pose proof (records_to_add_clean join_order db_data ago_data key_columns
                Hjoin Hclean (same_kind_no_clash _ _ _ Hkinds)) as Hr.
  pose proof (features_of_left_only_frame db_data ago_data key_columns
                (joinable_distinct _ _ _ Hjoin)) as Hf.
  set (lo := left_only_rows (join_indexers join_order db_data ago_data key_columns)) in *.
  destruct (sync_data_sends R edit_features join_order w ago_data db_data _ key_columns Hr)
    as (w' & Hs & Hc).
  exists w', (map (plain_row db_data) lo).
  rewrite Hf in Hc. repeat split; auto.
  - apply Permutation_map. apply left_only_rows_unmatched. exact join_order_perm.
  - intros Hne. unfold sync_data in Hs. rewrite Hr in Hs. cbn [bind] in Hs.
    rewrite empty_left_only_frame in Hs. fold lo in Hs.
    destruct (Nat.eqb (List.length lo) 0) eqn:E.
    + apply Nat.eqb_eq in E. destruct lo; [contradiction | discriminate].
    + cbn [negb] in Hs.
      assert (Ew : w' = fst (add_to_ago edit_features w
                               (left_only_frame join_order db_data ago_data key_columns)))
        by congruence.
      rewrite Ew.
      destruct (add_to_ago_ignores_answers R R edit_features edit_features w
                  (left_only_frame join_order db_data ago_data key_columns)) as [_ Ho].
      rewrite Ho. rewrite <- length_features_of, Hf. reflexivity.
Qed.

(** X16. For frames with distinct labels, free of [_x], [_y] and of the names
    of the indicator, at least one key, and key columns, where both frames
    have them, of one kind (integers or strings), the run fails only when
    a key column is missing from one of the frames, and then with
    [KeyError] from the join, before anything is sent. *)
Theorem sync_data_fails_on_missing_key_only
    (w : portal) (ago_data db_data : DataFrame) (key_columns : list string)
    (Hframes : distinct (columns db_data) && distinct (columns ago_data)
               && negb (Nat.eqb (List.length key_columns) 0)
               && negb (existsb reserved (columns db_data ++ columns ago_data)) = true)
    (Hclean : forallb clean_name (columns db_data ++ columns ago_data) = true)
    (Hkinds : same_kind_keys db_data ago_data key_columns = true) :
  if forallb (fun k => has_col k db_data && has_col k ago_data) key_columns
  then exists w', sync_data edit_features join_order w ago_data db_data key_columns = Ok w'
  else sync_data edit_features join_order w ago_data db_data key_columns = Raise KeyError.
Proof.
  destruct (forallb (fun k => has_col k db_data && has_col k ago_data) key_columns) eqn:K.
  - assert (Hjoin : joinable db_data ago_data key_columns = true).
    { unfold joinable. rewrite K. rewrite !andb_true_iff in *. tauto. }
    pose proof (records_to_add_clean join_order db_data ago_data key_columns
                  Hjoin Hclean (same_kind_no_clash _ _ _ Hkinds)) as Hr.
    destruct (sync_data_sends R edit_features join_order w ago_data db_data _
                key_columns Hr) as (w' & Hs & _).
    eauto.
  - unfold sync_data, records_to_add, merge_outer. rewrite K. reflexivity.
Qed.



End SyncMore.

(** ** [fetch_ago_data] *)

Section FetchFacts.

Lemma add_labels_spec (d : Feature) : forall seen,
  NoDup seen ->
  NoDup (add_labels seen d) /\
  (forall k, In k (add_labels seen d) <-> In k seen \/ In k (map fst d)).
Proof.
  unfold add_labels. induction d as [|[k v] d IH]; intros seen N; cbn [fold_left].
  - split; [exact N|]. intros k. simpl. tauto.
  - cbn [fst]. destruct (mem k seen) eqn:M.
    + destruct (IH seen N) as [N' S]. split; [exact N'|].
      intros k'. rewrite S. cbn [map fst In]. apply mem_In in M.
      split; [tauto|]. intros [H|[<-|H]]; tauto.
    + apply mem_false in M.
      assert (N1 : NoDup (seen ++ [k])).
      { apply NoDup_app; auto.
        - repeat constructor. intros [].
        - intros a Ia [<-|[]]. contradiction. }
      destruct (IH _ N1) as [N' S]. split; [exact N'|].
      intros k'. rewrite S, in_app_iff. cbn [map fst In]. tauto.
Qed.

Lemma dict_labels_from (ds : list Feature) : forall seen,
  NoDup seen ->
  NoDup (fold_left add_labels ds seen) /\
  (forall k, In k (fold_left add_labels ds seen)
             <-> In k seen \/ exists d, In d ds /\ In k (map fst d)).
Proof.
  induction ds as [|d ds IH]; intros seen N; cbn [fold_left].
  - split; [exact N|]. intros k. split; [tauto|]. intros [H|(d & [] & _)]. exact H.
  - destruct (add_labels_spec d seen N) as [N1 S1].
    destruct (IH _ N1) as [N2 S2]. split; [exact N2|].
    intros k. rewrite S2, S1. split.
    + intros [[H|H]|(d' & I & H)]; eauto.
      * right. exists d. split; [now left | exact H].
      * right. exists d'. split; [now right | exact H].
    + intros [H|(d' & [<-|I] & H)]; eauto.
Qed.

Lemma dict_labels_spec (ds : list Feature) :
  NoDup (dict_labels ds) /\
  (forall k, In k (dict_labels ds) <-> exists d, In d ds /\ In k (map fst d)).
Proof.
  destruct (dict_labels_from ds [] (NoDup_nil _)) as [N S].
  split; [exact N|]. intros k. unfold dict_labels. rewrite S. simpl. tauto.
Qed.

Lemma dict_get_In (d : Feature) (k : string) (v : value) :
  dict_get d k = Some v -> In k (map fst d).
Proof.
  induction d as [|[k' v'] d IH]; simpl; [discriminate|].
  destruct (String.eqb k' k) eqn:E; [|auto].
  intros _. left. now apply String.eqb_eq.
Qed.

Lemma getcol_tabulate (F : string -> Series) (labels : list string) (k : string) :
  In k labels -> getcol (map (fun c => (c, F c)) labels) k = F k.
Proof.
  unfold getcol. induction labels as [|c labels IH]; intros I; [contradiction|].
  cbn [map find fst]. destruct (String.eqb k c) eqn:E.
  - apply String.eqb_eq in E. now subst.
  - destruct I as [->|I]; [rewrite String.eqb_refl in E; discriminate | now apply IH].
Qed.

Lemma columns_frame_of_dicts (ds : list Feature) :
  columns (frame_of_dicts ds) = dict_labels ds.
Proof.
  unfold columns, frame_of_dicts. rewrite map_map. cbn [fst]. apply map_id.
Qed.

Lemma lengths_frame_of_dicts (ds : list Feature) (cs : string * Series) :
  In cs (frame_of_dicts ds) -> List.length (snd cs) = List.length ds.
Proof.
  unfold frame_of_dicts. intros I. apply in_map_iff in I.
  destruct I as (c & <- & _). cbn [snd]. apply length_map.
Qed.

Lemma nrows_frame_of_dicts (ds : list Feature) :
  frame_of_dicts ds <> [] -> nrows (frame_of_dicts ds) = List.length ds.
Proof.
  intros H. destruct (frame_of_dicts ds) as [|[c s] rest] eqn:E; [contradiction|].
  cbn [nrows]. change s with (snd (c, s)). apply lengths_frame_of_dicts.
  rewrite E. now left.
Qed.

Lemma find_app {A : Type} (p : A -> bool) (l l' : list A) :
  find p (l ++ l') = match find p l with
                     | Some x => Some x
                     | None => find p l'
                     end.
Proof.
  induction l as [|a l IH]; [reflexivity|].
  simpl. destruct (p a); [reflexivity | exact IH].
Qed.

(** Putting the geometries next to the attributes never fails. *)
Lemma setitem_geometry (fl : list feature) :
  exists data,
    setitem (frame_of_dicts (map attributes fl)) "geometry" (map geometry_of fl) = Ok data /\
    NoDup (columns data) /\
    (forall cs, In cs data -> List.length (snd cs) = List.length fl) /\
    getcol data "geometry" = map geometry_of fl /\
    (forall k, String.eqb k "geometry" = false ->
               getcol data k = getcol (frame_of_dicts (map attributes fl)) k).
Proof.
  set (ds := map attributes fl). set (gs := map geometry_of fl).
  assert (Lg : List.length gs = List.length fl) by apply length_map.
  assert (Ld : List.length ds = List.length fl) by apply length_map.
  unfold setitem.
  destruct (frame_of_dicts ds) as [|p rest] eqn:E.
  - exists [("geometry", gs)]. repeat split.
    + repeat constructor. intros [].
    + intros cs [<-|[]]. exact Lg.
    + intros k Hk. unfold getcol. cbn [find fst]. rewrite Hk. reflexivity.
  - rewrite <- E.
    assert (Hn : nrows (frame_of_dicts ds) = List.length ds).
    { apply nrows_frame_of_dicts. rewrite E. discriminate. }
    rewrite Hn, Lg, Ld, Nat.eqb_refl. cbn [negb].
    pose proof (dict_labels_spec ds) as [N _].
    rewrite <- columns_frame_of_dicts in N.
    assert (Hlen : forall cs, In cs (frame_of_dicts ds) ->
                              List.length (snd cs) = List.length fl).
    { intros cs I. rewrite <- Ld. now apply lengths_frame_of_dicts. }
    clear E Hn. revert N Hlen. generalize (frame_of_dicts ds) as data.
    intros data N Hlen.
    destruct (has_col "geometry" data) eqn:G.
    + eexists. split; [reflexivity|]. repeat split.
      * unfold columns in *. rewrite map_map.
        erewrite map_ext_in; [exact N|].
        intros cs _. cbn beta. destruct (String.eqb (fst cs) "geometry") eqn:Q;
          [apply String.eqb_eq in Q; now rewrite Q | reflexivity].
      * intros cs I. apply in_map_iff in I. destruct I as (x & <- & Ix).
        destruct (String.eqb (fst x) "geometry"); [exact Lg | now apply Hlen].
      * unfold has_col in G. apply mem_In in G. clear - G.
        unfold getcol, columns in *. induction data as [|[c s] data IH];
          [contradiction|].
        cbn [map find fst]. destruct (String.eqb c "geometry") eqn:Q.
        -- cbn [fst]. rewrite String.eqb_refl. reflexivity.
        -- cbn [fst]. rewrite String.eqb_sym, Q. apply IH.
           destruct G as [G|G]; [|exact G].
           simpl in G. subst c. rewrite String.eqb_refl in Q. discriminate.
      * intros k Hk. clear - Hk. unfold getcol.
        induction data as [|[c s] data IH]; [reflexivity|].
        cbn [map find fst]. destruct (String.eqb c "geometry") eqn:Q.
        -- cbn [fst]. apply String.eqb_eq in Q. subst c.
           rewrite Hk. exact IH.
        -- cbn [fst]. destruct (String.eqb k c); [reflexivity | exact IH].
    + apply mem_false in G. eexists. split; [reflexivity|]. repeat split.
      * unfold columns in *. rewrite map_app. apply NoDup_app; auto.
        -- repeat constructor. intros [].
        -- intros a Ia [<-|[]]. contradiction.
      * intros cs I. apply in_app_or in I. destruct I as [I|[<-|[]]];
          [now apply Hlen | exact Lg].
      * rewrite getcol_skip; [reflexivity|].
        intros cs I E. apply G. rewrite <- E. apply (in_map fst) in I. exact I.
      * intros k Hk. unfold getcol. rewrite find_app.
        destruct (find (fun p => String.eqb k (fst p)) data); [reflexivity|].
        cbn [find fst]. rewrite Hk. reflexivity.
Qed.

Lemma find_layer_none (fs : feature_service) (name : string) :
  find_layer fs name = None <->
  existsb (fun l => String.eqb (layer_name l) name) (layers fs ++ tables fs) = false.
Proof.
  unfold find_layer. generalize (layers fs ++ tables fs) as ls.
  induction ls as [|l ls IH]; simpl; [tauto|].
  destruct (String.eqb (layer_name l) name); simpl; [split; discriminate | exact IH].
Qed.

(** X17. [fetch_ago_data] raises [ValueError] when no layer and no table of
    the service has the name, and returns a frame otherwise. *)
Theorem fetch_ago_data_finds_by_name (fs : feature_service) (name : string) :
  if existsb (fun l => String.eqb (layer_name l) name) (layers fs ++ tables fs)
  then exists data, fetch_ago_data fs name = Ok data
  else fetch_ago_data fs name = Raise ValueError.
Proof.
  destruct (existsb _ _) eqn:E.
  - unfold fetch_ago_data. destruct (find_layer fs name) as [l|] eqn:F.
    + destruct (negb (String.eqb (layer_type l) "Table")); [|eauto].
      destruct (setitem_geometry (layer_features l)) as (data & H & _). eauto.
    + apply find_layer_none in F. congruence.
  - apply find_layer_none in E. unfold fetch_ago_data. rewrite E. reflexivity.
Qed.

(** X18. A layer takes precedence over a table of the same name: when a layer
    has the name, the tables of the service do not matter. *)
Theorem fetch_ago_data_prefers_layers (fs : feature_service) (name : string)
    (others : list layer)
    (Hlayer : existsb (fun l => String.eqb (layer_name l) name) (layers fs) = true) :
  fetch_ago_data fs name
  = fetch_ago_data {| layers := layers fs; tables := others |} name.
Proof.
  unfold fetch_ago_data, find_layer. cbn [layers tables].
  rewrite !find_app.
  destruct (find (fun l => String.eqb (layer_name l) name) (layers fs)) eqn:F;
    [reflexivity|].
  apply existsb_exists in Hlayer. destruct Hlayer as (l & I & E).
  pose proof (find_none _ _ F l I) as Q. simpl in Q. congruence.
Qed.

(** X19. The frame fetched has a distinct label on every column and one row
    for each feature of the layer found; for a layer that is not a table
    the column [geometry] holds the geometries of the features, also
    when the features have an attribute of that name. *)
Theorem fetch_ago_data_shape (fs : feature_service) (name : string) (data : DataFrame)
    (Hfetch : fetch_ago_data fs name = Ok data) :
  exists l,
    find_layer fs name = Some l /\
    layer_name l = name /\
    NoDup (columns data) /\
    (forall cs, In cs data -> List.length (snd cs) = List.length (layer_features l)) /\
    (String.eqb (layer_type l) "Table" = false ->
     getcol data "geometry" = map geometry_of (layer_features l)).
Proof.
  unfold fetch_ago_data in Hfetch.
  destruct (find_layer fs name) as [l|] eqn:F; [|discriminate].
  exists l. split; [reflexivity|]. split.
  { unfold find_layer in F. apply find_some in F. destruct F as [_ F].
    now apply String.eqb_eq in F. }
  destruct (String.eqb (layer_type l) "Table") eqn:T; cbn [negb] in Hfetch.
  - injection Hfetch as <-. split; [|split; [|discriminate]].
    + rewrite columns_frame_of_dicts. apply dict_labels_spec.
    + intros cs I. apply lengths_frame_of_dicts in I.
      rewrite I. apply length_map.
  - destruct (setitem_geometry (layer_features l)) as (d & H & N & L & G & _).
    rewrite H in Hfetch. injection Hfetch as <-. auto.
Qed.

(** X20. Every attribute of every feature that is a text is in the frame, in
    the row of the feature and the column of its name; only an attribute
    named [geometry] of a layer that is not a table is not. *)
Theorem fetch_ago_data_keeps_attributes (fs : feature_service) (name : string)
    (data : DataFrame) (l : layer) (i : nat) (f : feature) (k t : string)
    (Hfetch : fetch_ago_data fs name = Ok data)
    (Hlayer : find_layer fs name = Some l)
    (Hfeature : nth_error (layer_features l) i = Some f)
    (Hattr : dict_get (attributes f) k = Some (VStr t))
    (Hname : String.eqb k "geometry" = false \/ String.eqb (layer_type l) "Table" = true) :
  nth_error (getcol data k) i = Some (VStr t).
Proof.
  unfold fetch_ago_data in Hfetch. rewrite Hlayer in Hfetch.
  set (v := VStr t) in *.
  assert (Hin : In k (dict_labels (map attributes (layer_features l)))).
  { apply dict_labels_spec. exists (attributes f). split.
    - apply in_map. eapply nth_error_In; eauto.
    - eapply dict_get_In; eauto. }
  assert (Hcol : nth_error (getcol (frame_of_dicts (map attributes (layer_features l))) k) i
                 = Some v).
  { unfold frame_of_dicts.
    rewrite (getcol_tabulate
               (fun c => map (fun d => match dict_get d c with
                                       | Some v => v
                                       | None => VNaN
                                       end) (map attributes (layer_features l))))
      by exact Hin.
    rewrite !nth_error_map, Hfeature. simpl. now rewrite Hattr. }
  destruct (String.eqb (layer_type l) "Table") eqn:T; cbn [negb] in Hfetch.
  - injection Hfetch as <-. exact Hcol.
  - destruct Hname as [Hk|Ht]; [|discriminate].
    destruct (setitem_geometry (layer_features l)) as (d & H & _ & _ & _ & G).
    rewrite H in Hfetch. injection Hfetch as <-. rewrite (G k Hk). exact Hcol.
Qed.

End FetchFacts.

(** ** [execute_query], [fetch_db_data] and the run with its fetches *)

Section DatabaseFacts.

Variable execute : string -> list string * list (list value).

Lemma row_tabulated (keys : list string) : forall (r pre : list value),
  List.length r = List.length keys ->
  map (fun jc : nat * string => (snd jc, nth (fst jc) (pre ++ r) VNone))
      (combine (seq (List.length pre) (List.length keys)) keys)
  = combine keys r.
Proof.
  induction keys as [|c keys IH]; intros r pre H; [reflexivity|].
  destruct r as [|v r]; [discriminate|]. simpl in H. injection H as H.
  cbn [List.length seq combine map fst snd]. f_equal.
  - f_equal. apply nth_middle.
  - specialize (IH r (pre ++ [v]) H).
    rewrite <- app_assoc, length_app in IH. cbn [List.length app] in IH.
    rewrite Nat.add_1_r in IH. exact IH.
Qed.

Lemma labels_tabulated (keys : list string) (start : nat) (F : nat -> Series) :
  map fst (map (fun jc : nat * string => (snd jc, F (fst jc)))
               (combine (seq start (List.length keys)) keys)) = keys.
Proof.
  revert start. induction keys as [|c keys IH]; intros start; [reflexivity|].
  cbn [List.length seq combine map fst snd]. f_equal. apply IH.
Qed.

Lemma width_uniform (rows : list (list value)) (n : nat) :
  rows <> [] ->
  forallb (fun r => Nat.eqb (List.length r) n) rows = true ->
  fold_right (fun r m => Nat.max (List.length r) m) 0 rows = n.
Proof.
  induction rows as [|r rows IH]; intros Hne H; [contradiction|].
  cbn [forallb] in H. apply andb_true_iff in H. destruct H as [Hr Hrest].
  apply Nat.eqb_eq in Hr. cbn [fold_right]. rewrite Hr.
  destruct rows as [|r' rows']; [simpl; lia|].
  rewrite IH by (congruence || assumption). lia.
Qed.

(** X21. When the cursor gives one value for each key in every row, and under
    each key integers only or texts and [None] only, the frame has the
    keys of the result as its labels and its rows are the rows fetched,
    value by value; the query sent is [SELECT * FROM] followed by the name
    as it was given. *)
Theorem fetch_db_data_keeps_rows (table_name : string) (keys : list string)
    (rows : list (list value))
    (Hresult : execute ("SELECT * FROM " ++ table_name) = (keys, rows))
    (Hkeys : 0 < List.length keys)
    (Hrows : forallb (fun r => Nat.eqb (List.length r) (List.length keys)) rows = true)
    (Hplain : plain_rows rows keys = true) :
  exists data,
    fetch_db_data execute table_name = Ok data /\
    columns data = keys /\
    iterrows data = map (combine keys) rows.
Proof.
  unfold fetch_db_data, execute_query. rewrite Hresult. cbn [fst snd].
  unfold frame_of_rows. destruct rows as [|r0 rows0] eqn:E.
  - eexists. split; [reflexivity|]. split.
    + unfold columns. rewrite map_map. apply map_id.
    + unfold iterrows. destruct keys; [simpl in Hkeys; lia | reflexivity].
  - rewrite <- E in *.
    rewrite (width_uniform rows (List.length keys)) by (subst; congruence || assumption).
    rewrite Nat.eqb_refl. cbn [negb]. eexists. split; [reflexivity|].
    split; [apply (labels_tabulated keys 0
                     (fun j => map (fun r : list value => nth j r VNone) rows))|].
    unfold iterrows.
    assert (N : nrows (map (fun jc : nat * string =>
                              (snd jc, map (fun r : list value => nth (fst jc) r VNone) rows))
                           (combine (seq 0 (List.length keys)) keys))
                = List.length rows).
    { destruct keys; [simpl in Hkeys; lia|]. cbn. apply length_map. }
    rewrite N.
    transitivity (map (combine keys)
                      (map (fun i => nth i rows []) (seq 0 (List.length rows))));
      [|now rewrite map_nth_seq].
    rewrite map_map.
    apply map_ext_in. intros i Ii. apply in_seq in Ii.
    unfold row_of. rewrite map_map. cbn [fst snd].
    assert (Hr : List.length (nth i rows []) = List.length keys).
    { rewrite forallb_forall in Hrows. apply Nat.eqb_eq. apply Hrows.
      apply nth_In. lia. }
    rewrite <- (row_tabulated keys (nth i rows []) [] Hr).
    apply map_ext. intros [j c]. cbn [fst snd app]. f_equal.
    unfold at_.
    rewrite (nth_indep _ VNaN ((fun r : list value => nth j r VNone) []))
      by (rewrite length_map; lia).
    apply (map_nth (fun r : list value => nth j r VNone)).
Qed.

(** X22. When no layer and no table of the service has the name, the run
    raises [ValueError] at its first step, whatever the database holds. *)
Theorem sync_data_fetching_needs_layer (R : Type)
    (edit_features : list (list Feature) -> list Feature -> R)
    (join_order : list indexer -> list indexer)
    (w : portal) (fs : feature_service) (ago_layer db_table : string)
    (key_columns : list string)
    (Hnone : existsb (fun l => String.eqb (layer_name l) ago_layer)
                     (layers fs ++ tables fs) = false) :
  sync_data_fetching edit_features join_order execute w fs ago_layer db_table key_columns
  = Raise ValueError.
Proof.
  unfold sync_data_fetching.
  pose proof (fetch_ago_data_finds_by_name fs ago_layer) as H.
  rewrite Hnone in H. rewrite H. reflexivity.
Qed.

End DatabaseFacts.

(** * Further runs on the sample frames *)

Import SampleSources.

Lemma prepare_data_keeps_shape_witness :
  prepare_data repr_dict hex_point table_dates false
  = Ok (prepared repr_dict table_dates) /\
  (columns (prepared repr_dict table_dates) = columns table_dates /\
   map (fun cs => List.length (snd cs)) (prepared repr_dict table_dates)
   = map (fun cs => List.length (snd cs)) table_dates).
Proof.
  split; [reflexivity|].
  apply (prepare_data_keeps_shape repr_dict hex_point table_dates
           (prepared repr_dict table_dates) false).
  reflexivity.
Defined.

Lemma prepare_data_leaves_no_missing_witness :
  prepare_data repr_dict hex_point table_dates false
  = Ok (prepared repr_dict table_dates) /\
  In ("Notes", [VStr "<b>x</b>"; VStr ""]) (prepared repr_dict table_dates) /\
  In (VStr "") [VStr "<b>x</b>"; VStr ""] /\
  isnull (VStr "") = false.
Proof.
  split; [reflexivity|].
  split; [do 3 right; left; reflexivity|].
  split; [right; left; reflexivity|].
  apply (prepare_data_leaves_no_missing repr_dict hex_point table_dates
           (prepared repr_dict table_dates) false "Notes"
           [VStr "<b>x</b>"; VStr ""] (VStr "")).
  - reflexivity.
  - do 3 right. left. reflexivity.
  - right. left. reflexivity.
Defined.

Lemma note_columns_have_no_tag_witness :
  prepare_data repr_dict hex_point table_dates false
  = Ok (prepared repr_dict table_dates) /\
  In ("field_notes", [VStr "Hello world"; VStr ""]) (prepared repr_dict table_dates) /\
  is_note_col "field_notes" = true /\
  In (VStr "Hello world") [VStr "Hello world"; VStr ""] /\
  exists t, VStr "Hello world" = VStr t /\ has_tag t = false.
Proof.
  split; [reflexivity|].
  split; [do 4 right; left; reflexivity|].
  split; [reflexivity|].
  split; [left; reflexivity|].
  apply (note_columns_have_no_tag repr_dict hex_point table_dates
           (prepared repr_dict table_dates) false "field_notes"
           [VStr "Hello world"; VStr ""] (VStr "Hello world")).
  - reflexivity.
  - do 4 right. left. reflexivity.
  - reflexivity.
  - left. reflexivity.
Defined.

Lemma prepare_data_keeps_plain_text_witness :
  prepare_data repr_dict hex_point table_dates false
  = Ok (prepared repr_dict table_dates) /\
  nth_error table_dates 1 = Some ("visit_date", [VNone; VStr "2024-05-01"]) /\
  nth_error [VNone; VStr "2024-05-01"] 1 = Some (VStr "2024-05-01") /\
  (is_note_col "visit_date" = false \/ has_tag "2024-05-01" = false) /\
  exists s',
    nth_error (prepared repr_dict table_dates) 1 = Some ("visit_date", s') /\
    nth_error s' 1 = Some (VStr "2024-05-01").
Proof.
  split; [reflexivity|]. split; [reflexivity|]. split; [reflexivity|].
  split; [left; reflexivity|].
  apply (prepare_data_keeps_plain_text repr_dict hex_point table_dates
           (prepared repr_dict table_dates) false 1 1 "visit_date"
           [VNone; VStr "2024-05-01"] "2024-05-01").
  - reflexivity.
  - reflexivity.
  - reflexivity.
  - left. reflexivity.
Defined.

(** A geometry without [y] stops the spatial run with [KeyError]. *)
Example geometry_without_y :
  geometries_ok spatial_no_y = false
  /\ prepare_data repr_dict hex_point spatial_no_y true = Raise KeyError.
Proof. split; reflexivity. Qed.

Lemma prepare_data_encodes_geometry_witness :
  prepare_data repr_dict hex_point spatial_ok true
  = Ok [("objectid", [VInt 1; VInt 2]);
        ("geometry", [VStr "0101000000/3/4"; VStr "0101000000/5/6"])] /\
  nth_error spatial_ok 1
  = Some ("geometry", [VGeom [("x", 3%Z); ("y", 4%Z)]; VGeom [("y", 6%Z); ("x", 5%Z)]]) /\
  nth_error [VGeom [("x", 3%Z); ("y", 4%Z)]; VGeom [("y", 6%Z); ("x", 5%Z)]] 1
  = Some (VGeom [("y", 6%Z); ("x", 5%Z)]) /\
  exists x y s',
    point_of (VGeom [("y", 6%Z); ("x", 5%Z)]) = Some (x, y) /\
    nth_error [("objectid", [VInt 1; VInt 2]);
               ("geometry", [VStr "0101000000/3/4"; VStr "0101000000/5/6"])] 1
    = Some ("geometry", s') /\
    nth_error s' 1 = Some (VStr (hex_point x y)).
Proof.
  split; [reflexivity|]. split; [reflexivity|]. split; [reflexivity|].
  apply (prepare_data_encodes_geometry repr_dict hex_point spatial_ok
           [("objectid", [VInt 1; VInt 2]);
            ("geometry", [VStr "0101000000/3/4"; VStr "0101000000/5/6"])]
           1 1
           [VGeom [("x", 3%Z); ("y", 4%Z)]; VGeom [("y", 6%Z); ("x", 5%Z)]]
           (VGeom [("y", 6%Z); ("x", 5%Z)])); reflexivity.
Defined.

Lemma spatial_flag_needs_geometry_witness :
  has_col "geometry" table_dates = false /\
  prepare_data repr_dict hex_point table_dates true
  = prepare_data repr_dict hex_point table_dates false.
Proof.
  split; [reflexivity|].
  apply (spatial_flag_needs_geometry repr_dict hex_point table_dates). reflexivity.
Defined.

Lemma add_to_ago_without_rows_witness :
  nrows (numbered 0) = 0 /\
  add_to_ago count_added fresh (numbered 0)
  = ({| calls := calls fresh; stdout := stdout fresh ++ ["Added 0 records to AGO."] |},
     Raise UnboundLocalError).
Proof.
  split; [reflexivity|].
  apply (add_to_ago_without_rows nat count_added fresh (numbered 0)). reflexivity.
Defined.

Lemma add_to_ago_sends_rows_witness :
  distinct (columns table_wkb) = true /\
  plain_frame table_wkb = true /\
  exists chunks,
    calls (fst (add_to_ago count_added fresh table_wkb)) = calls fresh ++ chunks /\
    concat chunks = map (plain_row table_wkb) (seq 0 (nrows table_wkb)).
Proof.
  split; [reflexivity|]. split; [reflexivity|].
  apply (add_to_ago_sends_rows nat count_added fresh table_wkb); reflexivity.
Defined.

Lemma sync_data_calls_add_to_ago_with_rows_witness :
  records_to_add found_order table_123 layer_12 ["unique_id"]
  = Ok [("unique_id", [VInt 3]); ("name", [VStr "c"])] /\
  empty [("unique_id", [VInt 3]); ("name", [VStr "c"])] = false /\
  exists w' r,
    add_to_ago count_added fresh [("unique_id", [VInt 3]); ("name", [VStr "c"])]
    = (w', Ok r) /\
    sync_data count_added found_order fresh layer_12 table_123 ["unique_id"] = Ok w'.
Proof.
  split; [vm_compute; reflexivity|]. split; [reflexivity|].
  apply (sync_data_calls_add_to_ago_with_rows nat count_added found_order fresh
           layer_12 table_123 [("unique_id", [VInt 3]); ("name", [VStr "c"])]
           ["unique_id"]).
  - vm_compute. reflexivity.
  - reflexivity.
Defined.


Lemma sync_data_sends_table_rows_witness :
  joinable table_123 layer_12 ["unique_id"] = true /\
  forallb clean_name (columns table_123 ++ columns layer_12) = true /\
  same_kind_keys table_123 layer_12 ["unique_id"] = true /\
  plain_table table_123 ["unique_id"] = true /\
  exists w' sent,
    sync_data count_added found_order fresh layer_12 table_123 ["unique_id"] = Ok w' /\
    calls w' = calls fresh ++ chunks_of chunk_size sent /\
    Permutation sent
      (map (plain_row table_123)
           (filter (unmatched table_123 layer_12 ["unique_id"])
                   (seq 0 (nrows table_123)))) /\
    (sent <> [] ->
     stdout w' = stdout fresh ++ [("Added " ++ PyStr.of_nat (List.length sent)
                                   ++ " records to AGO.")%string]).
Proof.
  repeat (split; [reflexivity|]).
  apply (sync_data_sends_table_rows nat count_added found_order found_order_perm
           fresh layer_12 table_123 ["unique_id"]); reflexivity.
Defined.

Lemma sync_data_fails_on_missing_key_only_witness :
  distinct (columns table_123) && distinct (columns layer_12)
  && negb (Nat.eqb (List.length ["globalid"]) 0)
  && negb (existsb reserved (columns table_123 ++ columns layer_12)) = true /\
  forallb clean_name (columns table_123 ++ columns layer_12) = true /\
  same_kind_keys table_123 layer_12 ["globalid"] = true /\
  sync_data count_added found_order fresh layer_12 table_123 ["globalid"]
  = Raise KeyError.
Proof.
  repeat (split; [reflexivity|]).
  apply (sync_data_fails_on_missing_key_only nat count_added found_order
           fresh layer_12 table_123 ["globalid"]); reflexivity.
Defined.


(** A coordinate that no float holds stops the spatial run. *)
Example coordinate_beyond_floats :
  prepare_data repr_dict hex_point
    [("geometry", [VGeom [("x", (10 ^ 400)%Z); ("y", 0%Z)]])] true
  = Raise OverflowError.
Proof. vm_compute. reflexivity. Qed.

Lemma fetch_ago_data_prefers_layers_witness :
  existsb (fun l => String.eqb (layer_name l) "sites") (layers service) = true /\
  fetch_ago_data service "sites"
  = fetch_ago_data {| layers := layers service;
                      tables := [{| layer_name := "sites"; layer_type := "Table";
                                    layer_features := [] |}] |} "sites".
Proof.
  split; [reflexivity|].
  apply (fetch_ago_data_prefers_layers service "sites"). reflexivity.
Defined.

Lemma fetch_ago_data_shape_witness :
  fetch_ago_data service "sites"
  = Ok [("unique_id", [VInt 1; VInt 2]); ("name", [VStr "a"; VStr "b"]);
        ("remark", [VNaN; VStr "r"]);
        ("geometry", [VGeom [("x", 1%Z); ("y", 2%Z)]; VNone])] /\
  exists l,
    find_layer service "sites" = Some l /\
    layer_name l = "sites" /\
    NoDup (columns [("unique_id", [VInt 1; VInt 2]); ("name", [VStr "a"; VStr "b"]);
                    ("remark", [VNaN; VStr "r"]);
                    ("geometry", [VGeom [("x", 1%Z); ("y", 2%Z)]; VNone])]) /\
    (forall cs,
       In cs [("unique_id", [VInt 1; VInt 2]); ("name", [VStr "a"; VStr "b"]);
              ("remark", [VNaN; VStr "r"]);
              ("geometry", [VGeom [("x", 1%Z); ("y", 2%Z)]; VNone])] ->
       List.length (snd cs) = List.length (layer_features l)) /\
    (String.eqb (layer_type l) "Table" = false ->
     getcol [("unique_id", [VInt 1; VInt 2]); ("name", [VStr "a"; VStr "b"]);
             ("remark", [VNaN; VStr "r"]);
             ("geometry", [VGeom [("x", 1%Z); ("y", 2%Z)]; VNone])] "geometry"
     = map geometry_of (layer_features l)).
Proof.
  split; [reflexivity|].
  apply (fetch_ago_data_shape service "sites"). reflexivity.
Defined.

Lemma fetch_ago_data_keeps_attributes_witness :
  fetch_ago_data service "sites"
  = Ok [("unique_id", [VInt 1; VInt 2]); ("name", [VStr "a"; VStr "b"]);
        ("remark", [VNaN; VStr "r"]);
        ("geometry", [VGeom [("x", 1%Z); ("y", 2%Z)]; VNone])] /\
  find_layer service "sites" = Some sites /\
  nth_error (layer_features sites) 1
  = Some {| attributes := [("unique_id", VInt 2); ("name", VStr "b");
                           ("remark", VStr "r")];
            geometry_of := VNone |} /\
  dict_get [("unique_id", VInt 2); ("name", VStr "b"); ("remark", VStr "r")] "remark"
  = Some (VStr "r") /\
  (String.eqb "remark" "geometry" = false \/ String.eqb (layer_type sites) "Table" = true) /\
  nth_error (getcol [("unique_id", [VInt 1; VInt 2]); ("name", [VStr "a"; VStr "b"]);
                     ("remark", [VNaN; VStr "r"]);
                     ("geometry", [VGeom [("x", 1%Z); ("y", 2%Z)]; VNone])] "remark") 1
  = Some (VStr "r").
Proof.
  split; [reflexivity|]. split; [reflexivity|]. split; [reflexivity|].
  split; [reflexivity|]. split; [left; reflexivity|].
  apply (fetch_ago_data_keeps_attributes service "sites" _ sites 1
           {| attributes := [("unique_id", VInt 2); ("name", VStr "b");
                             ("remark", VStr "r")];
              geometry_of := VNone |} "remark" "r").
  - reflexivity.
  - reflexivity.
  - reflexivity.
  - reflexivity.
  - left. reflexivity.
Defined.

Lemma fetch_db_data_keeps_rows_witness :
  database ("SELECT * FROM " ++ "public.sites")
  = (["unique_id"; "name"],
     [[VInt 1; VStr "a"]; [VInt 2; VStr "b"]; [VInt 3; VStr "c"]]) /\
  0 < List.length ["unique_id"; "name"] /\
  forallb (fun r => Nat.eqb (List.length r) (List.length ["unique_id"; "name"]))
          [[VInt 1; VStr "a"]; [VInt 2; VStr "b"]; [VInt 3; VStr "c"]] = true /\
  plain_rows [[VInt 1; VStr "a"]; [VInt 2; VStr "b"]; [VInt 3; VStr "c"]]
             ["unique_id"; "name"] = true /\
  exists data,
    fetch_db_data database "public.sites" = Ok data /\
    columns data = ["unique_id"; "name"] /\
    iterrows data
    = map (combine ["unique_id"; "name"])
          [[VInt 1; VStr "a"]; [VInt 2; VStr "b"]; [VInt 3; VStr "c"]].
Proof.
  split; [reflexivity|]. split; [simpl; lia|]. split; [reflexivity|].
  split; [reflexivity|].
  apply (fetch_db_data_keeps_rows database "public.sites").
  - reflexivity.
  - simpl. lia.
  - reflexivity.
  - reflexivity.
Defined.

(** The whole run on the sample service and database: the table row with
    key 3 is sent to the layer. *)
Example sync_data_fetching_sample :
  sync_data_fetching count_added found_order database fresh service
    "sites" "public.sites" ["unique_id"]
  = Ok {| calls := [[[("unique_id", VInt 3); ("name", VStr "c")]]];
          stdout := ["Added 1 records to AGO."] |}.
Proof. vm_compute. reflexivity. Qed.

Lemma sync_data_fetching_needs_layer_witness :
  existsb (fun l => String.eqb (layer_name l) "roads")
          (layers service ++ tables service) = false /\
  sync_data_fetching count_added found_order database fresh service
    "roads" "public.sites" ["unique_id"]
  = Raise ValueError.
Proof.
  split; [reflexivity|].
  apply (sync_data_fetching_needs_layer database nat count_added found_order
           fresh service "roads" "public.sites" ["unique_id"]).
  reflexivity.
Defined.
